(** * en_words_bot: review selection, mastery update and task life cycle

    A shallow embedding of the spaced-repetition core of the bot:
    - [config/settings.py]   : [LearningConfig] (interval table, boosts);
    - [database/models.py]   : the four tables;
    - [database/crud.py]     : the queries and updates on them;
    - [services/ai_service.py], [bot/keyboards.py];
    - [scheduler/tasks.py]   : the per-user tick [send_task_to_user] and
      the registry of the users' jobs;
    - [bot/handlers/answers.py] : the two answer handlers;
    - [bot/handlers/basic_commands.py] : "/start", "I woke up" and
      "went to bed";
    - [bot/handlers/word_management.py] : the "do not disturb" dialogue.

    Conventions of the embedding.
    - A [datetime] is the number of microseconds since the epoch, a [Z];
      a [timedelta] is a number of microseconds.
    - A table is a finite map from primary key to the row's columns; a row
      loaded by the ORM is the pair of its key and its columns, so that
      Python's [row.id] is [row.1].
    - [async def f(session, ...)] is an action of the monad [M]: it threads
      the session's database, the log of commits, the number of clock
      reads made so far and the messages sent to Telegram, and it may
      raise.
    - Every [datetime.utcnow()] is one read of the world's [clock], the
      n-th read returning [clock n]; the replies of the language model and
      the draw of [random.choice] are arguments of the operation that
      consumes them.
    - A query whose [ORDER BY] leaves rows tied returns them in the order
      the sort of the model leaves them in; no statement below depends on
      how ties are broken.
    - A [str] is the [string] of its UTF-8 bytes. [str.strip] is modelled
      for every text, [int] and [str.lower] for ASCII text; a statement
      that needs more says so in a hypothesis ([Py.isascii]).
    - Python integers are unbounded, a [Z]; where the code hands one to
      [timedelta], to [datetime] arithmetic or, from user input, to a
      query, the [OverflowError] out of range is part of the model. *)

From Stdlib Require Import QArith Qround Ascii.
From stdpp Require Import base gmap list strings sorting pretty.

Open Scope Z_scope.

(** ** Python values *)

Module Py.

(** The exceptions that the modelled code can raise. *)
Inductive exn :=
| IndexError
| TypeError
| ValueError
| RuntimeError
| AttributeError
| MultipleResultsFound
| UnmappedInstanceError
| InvalidRequestError
| OverflowError.

(** [l[i]] on a list: negative indices count from the end. *)
Definition getitem {A} (l : list A) (i : Z) : option A :=
  let n := Z.of_nat (length l) in
  if bool_decide (0 ≤ i) then l !! Z.to_nat i
  else if bool_decide (- n ≤ i) then l !! Z.to_nat (n + i)
  else None.

(** [s.split(sep)] for a one-character separator. *)
Fixpoint split (sep : ascii) (s : string) : list string :=
  match s with
  | EmptyString => [EmptyString]
  | String c s' =>
      if bool_decide (c = sep) then EmptyString :: split sep s'
      else match split sep s' with
           | h :: t => String c h :: t
           | [] => [String c EmptyString]
           end
  end.

(** [s.startswith(p)]. *)
Fixpoint startswith (p s : string) : bool :=
  match p, s with
  | EmptyString, _ => true
  | String a p', String b s' => bool_decide (a = b) && startswith p' s'
  | String _ _, EmptyString => false
  end.

(** A [string] holds the UTF-8 encoding of a Python [str]; ASCII text
    is text without a byte above 127, [s.isascii()]. *)
Definition isascii (s : string) : bool :=
  forallb (λ c, (N_of_ascii c <? 128)%N) (String.list_ascii_of_string s).

(** [c.isspace()] of an ASCII character: 0x09-0x0D and 0x1C-0x20. *)
Definition isspace (c : ascii) : bool :=
  let n := N.to_nat (N_of_ascii c) in
  ((9 <=? n)%nat && (n <=? 13)%nat) || ((28 <=? n)%nat && (n <=? 32)%nat).

(** The white space [int()] skips around the digits of ASCII text: 0x09-0x0D
    and 0x20 only (0x1C-0x1F are white space for [str.isspace], not for
    [int]). *)
Definition int_space (c : ascii) : bool :=
  let n := N.to_nat (N_of_ascii c) in
  ((9 <=? n)%nat && (n <=? 13)%nat) || (n =? 32)%nat.

Definition digit (c : ascii) : option Z :=
  let n := Z.of_N (N_of_ascii c) in
  if bool_decide (48 ≤ n ≤ 57) then Some (n - 48) else None.

Fixpoint lstrip (l : list ascii) : list ascii :=
  match l with
  | c :: l' => if int_space c then lstrip l' else l
  | [] => []
  end.

Definition strip (l : list ascii) : list ascii :=
  reverse (lstrip (reverse (lstrip l))).

(** Value of what follows a digit in a decimal literal, most significant
    first: digits, each of which may be preceded by one underscore. *)
Fixpoint digits (acc : Z) (l : list ascii) : option Z :=
  match l with
  | [] => Some acc
  | c :: l' =>
      match digit c with
      | Some d => digits (10 * acc + d) l'
      | None =>
          if bool_decide (c = "_"%char) then
            match l' with
            | c' :: l'' =>
                match digit c' with
                | Some d => digits (10 * acc + d) l''
                | None => None
                end
            | [] => None
            end
          else None
      end
  end.

(** A decimal literal starts with a digit. *)
Definition unsigned (l : list ascii) : option Z :=
  match l with
  | c :: _ =>
      match digit c with
      | Some _ => digits 0 l
      | None => None
      end
  | [] => None
  end.

(** [int(s)] for ASCII text [s]: white space around, an optional sign,
    then a decimal literal (digits, single underscores between them).
    [None] is [ValueError]. A result [Some z] is the result of [int(s)]
    for every [s] (such an [s] is ASCII); [None] is the result of
    [int(s)] when [s] is ASCII. Text with other characters is outside
    this definition: [int] also reads the decimal digits and the white
    space of other scripts, so the statements that rest on a [None] carry
    [isascii] as a hypothesis. *)
Definition int (s : string) : option Z :=
  match strip (String.list_ascii_of_string s) with
  | "-"%char :: l => Z.opp <$> unsigned l
  | "+"%char :: l => unsigned l
  | l => unsigned l
  end.

(** Half-to-even rounding of a rational to an integer, as [timedelta]
    rounds to whole microseconds. *)
Definition round_half_even (q : Q) : Z :=
  let f := Qfloor q in
  match (q - inject_Z f ?= 1 # 2)%Q with
  | Lt => f
  | Gt => f + 1
  | Eq => if Z.even f then f else f + 1
  end.

(** The microseconds of [h] hours and of [m] minutes. *)
Definition timedelta_hours (h : Q) : Z :=
  round_half_even (h * inject_Z 3600000000)%Q.

Definition timedelta_minutes (m : Z) : Z := m * 60000000.

(** The values a [timedelta] and a [datetime] can hold, in microseconds:
    [timedelta.min] to [timedelta.max] (the days have magnitude at most
    999999999), and [datetime.min] to [datetime.max] (years 1 to 9999)
    counted from the epoch. *)
Definition timedelta_min : Z := - (999999999 * 86400000000).
Definition timedelta_max : Z := 1000000000 * 86400000000 - 1.
Definition datetime_min : Z := -62135596800000000.
Definition datetime_max : Z := 253402300799999999.

(** [timedelta(minutes=m)] for an integer [m]; [None] is
    [OverflowError]. *)
Definition timedelta_of_minutes (m : Z) : option Z :=
  let us := timedelta_minutes m in
  if bool_decide (timedelta_min ≤ us ≤ timedelta_max) then Some us
  else None.

(** The integers that can be bound as a parameter of a query. *)
Definition int64 (z : Z) : Prop := - 2 ^ 63 ≤ z < 2 ^ 63.

(** [dt + td]; [None] is [OverflowError]. *)
Definition datetime_add (dt td : Z) : option Z :=
  if bool_decide (datetime_min ≤ dt + td ≤ datetime_max) then Some (dt + td)
  else None.

(** [s.lower()] for ASCII text: A-Z are folded. Lower-casing the letters
    of other scripts is outside this definition (a byte above 127 is left
    as it is), so the statements that rest on it carry [isascii] as a
    hypothesis. *)
Definition lower (c : ascii) : ascii :=
  let n := N_of_ascii c in
  if bool_decide (65 ≤ n ≤ 90)%N then ascii_of_N (n + 32) else c.

Definition str_lower (s : string) : string :=
  String.string_of_list_ascii (lower <$> String.list_ascii_of_string s).

(** [s.strip()]: the characters with [c.isspace()] are removed from both
    ends. Beside the ASCII ones these are U+0085, U+00A0, U+1680,
    U+2000-U+200A, U+2028, U+2029, U+202F, U+205F and U+3000, of two or
    three bytes each; [space2 a b] and [space3 a b c] recognise their
    encodings. *)
Definition space2 (a b : ascii) : bool :=
  let a := N_of_ascii a in
  let b := N_of_ascii b in
  ((a =? 194) && ((b =? 133) || (b =? 160)))%N.

Definition space3 (a b c : ascii) : bool :=
  let a := N_of_ascii a in
  let b := N_of_ascii b in
  let c := N_of_ascii c in
  (((a =? 225) && (b =? 154) && (c =? 128))
   || ((a =? 226) && (b =? 128)
       && (((128 <=? c) && (c <=? 138)) || (c =? 168) || (c =? 169)
           || (c =? 175)))
   || ((a =? 226) && (b =? 129) && (c =? 159))
   || ((a =? 227) && (b =? 128) && (c =? 128)))%N.

(** Removing white space from the front of a list of bytes; [s2] and
    [s3] recognise the characters of two and of three bytes. *)
Fixpoint lstrip_spaces (s2 : ascii → ascii → bool)
    (s3 : ascii → ascii → ascii → bool) (l : list ascii) : list ascii :=
  match l with
  | a :: l1 =>
      if isspace a then lstrip_spaces s2 s3 l1
      else
        match l1 with
        | b :: l2 =>
            if s2 a b then lstrip_spaces s2 s3 l2
            else
              match l2 with
              | c :: l3 => if s3 a b c then lstrip_spaces s2 s3 l3 else l
              | [] => l
              end
        | [] => l
        end
  | [] => []
  end.

(** The end of the text is stripped on the reversed bytes, where the
    bytes of a character come in reverse. *)
Definition str_strip (s : string) : string :=
  let front := lstrip_spaces space2 space3 (String.list_ascii_of_string s) in
  let back :=
    lstrip_spaces (λ a b, space2 b a) (λ a b c, space3 c b a)
                  (reverse front) in
  String.string_of_list_ascii (reverse back).

End Py.

(** ** config/settings.py *)

Module LearningConfig.

(** Priorities of the selection (the higher, the more urgent). *)
Definition NEW_WORD_PRIORITY : Z := 3.
Definition STRUGGLING_WORD_PRIORITY : Z := 2.
Definition REVIEW_WORD_PRIORITY : Z := 1.

(** [REVIEW_INTERVALS]: knowledge band (inclusive) to hours, in the
    insertion order of the dict. *)
Definition REVIEW_INTERVALS : list ((Z * Z) * Q) :=
  [ ((0, 20), 0.5%Q);
    ((21, 50), 4%Q);
    ((51, 70), 24%Q);
    ((71, 89), 72%Q);
    ((90, 100), 168%Q) ].

Definition CORRECT_ANSWER_BOOST : Z := 15.
Definition INCORRECT_ANSWER_PENALTY : Z := 10.
Definition MIN_KNOWLEDGE : Z := 0.
Definition MAX_KNOWLEDGE : Z := 100.

(** The loop of [get_review_interval] over the items of a table. *)
Fixpoint first_band (table : list ((Z * Z) * Q)) (knowledge_percent : Z)
  : option Q :=
  match table with
  | [] => None
  | ((min_k, max_k), hours) :: rest =>
      if bool_decide (min_k ≤ knowledge_percent ≤ max_k) then Some hours
      else first_band rest knowledge_percent
  end.

Definition get_review_interval (knowledge_percent : Z) : Q :=
  match first_band REVIEW_INTERVALS knowledge_percent with
  | Some hours => hours
  | None => 168%Q
  end.

End LearningConfig.

(** ** database/models.py *)

Module User.
Record t := mk {
  telegram_id : Z;
  is_active : bool;
  interval_minutes : Z;
  do_not_disturb_until : option Z;
  created_at : Z;
  updated_at : Z }.
End User.

Module Word.
Record t := mk {
  word_en : string;
  word_ru : string;
  created_at : Z }.
End Word.

Module UserWordProgress.
Record t := mk {
  user_id : Z;
  word_id : Z;
  knowledge_percent : Z;
  last_reviewed_at : option Z;
  next_review_at : Z;
  correct_answers_count : Z;
  total_answers_count : Z;
  created_at : Z;
  updated_at : Z }.
End UserWordProgress.

(** The payload of a task, [json.loads(task.task_content)]: the JSON
    object the generator was asked for. A key is absent ([None], what
    [dict.get] returns) or holds a value of the type the prompt asks
    for. *)
Module TaskData.
Record t := mk {
  task_type : option string;
  sentence_ru : option string;
  sentence_en : option string;
  correct_answer_en : option string;
  correct_answer_ru : option string;
  question : option string;
  options : option (list string);
  correct_index : option Z }.
End TaskData.

Module TaskHistory.
Record t := mk {
  user_id : Z;
  word_id : Z;
  task_type : string;
  task_content : TaskData.t;
  user_answer : option string;
  is_correct : option bool;
  ai_feedback : option string;
  created_at : Z }.
End TaskHistory.

Record DB := mkDB {
  users : gmap Z User.t;
  words : gmap Z Word.t;
  user_word_progress : gmap Z UserWordProgress.t;
  task_history : gmap Z TaskHistory.t }.

(** ** The session monad *)

(** What the bot sends to Telegram. The wording of a message is not
    modelled, its kind and the data it carries are. *)
Inductive message :=
| AllReviewed                      (* tick: no word is due *)
| GenerationFailed                 (* tick: the [except] branch *)
| TranslateToEn (sentence_ru : option string)
| TranslateToRu (sentence_en : option string)
| ChooseOption (question : option string) (buttons : list (string * string))
| NoActiveTask                     (* text answer: no pending task *)
| NeedsOptionChoice                (* text answer to a multiple choice *)
| TextGraded (right : bool) (feedback : option string) (knowledge : Z)
| CheckFailed                      (* text answer: the [except] branch *)
| AlertNotFound                    (* callback: unknown task id *)
| AlertAlreadyAnswered             (* callback: outcome already set *)
| EditWithResult (feedback : string) (knowledge : Z)
| CallbackAnswered.

Record World := mkWorld {
  db : DB;                      (* the session's view of the database *)
  commits : list DB;            (* every committed snapshot, oldest first *)
  clock : nat → Z;              (* the n-th reading of [datetime.utcnow()] *)
  reads : nat;                  (* clock readings made so far *)
  outbox : list (Z * message)   (* (chat, message), oldest first *) }.

Inductive res (A : Type) :=
| Ok (a : A)
| Raise (e : Py.exn).
Arguments Ok {A} a.
Arguments Raise {A} e.

Definition M (A : Type) : Type := World → res A * World.

Definition ret {A} (a : A) : M A := λ w, (Ok a, w).

Definition bind {A B} (m : M A) (k : A → M B) : M B :=
  λ w, match m w with
       | (Ok a, w') => k a w'
       | (Raise e, w') => (Raise e, w')
       end.

Definition raise {A} (e : Py.exn) : M A := λ w, (Raise e, w).

(** The value of an operation that raises [OverflowError] out of range. *)
Definition or_overflow {A} (o : option A) : M A :=
  match o with
  | Some a => ret a
  | None => raise Py.OverflowError
  end.

(** [try: body / except Exception: handler]. What the body committed or
    sent before it raised stays. *)
Definition try_except {A} (body : M A) (handler : Py.exn → M A) : M A :=
  λ w, match body w with
       | (Ok a, w') => (Ok a, w')
       | (Raise e, w') => handler e w'
       end.

(** stdpp's monad notation: [x ← m; k] and [m;; k]. *)
#[export] Instance M_ret : MRet M := @ret.
#[export] Instance M_bind : MBind M := λ A B k m, bind m k.

Definition utcnow : M Z :=
  λ w, (Ok (clock w (reads w)),
        mkWorld (db w) (commits w) (clock w) (S (reads w)) (outbox w)).

Definition get_db : M DB := λ w, (Ok (db w), w).

Definition put_db (d : DB) : M unit :=
  λ w, (Ok (), mkWorld d (commits w) (clock w) (reads w) (outbox w)).

(** [await session.commit()]. *)
Definition commit : M unit :=
  λ w, (Ok (), mkWorld (db w) (commits w ++ [db w]) (clock w) (reads w)
                       (outbox w)).

(** [bot.send_message], [message.answer], [callback.answer] and
    [callback.message.edit_text]. *)
Definition send_message (chat : Z) (msg : message) : M unit :=
  λ w, (Ok (), mkWorld (db w) (commits w) (clock w) (reads w)
                       (outbox w ++ [(chat, msg)])).

(** [result.scalar_one_or_none()]. *)
Definition scalar_one_or_none {A} (rows : list A) : M (option A) :=
  match rows with
  | [] => ret None
  | [r] => ret (Some r)
  | _ => raise Py.MultipleResultsFound
  end.

(** The key an [INTEGER PRIMARY KEY] column gives a new row: one more than
    the largest key in use. *)
Definition fresh_id {A} (table : gmap Z A) : Z :=
  1 + map_fold (λ k _ acc, Z.max k acc) 0 table.

Definition set_users (t : gmap Z User.t) (d : DB) : DB :=
  mkDB t (words d) (user_word_progress d) (task_history d).
Definition set_user_word_progress (t : gmap Z UserWordProgress.t) (d : DB)
  : DB :=
  mkDB (users d) (words d) t (task_history d).
Definition set_task_history (t : gmap Z TaskHistory.t) (d : DB) : DB :=
  mkDB (users d) (words d) (user_word_progress d) t.

(** ** database/crud.py *)

Module crud.

(** *** Users *)

Definition get_user_by_telegram_id (telegram_id : Z)
  : M (option (Z * User.t)) :=
  d ← get_db;
  scalar_one_or_none
    (filter (λ r, User.telegram_id r.2 = telegram_id)
            (map_to_list (users d))).

(** [User(telegram_id=telegram_id, is_active=False)]; the other columns
    take their defaults at the insert. The caller has just looked the
    [telegram_id] up and found no row. *)
Definition create_user (telegram_id : Z) : M (Z * User.t) :=
  created ← utcnow;
  updated ← utcnow;
  d ← get_db;
  let id := fresh_id (users d) in
  let user := User.mk telegram_id false 30 None created updated in
  put_db (set_users (<[id := user]> (users d)) d);;
  commit;;
  ret (id, user).

Definition get_or_create_user (telegram_id : Z) : M (Z * User.t) :=
  user ← get_user_by_telegram_id telegram_id;
  match user with
  | Some u => ret u
  | None => create_user telegram_id
  end.

Definition update_user_active_status (user_id : Z) (is_active : bool)
  : M unit :=
  now ← utcnow;
  d ← get_db;
  put_db (set_users
            (alter (λ u, User.mk (User.telegram_id u) is_active
                                 (User.interval_minutes u)
                                 (User.do_not_disturb_until u)
                                 (User.created_at u) now)
                   user_id (users d)) d);;
  commit.

Definition set_do_not_disturb (user_id : Z) (minutes : Z) : M unit :=
  (* until = datetime.utcnow() + timedelta(minutes=minutes) *)
  now ← utcnow;
  delta ← or_overflow (Py.timedelta_of_minutes minutes);
  until ← or_overflow (Py.datetime_add now delta);
  updated ← utcnow;
  d ← get_db;
  put_db (set_users
            (alter (λ u, User.mk (User.telegram_id u) (User.is_active u)
                                 (User.interval_minutes u)
                                 (Some until)
                                 (User.created_at u) updated)
                   user_id (users d)) d);;
  commit.

Definition clear_do_not_disturb (user_id : Z) : M unit :=
  updated ← utcnow;
  d ← get_db;
  put_db (set_users
            (alter (λ u, User.mk (User.telegram_id u) (User.is_active u)
                                 (User.interval_minutes u)
                                 None
                                 (User.created_at u) updated)
                   user_id (users d)) d);;
  commit.

(** *** Progress *)

Definition create_user_word_progress (user_id word_id : Z)
  : M (Z * UserWordProgress.t) :=
  now ← utcnow;
  created ← utcnow;
  updated ← utcnow;
  d ← get_db;
  let id := fresh_id (user_word_progress d) in
  let progress :=
    UserWordProgress.mk user_id word_id 0 None now 0 0 created updated in
  put_db (set_user_word_progress
            (<[id := progress]> (user_word_progress d)) d);;
  commit;;
  ret (id, progress).

Definition get_user_word_progress (user_id word_id : Z)
  : M (option (Z * UserWordProgress.t)) :=
  d ← get_db;
  scalar_one_or_none
    (filter (λ r, UserWordProgress.user_id r.2 = user_id
                  ∧ UserWordProgress.word_id r.2 = word_id)
            (map_to_list (user_word_progress d))).

(** The [order_by] of [get_words_for_review]:
    [last_reviewed_at IS NULL DESC, knowledge_percent ASC,
     next_review_at ASC]. [r1] may come before [r2]. *)
Definition is_null {A} (o : option A) : Z :=
  match o with None => 1 | Some _ => 0 end.

Definition review_order (r1 r2 : Z * UserWordProgress.t) : Prop :=
  let n1 := is_null (UserWordProgress.last_reviewed_at r1.2) in
  let n2 := is_null (UserWordProgress.last_reviewed_at r2.2) in
  let k1 := UserWordProgress.knowledge_percent r1.2 in
  let k2 := UserWordProgress.knowledge_percent r2.2 in
  let t1 := UserWordProgress.next_review_at r1.2 in
  let t2 := UserWordProgress.next_review_at r2.2 in
  n2 < n1 ∨ (n1 = n2 ∧ (k1 < k2 ∨ (k1 = k2 ∧ t1 ≤ t2))).

#[export] Instance review_order_dec r1 r2 : Decision (review_order r1 r2).
Proof. unfold review_order. apply _. Defined.

(** The [where] of [get_words_for_review]. *)
Definition due (user_id now : Z) (r : Z * UserWordProgress.t) : Prop :=
  UserWordProgress.user_id r.2 = user_id
  ∧ UserWordProgress.next_review_at r.2 ≤ now.

#[export] Instance due_dec user_id now r : Decision (due user_id now r).
Proof. unfold due. apply _. Defined.

Definition get_words_for_review (user_id : Z) (limit : nat)
  : M (list (Z * UserWordProgress.t)) :=
  now ← utcnow;
  d ← get_db;
  ret (take limit
         (merge_sort review_order
            (filter (due user_id now)
                    (map_to_list (user_word_progress d))))).

(** Python's truth value of what is passed as [is_correct]: [None] and
    [False] are false. *)
Definition truthy (is_correct : option bool) : bool :=
  match is_correct with Some true => true | _ => false end.

Definition update_word_progress (progress_id : Z)
    (is_correct : option bool) : M unit :=
  d ← get_db;
  match user_word_progress d !! progress_id with
  | None => ret ()
  | Some progress =>
      let total := UserWordProgress.total_answers_count progress + 1 in
      let correct :=
        if truthy is_correct
        then UserWordProgress.correct_answers_count progress + 1
        else UserWordProgress.correct_answers_count progress in
      let knowledge :=
        if truthy is_correct
        then Z.min LearningConfig.MAX_KNOWLEDGE
               (UserWordProgress.knowledge_percent progress
                + LearningConfig.CORRECT_ANSWER_BOOST)
        else Z.max LearningConfig.MIN_KNOWLEDGE
               (UserWordProgress.knowledge_percent progress
                - LearningConfig.INCORRECT_ANSWER_PENALTY) in
      reviewed ← utcnow;
      let interval_hours :=
        LearningConfig.get_review_interval knowledge in
      now ← utcnow;
      let next := now + Py.timedelta_hours interval_hours in
      updated ← utcnow;
      put_db (set_user_word_progress
                (<[progress_id :=
                     UserWordProgress.mk
                       (UserWordProgress.user_id progress)
                       (UserWordProgress.word_id progress)
                       knowledge (Some reviewed) next correct total
                       (UserWordProgress.created_at progress) updated]>
                   (user_word_progress d)) d);;
      commit
  end.

(** *** Task history *)

Definition create_task_history (user_id word_id : Z) (task_type : string)
    (task_content : TaskData.t) : M (Z * TaskHistory.t) :=
  created ← utcnow;
  d ← get_db;
  let id := fresh_id (task_history d) in
  let task :=
    TaskHistory.mk user_id word_id task_type task_content
                   None None None created in
  put_db (set_task_history (<[id := task]> (task_history d)) d);;
  commit;;
  ret (id, task).

Definition update_task_history_answer (task_id : Z)
    (user_answer : string) (is_correct : option bool)
    (ai_feedback : option string) : M unit :=
  d ← get_db;
  put_db (set_task_history
            (alter (λ t, TaskHistory.mk
                           (TaskHistory.user_id t) (TaskHistory.word_id t)
                           (TaskHistory.task_type t)
                           (TaskHistory.task_content t)
                           (Some user_answer) is_correct ai_feedback
                           (TaskHistory.created_at t))
                   task_id (task_history d)) d);;
  commit.

(** The [where] and the [order_by] of [get_last_pending_task]. *)
Definition pending_of (user_id : Z) (r : Z * TaskHistory.t) : Prop :=
  TaskHistory.user_id r.2 = user_id ∧ TaskHistory.is_correct r.2 = None.

#[export] Instance pending_of_dec user_id r : Decision (pending_of user_id r).
Proof. unfold pending_of. apply _. Defined.

Definition newest_first (r1 r2 : Z * TaskHistory.t) : Prop :=
  TaskHistory.created_at r2.2 ≤ TaskHistory.created_at r1.2.

#[export] Instance newest_first_dec r1 r2 : Decision (newest_first r1 r2).
Proof. unfold newest_first. apply _. Defined.

Definition get_last_pending_task (user_id : Z)
  : M (option (Z * TaskHistory.t)) :=
  d ← get_db;
  scalar_one_or_none
    (take 1 (merge_sort newest_first
               (filter (pending_of user_id)
                       (map_to_list (task_history d))))).

(** *** Words *)

Definition set_words (t : gmap Z Word.t) (d : DB) : DB :=
  mkDB (users d) t (user_word_progress d) (task_history d).

(** [Word(word_en=word_en.lower().strip(), word_ru=word_ru.strip())]. The
    callers have either found the table empty or just looked the word up
    and found no row, so the unique index on [word_en] is not violated. *)
Definition create_word (word_en word_ru : string) : M (Z * Word.t) :=
  created ← utcnow;
  d ← get_db;
  let id := fresh_id (words d) in
  let word :=
    Word.mk (Py.str_strip (Py.str_lower word_en)) (Py.str_strip word_ru)
            created in
  put_db (set_words (<[id := word]> (words d)) d);;
  commit;;
  ret (id, word).

Definition get_word_by_en (word_en : string) : M (option (Z * Word.t)) :=
  d ← get_db;
  scalar_one_or_none
    (filter (λ r, Word.word_en r.2 = Py.str_strip (Py.str_lower word_en))
            (map_to_list (words d))).

Definition get_all_words : M (list (Z * Word.t)) :=
  d ← get_db;
  ret (map_to_list (words d)).

Definition get_or_create_word (word_en word_ru : string)
  : M (Z * Word.t) :=
  word ← get_word_by_en word_en;
  match word with
  | Some w => ret w
  | None => create_word word_en word_ru
  end.

(** *** Statistics *)

(** The integer entries of the dict [get_user_statistics] returns. Its
    fifth entry, ["average_knowledge"], is a rounded float and is not
    modelled. *)
Record statistics := mkStatistics {
  total_words : nat;
  learned_words : nat;
  in_progress_words : nat;
  new_words : nat }.

Definition get_user_statistics (user_id : Z) : M statistics :=
  d ← get_db;
  let progresses :=
    filter (λ r, UserWordProgress.user_id r.2 = user_id)
           (map_to_list (user_word_progress d)) in
  ret (mkStatistics
         (length progresses)
         (length (filter (λ p, 90 ≤ UserWordProgress.knowledge_percent p.2)
                         progresses))
         (length (filter (λ p, 0 < UserWordProgress.knowledge_percent p.2
                               ∧ UserWordProgress.knowledge_percent p.2 < 90)
                         progresses))
         (length (filter (λ p, UserWordProgress.knowledge_percent p.2 = 0)
                         progresses))).

End crud.

(** ** services/ai_service.py *)

Module ai_service.

(** What the chat-completion request of one call came to: the request
    raised, the content was not JSON, or it parsed to a value. *)
Inductive api_reply (A : Type) :=
| ApiError
| NotJson
| Json (a : A).
Arguments ApiError {A}.
Arguments NotJson {A}.
Arguments Json {A} a.

(** The object [check_answer] returns,
    [{"is_correct": ..., "feedback": ...}]; a key may be missing. *)
Record verdict := mkVerdict {
  is_correct : option bool;
  feedback : option string }.

(** The request and the parsing of its reply, shared by both methods:
    [json.JSONDecodeError] becomes [ValueError], anything else
    [RuntimeError]. *)
Definition request {A} (reply : api_reply A) : M A :=
  match reply with
  | ApiError => raise Py.RuntimeError
  | NotJson => raise Py.ValueError
  | Json a => ret a
  end.

Definition task_types : list string :=
  [ "translation_to_en"; "translation_to_ru";
    "multiple_choice_en_to_ru"; "multiple_choice_ru_to_en" ].

(** [word_en] and [word_ru] only fill the prompt. *)
Definition generate_task (word_en word_ru task_type : string)
    (reply : api_reply TaskData.t) : M TaskData.t :=
  if bool_decide (task_type ∈ task_types) then request reply
  else raise Py.ValueError.

(** [s.strip().lower()]. *)
Definition strip_lower (s : string) : string :=
  Py.str_lower (Py.str_strip s).

Definition check_answer (task_content : TaskData.t) (user_answer : string)
    (correct_answer : option string) (reply : api_reply verdict)
  : M verdict :=
  let task_type := TaskData.task_type task_content in
  if bool_decide (task_type = Some "translation_to_en") then request reply
  else if bool_decide (task_type = Some "translation_to_ru")
  then request reply
  else
    (* multiple_choice_*: strict comparison, no request *)
    match correct_answer with
    | None => raise Py.AttributeError
    | Some correct =>
        let is_correct :=
          bool_decide (strip_lower user_answer = strip_lower correct) in
        ret (mkVerdict (Some is_correct)
               (Some (if is_correct then "Правильно!"
                      else "Правильный ответ: " +:+ correct)))
    end.

End ai_service.

(** ** bot/keyboards.py *)

Module keyboards.

(** One button per option, [(text, callback_data)] with
    [callback_data = f"answer_{task_id}_{idx}"]. *)
Definition get_multiple_choice_keyboard (options : list string)
    (task_id : Z) : list (string * string) :=
  imap (λ idx option,
          (option,
           "answer_" +:+ pretty task_id +:+ "_"
             +:+ pretty (Z.of_nat idx)))
       options.

(** The rows of buttons of the "do not disturb" dialogue. *)
Definition get_dnd_duration_keyboard : list (list (string * string)) :=
  [ [ ("30 минут", "dnd_30"); ("1 час", "dnd_60") ];
    [ ("2 часа", "dnd_120"); ("3 часа", "dnd_180") ];
    [ ("❌ Отмена", "dnd_cancel") ] ].

End keyboards.

(** ** scheduler/tasks.py *)

Module tasks.

(** [random.choice(l)], the draw being [pick]. *)
Definition random_choice (l : list string) (pick : nat) : string :=
  default "" (l !! (pick mod length l)%nat).

Definition _send_task_message (telegram_id : Z) (task_data : TaskData.t)
    (task_id : Z) : M unit :=
  let task_type := TaskData.task_type task_data in
  if bool_decide (task_type = Some "translation_to_en") then
    send_message telegram_id
      (TranslateToEn (TaskData.sentence_ru task_data))
  else if bool_decide (task_type = Some "translation_to_ru") then
    send_message telegram_id
      (TranslateToRu (TaskData.sentence_en task_data))
  else if bool_decide (task_type = Some "multiple_choice_en_to_ru"
                       ∨ task_type = Some "multiple_choice_ru_to_en") then
    let question := TaskData.question task_data in
    let options := default [] (TaskData.options task_data) in
    let keyboard :=
      keyboards.get_multiple_choice_keyboard options task_id in
    send_message telegram_id (ChooseOption question keyboard)
  else ret ().

(** One tick of the user's job. [pick] is the draw of [random.choice],
    [reply] what the generator's request comes to if it is made. *)
Definition send_task_to_user (pick : nat)
    (reply : ai_service.api_reply TaskData.t)
    (user_id telegram_id : Z) : M unit :=
  user ← crud.get_user_by_telegram_id telegram_id;
  match user with
  | None => ret ()
  | Some user =>
      if negb (User.is_active user.2) then ret () else
      (* the "do not disturb" window *)
      silent ← match User.do_not_disturb_until user.2 with
               | Some until =>
                   now ← utcnow;
                   ret (bool_decide (now < until))
               | None => ret false
               end;
      if (silent : bool) then ret () else
      words_progress ← crud.get_words_for_review user_id 1;
      match words_progress with
      | [] => send_message telegram_id AllReviewed
      | progress :: _ =>
          (* session.refresh(progress, ["word"]); word = progress.word *)
          d ← get_db;
          let word_id := UserWordProgress.word_id progress.2 in
          let word := words d !! word_id in
          let task_type := random_choice ai_service.task_types pick in
          try_except
            (w ← match word with
                 | Some w => ret w
                 | None => raise Py.AttributeError
                 end;
             task_data ← ai_service.generate_task
                           (Word.word_en w) (Word.word_ru w)
                           task_type reply;
             task_history ← crud.create_task_history
                              user_id word_id task_type task_data;
             _send_task_message telegram_id task_data task_history.1)
            (λ e, send_message telegram_id GenerationFailed)
      end
  end.

(** *** The job registry

    The registry of the scheduler, by job id: [get_job] is a lookup,
    [remove_job] a deletion, [add_job(..., replace_existing=True)] an
    insertion. A job holds the minutes of its [IntervalTrigger] and the
    arguments of [send_task_to_user]. *)
Record Job := mkJob {
  minutes : Z;
  job_user_id : Z;
  job_telegram_id : Z }.

(** [f"user_{user_id}"]. *)
Definition job_id (user_id : Z) : string := "user_" +:+ pretty user_id.

(** The registry changes, then the first tick runs at once. *)
Definition start_user_scheduler (pick : nat)
    (reply : ai_service.api_reply TaskData.t)
    (user_id telegram_id interval_minutes : Z)
    (jobs : gmap string Job) (w : World)
  : gmap string Job * (res unit * World) :=
  let jobs :=
    if bool_decide (is_Some (jobs !! job_id user_id))
    then delete (job_id user_id) jobs else jobs in
  let jobs :=
    <[job_id user_id := mkJob interval_minutes user_id telegram_id]> jobs in
  (jobs, send_task_to_user pick reply user_id telegram_id w).

Definition stop_user_scheduler (user_id : Z) (jobs : gmap string Job)
  : gmap string Job :=
  if bool_decide (is_Some (jobs !! job_id user_id))
  then delete (job_id user_id) jobs else jobs.

End tasks.

(** ** bot/handlers/answers.py *)

Module answers.

(** [session.refresh(progress)] followed by reading
    [progress.knowledge_percent]. *)
Definition refresh (progress : option (Z * UserWordProgress.t))
  : M UserWordProgress.t :=
  match progress with
  | None => raise Py.UnmappedInstanceError
  | Some p =>
      d ← get_db;
      match user_word_progress d !! p.1 with
      | Some row => ret row
      | None => raise Py.InvalidRequestError
      end
  end.

(** A text message from [from_user] that is neither a command nor a menu
    button. [reply] is what the classifier's request comes to if it is
    made. *)
Definition handle_text_answer (reply : ai_service.api_reply ai_service.verdict)
    (from_user : Z) (text : string) : M unit :=
  user ← crud.get_or_create_user from_user;
  task ← crud.get_last_pending_task user.1;
  match task with
  | None => send_message from_user NoActiveTask
  | Some task =>
      let task_data := TaskHistory.task_content task.2 in
      let task_type := TaskData.task_type task_data in
      if bool_decide (task_type ≠ Some "translation_to_en"
                      ∧ task_type ≠ Some "translation_to_ru")
      then send_message from_user NeedsOptionChoice
      else
        let correct_answer :=
          if bool_decide (task_type = Some "translation_to_en")
          then TaskData.correct_answer_en task_data
          else TaskData.correct_answer_ru task_data in
        let user_answer := text in
        try_except
          (check_result ← ai_service.check_answer
                            task_data user_answer correct_answer reply;
           let is_correct := ai_service.is_correct check_result in
           let feedback := ai_service.feedback check_result in
           crud.update_task_history_answer
             task.1 user_answer is_correct feedback;;
           progress ← crud.get_user_word_progress
                        user.1 (TaskHistory.word_id task.2);
           match progress with
           | Some p => crud.update_word_progress p.1 is_correct
           | None => ret ()
           end;;
           row ← refresh progress;
           send_message from_user
             (TextGraded (crud.truthy is_correct) feedback
                         (UserWordProgress.knowledge_percent row)))
          (λ e, send_message from_user CheckFailed)
  end.

(** The router's filter of the callback handler,
    [F.data.startswith("answer_")]. *)
Definition is_answer_callback (data : string) : bool :=
  Py.startswith "answer_" data.

(** [parts = data.split("_"); int(parts[1]); int(parts[2])]. *)
Definition parse_callback (data : string) : M (Z * Z) :=
  let parts := Py.split "_" data in
  match parts !! 1%nat with
  | None => raise Py.IndexError
  | Some p1 =>
      match Py.int p1 with
      | None => raise Py.ValueError
      | Some task_id =>
          match parts !! 2%nat with
          | None => raise Py.IndexError
          | Some p2 =>
              match Py.int p2 with
              | None => raise Py.ValueError
              | Some selected_index => ret (task_id, selected_index)
              end
          end
      end
  end.

(** A callback query of [from_user] whose data starts with "answer_". *)
Definition handle_multiple_choice_answer (from_user : Z) (data : string)
  : M unit :=
  '(task_id, selected_index) ← parse_callback data;
  user ← crud.get_or_create_user from_user;
  d ← get_db;
  (* session.get(TaskHistory, task_id): a stored key is a 64-bit integer;
     an id that is not stored is not found or, outside the signed 64-bit
     range, cannot be bound as the parameter of the query *)
  match task_history d !! task_id with
  | None =>
      if bool_decide (Py.int64 task_id)
      then send_message from_user AlertNotFound
      else raise Py.OverflowError
  | Some task =>
      if bool_decide (TaskHistory.is_correct task ≠ None)
      then send_message from_user AlertAlreadyAnswered
      else
        let task_data := TaskHistory.task_content task in
        let options := default [] (TaskData.options task_data) in
        let correct_index := TaskData.correct_index task_data in
        let is_correct :=
          bool_decide (Some selected_index = correct_index) in
        match Py.getitem options selected_index with
        | None => raise Py.IndexError
        | Some user_answer =>
            match correct_index with
            | None => raise Py.TypeError
            | Some correct_index =>
                match Py.getitem options correct_index with
                | None => raise Py.IndexError
                | Some correct_answer =>
                    let feedback :=
                      if is_correct then "Правильно! ✅"
                      else "Неправильно. Правильный ответ: "
                             +:+ correct_answer in
                    crud.update_task_history_answer
                      task_id user_answer (Some is_correct)
                      (Some feedback);;
                    progress ← crud.get_user_word_progress
                                 user.1 (TaskHistory.word_id task);
                    match progress with
                    | Some p =>
                        crud.update_word_progress p.1 (Some is_correct)
                    | None => ret ()
                    end;;
                    row ← refresh progress;
                    send_message from_user
                      (EditWithResult feedback
                         (UserWordProgress.knowledge_percent row));;
                    send_message from_user CallbackAnswered
                end
            end
        end
  end.

End answers.

(** ** bot/handlers/basic_commands.py

    Each of these handlers ends with one [message.answer]; the message is
    the result of the action. *)

Module basic_commands.

Inductive reply :=
| Welcome                           (* /start *)
| Activated (interval_minutes : Z)  (* "I woke up" *)
| GoodNight.                        (* "went to bed" *)

Definition base_words : list (string * string) :=
  [ ("apple", "яблоко"); ("book", "книга"); ("cat", "кот") ].

(** [for word_en, word_ru in base_words: words.append(create_word(...))]. *)
Fixpoint create_base_words (pairs : list (string * string))
    (words : list (Z * Word.t)) : M (list (Z * Word.t)) :=
  match pairs with
  | [] => ret words
  | (word_en, word_ru) :: pairs' =>
      word ← crud.create_word word_en word_ru;
      create_base_words pairs' (words ++ [word])
  end.

(** [for word in words: if not get_user_word_progress(...):
    create_user_word_progress(...)]. *)
Fixpoint create_missing_progress (user_id : Z) (words : list (Z * Word.t))
  : M unit :=
  match words with
  | [] => ret ()
  | word :: words' =>
      progress ← crud.get_user_word_progress user_id word.1;
      match progress with
      | Some _ => ret ()
      | None => crud.create_user_word_progress user_id word.1;; ret ()
      end;;
      create_missing_progress user_id words'
  end.

Definition cmd_start (from_user : Z) : M reply :=
  user ← crud.get_or_create_user from_user;
  words ← crud.get_all_words;
  words ← (if bool_decide (length words = 0%nat)
           then create_base_words base_words words
           else ret words);
  create_missing_progress user.1 words;;
  ret Welcome.

(** The handlers that switch the user's job on and off act on the
    database and on the job registry. *)
Definition cmd_wake_up (pick : nat)
    (reply : ai_service.api_reply TaskData.t) (from_user : Z)
    (jobs : gmap string tasks.Job) (w : World)
  : gmap string tasks.Job * (res basic_commands.reply * World) :=
  match crud.get_or_create_user from_user w with
  | (Raise e, w1) => (jobs, (Raise e, w1))
  | (Ok user, w1) =>
      match crud.update_user_active_status user.1 true w1 with
      | (Raise e, w2) => (jobs, (Raise e, w2))
      | (Ok _, w2) =>
          match tasks.start_user_scheduler pick reply user.1 from_user
                  (User.interval_minutes user.2) jobs w2 with
          | (jobs', (Raise e, w3)) => (jobs', (Raise e, w3))
          | (jobs', (Ok _, w3)) =>
              (jobs', (Ok (Activated (User.interval_minutes user.2)), w3))
          end
      end
  end.

Definition cmd_sleep (from_user : Z) (jobs : gmap string tasks.Job)
    (w : World)
  : gmap string tasks.Job * (res basic_commands.reply * World) :=
  match crud.get_or_create_user from_user w with
  | (Raise e, w1) => (jobs, (Raise e, w1))
  | (Ok user, w1) =>
      match crud.update_user_active_status user.1 false w1 with
      | (Raise e, w2) => (jobs, (Raise e, w2))
      | (Ok _, w2) =>
          (tasks.stop_user_scheduler user.1 jobs, (Ok GoodNight, w2))
      end
  end.

End basic_commands.

(** ** bot/handlers/word_management.py *)

Module word_management.

Inductive reply :=
| DndCancelled
| DndEnabled (minutes : Z).

(** The router's filter, [F.data.startswith("dnd_")]. *)
Definition is_dnd_callback (data : string) : bool :=
  Py.startswith "dnd_" data.

(** A callback query of [from_user] whose data starts with "dnd_". The
    two closing calls, [edit_text] and [callback.answer], are the result
    of the action. *)
Definition process_dnd_duration (from_user : Z) (data : string)
  : M reply :=
  match Py.split "_" data !! 1%nat with
  | None => raise Py.IndexError
  | Some action =>
      if bool_decide (action = "cancel") then ret DndCancelled
      else
        match Py.int action with
        | None => raise Py.ValueError
        | Some minutes =>
            user ← crud.get_or_create_user from_user;
            crud.set_do_not_disturb user.1 minutes;;
            ret (DndEnabled minutes)
        end
  end.

End word_management.

(** ** Vocabulary of the statements *)

(** The world after [n] more clock readings. *)
Definition after_reads (n : nat) (w : World) : World :=
  mkWorld (db w) (commits w) (clock w) (n + reads w) (outbox w).

(** The world after the session's database became [d] and was committed. *)
Definition committed (d : DB) (w : World) : World :=
  mkWorld d (commits w ++ [d]) (clock w) (reads w) (outbox w).

(** The world after [msgs] were sent. *)
Definition sent (msgs : list (Z * message)) (w : World) : World :=
  mkWorld (db w) (commits w) (clock w) (reads w) (outbox w ++ msgs).

(** The row [update_word_progress] writes: [p] after an answer, the three
    clock readings of the call being [t1], [t2] and [t3]. *)
Definition progress_after (is_correct : option bool) (t1 t2 t3 : Z)
    (p : UserWordProgress.t) : UserWordProgress.t :=
  let knowledge :=
    if crud.truthy is_correct
    then Z.min 100 (UserWordProgress.knowledge_percent p + 15)
    else Z.max 0 (UserWordProgress.knowledge_percent p - 10) in
  UserWordProgress.mk
    (UserWordProgress.user_id p) (UserWordProgress.word_id p)
    knowledge (Some t1)
    (t2 + Py.timedelta_hours (LearningConfig.get_review_interval knowledge))
    (if crud.truthy is_correct
     then UserWordProgress.correct_answers_count p + 1
     else UserWordProgress.correct_answers_count p)
    (UserWordProgress.total_answers_count p + 1)
    (UserWordProgress.created_at p) t3.

(** The rows of [uid] that are due at [now]. *)
Definition due_rows (d : DB) (uid now : Z) : list (Z * UserWordProgress.t) :=
  filter (crud.due uid now) (map_to_list (user_word_progress d)).

(** What [_send_task_message] sends for a payload. *)
Definition question_of (task_data : TaskData.t) (task_id : Z)
  : list message :=
  let task_type := TaskData.task_type task_data in
  if bool_decide (task_type = Some "translation_to_en")
  then [TranslateToEn (TaskData.sentence_ru task_data)]
  else if bool_decide (task_type = Some "translation_to_ru")
  then [TranslateToRu (TaskData.sentence_en task_data)]
  else if bool_decide (task_type = Some "multiple_choice_en_to_ru"
                       ∨ task_type = Some "multiple_choice_ru_to_en")
  then [ChooseOption (TaskData.question task_data)
          (keyboards.get_multiple_choice_keyboard
             (default [] (TaskData.options task_data)) task_id)]
  else [].

(** The clock readings the "do not disturb" check of a tick makes. *)
Definition window_reads (u : Z * User.t) : nat :=
  match User.do_not_disturb_until u.2 with Some _ => 1 | None => 0 end.

(** No window is set for [u], or it has run out at the next reading. *)
Definition window_over (w : World) (u : Z * User.t) : Prop :=
  match User.do_not_disturb_until u.2 with
  | Some until => until ≤ clock w (reads w)
  | None => True
  end.

(** The row [update_task_history_answer] writes. *)
Definition answered (user_answer : string) (is_correct : option bool)
    (ai_feedback : option string) (t : TaskHistory.t) : TaskHistory.t :=
  TaskHistory.mk (TaskHistory.user_id t) (TaskHistory.word_id t)
    (TaskHistory.task_type t) (TaskHistory.task_content t)
    (Some user_answer) is_correct ai_feedback (TaskHistory.created_at t).

(** A payload of one of the two translation kinds. *)
Definition translation (td : TaskData.t) : Prop :=
  TaskData.task_type td = Some "translation_to_en"
  ∨ TaskData.task_type td = Some "translation_to_ru".

(** * A worked scenario

    One learner (Telegram id 100, row 1, active) with one word whose
    progress row is new: score 0, never reviewed, due an hour before the
    first clock reading. The clock advances one second per reading. *)

Module scenario.

Definition hour : Z := 3600000000.
Definition minute : Z := 60000000.

Definition learner : User.t := User.mk 100 true 30 None 0 0.
Definition apple : Word.t := Word.mk "apple" "яблоко" 0.
Definition book : Word.t := Word.mk "book" "книга" 0.
Definition new_row : UserWordProgress.t :=
  UserWordProgress.mk 1 1 0 None (- hour) 0 0 (- hour) (- hour).

Definition seconds (n : nat) : Z := Z.of_nat n * 1000000.

Definition start : World :=
  mkWorld (mkDB {[1 := learner]} {[1 := apple]} {[1 := new_row]} ∅)
          [] seconds 0 [].

Definition translate_apple : TaskData.t :=
  TaskData.mk (Some "translation_to_en") (Some "Я ем яблоко") None
              (Some "I eat an apple") None None None None.

Definition choose_apple : TaskData.t :=
  TaskData.mk (Some "multiple_choice_en_to_ru") None None None None
              (Some "Как переводится слово 'apple'?")
              (Some ["яблоко"; "груша"; "слива"; "вишня"]) (Some 0).

(** After a first tick that issued a translation task (row 1). *)
Definition translation_pending : World :=
  (tasks.send_task_to_user 0 (ai_service.Json translate_apple) 1 100
     start).2.

(** After a first tick that issued a multiple-choice task (row 1). *)
Definition choice_pending : World :=
  (tasks.send_task_to_user 2 (ai_service.Json choose_apple) 1 100
     start).2.


(** A second word whose row was reviewed (and missed) before and has
    been due for longer than the new one. *)
Definition missed_row : UserWordProgress.t :=
  UserWordProgress.mk 1 2 0 (Some (- (3 * hour))) (- (2 * hour)) 0 1
                      (- (4 * hour)) (- (3 * hour)).

Definition two_due : World :=
  mkWorld (mkDB {[1 := learner]} {[1 := apple; 2 := book]}
                {[1 := new_row; 2 := missed_row]} ∅)
          [] seconds 0 [].

(** A clock for the "do not disturb" window: it is set at time 0, the
    next tick reads the clock 10 minutes later, the one after that 70
    minutes later. *)
Definition quiet_clock (n : nat) : Z :=
  match n with
  | 0%nat | 1%nat => 0
  | 2%nat => 10 * minute
  | _ => 70 * minute
  end.

Definition quiet : World :=
  (crud.set_do_not_disturb 1 60
     (mkWorld (db start) [] quiet_clock 0 [])).2.

Definition right_verdict : ai_service.verdict :=
  ai_service.mkVerdict (Some true) (Some "Верно").

Definition verdict_without_is_correct : ai_service.verdict :=
  ai_service.mkVerdict None (Some "Верно").

(** A payload without "task_type". *)
Definition untyped_payload : TaskData.t :=
  TaskData.mk None (Some "Я ем яблоко") None (Some "I eat an apple")
              None None None None.

(** Nobody has used the bot yet. *)
Definition empty : World := mkWorld (mkDB ∅ ∅ ∅ ∅) [] seconds 0 [].

(** A second user (Telegram id 200) sent a message while the learner's
    multiple-choice task was pending. *)
Definition stranger_joined : World :=
  (crud.get_or_create_user 200 choice_pending).2.

(** The job of the learner, and the registry that holds it. *)
Definition learner_job : tasks.Job := tasks.mkJob 30 1 100.
Definition one_job : gmap string tasks.Job :=
  {[ tasks.job_id 1 := learner_job ]}.

End scenario.

(** ** Vocabulary of the further statements *)

(** [u] is the one row of the user table with Telegram id [tg]. *)
Definition only_user (d : DB) (tg : Z) (u : Z * User.t) : Prop :=
  users d !! u.1 = Some u.2
  ∧ User.telegram_id u.2 = tg
  ∧ ∀ k u', users d !! k = Some u' → User.telegram_id u' = tg → k = u.1.

(** No row of the user table has Telegram id [tg]. *)
Definition no_user (d : DB) (tg : Z) : Prop :=
  ∀ k u, users d !! k = Some u → User.telegram_id u ≠ tg.

(** [p] is the one progress row of user [uid] for word [wid]. *)
Definition only_progress (d : DB) (uid wid : Z)
    (p : Z * UserWordProgress.t) : Prop :=
  user_word_progress d !! p.1 = Some p.2
  ∧ UserWordProgress.user_id p.2 = uid
  ∧ UserWordProgress.word_id p.2 = wid
  ∧ ∀ k p', user_word_progress d !! k = Some p' →
      UserWordProgress.user_id p' = uid →
      UserWordProgress.word_id p' = wid → k = p.1.

(** User [uid] has no progress row for word [wid]. *)
Definition no_progress (d : DB) (uid wid : Z) : Prop :=
  ∀ k p, user_word_progress d !! k = Some p →
    ¬ (UserWordProgress.user_id p = uid ∧ UserWordProgress.word_id p = wid).

(** The bounds every progress row is meant to stay in. *)
Definition progress_ok (p : UserWordProgress.t) : Prop :=
  0 ≤ UserWordProgress.knowledge_percent p ≤ 100
  ∧ 0 ≤ UserWordProgress.correct_answers_count p
      ≤ UserWordProgress.total_answers_count p.

#[export] Instance progress_ok_dec p : Decision (progress_ok p).
Proof. unfold progress_ok. apply _. Defined.

Definition progress_table_ok (d : DB) : Prop :=
  map_Forall (λ _ p, progress_ok p) (user_word_progress d).

(** The end of a "do not disturb" window of [minutes] minutes that is set
    at [now], [now + timedelta(minutes=minutes)]: there is none when the
    [timedelta] or the sum is out of range. *)
Definition window_end (now minutes : Z) : option Z :=
  delta ← Py.timedelta_of_minutes minutes; Py.datetime_add now delta.

(** The pending tasks of user [uid]. *)
Definition pending_rows (d : DB) (uid : Z) : list (Z * TaskHistory.t) :=
  filter (crud.pending_of uid) (map_to_list (task_history d)).

(** The key a word is stored and looked up under,
    [word_en.lower().strip()]. *)
Definition word_key (word_en : string) : string :=
  Py.str_strip (Py.str_lower word_en).

(** [word] is the one row of the word table with key [key]. *)
Definition only_word (d : DB) (key : string) (word : Z * Word.t) : Prop :=
  words d !! word.1 = Some word.2
  ∧ Word.word_en word.2 = key
  ∧ ∀ k x, words d !! k = Some x → Word.word_en x = key → k = word.1.

Definition no_word (d : DB) (key : string) : Prop :=
  ∀ k x, words d !! k = Some x → Word.word_en x ≠ key.

(** A decimal digit. *)
Definition is_digit (c : ascii) : Prop := is_Some (Py.digit c).

(** User [uid] has at most one progress row per word. *)
Definition progress_unique (d : DB) (uid : Z) : Prop :=
  ∀ k1 k2 p1 p2,
    user_word_progress d !! k1 = Some p1 →
    user_word_progress d !! k2 = Some p2 →
    UserWordProgress.user_id p1 = uid →
    UserWordProgress.user_id p2 = uid →
    UserWordProgress.word_id p1 = UserWordProgress.word_id p2 →
    k1 = k2.

(** User [uid] has a progress row for every stored word. *)
Definition covers_words (d : DB) (uid : Z) : Prop :=
  ∀ wid word, words d !! wid = Some word →
    ∃ p, only_progress d uid wid p.

(** * Properties *)

(** ** The interval table *)

Section intervals.
Import LearningConfig.

Lemma first_band_cases (s : Z) :
  first_band REVIEW_INTERVALS s =
    if bool_decide (0 ≤ s ≤ 20) then Some 0.5%Q
    else if bool_decide (21 ≤ s ≤ 50) then Some 4%Q
    else if bool_decide (51 ≤ s ≤ 70) then Some 24%Q
    else if bool_decide (71 ≤ s ≤ 89) then Some 72%Q
    else if bool_decide (90 ≤ s ≤ 100) then Some 168%Q
    else None.
Proof. reflexivity. Qed.

Lemma interval_band (s lo hi : Z) (hours : Q) :
  ((lo, hi), hours) ∈ REVIEW_INTERVALS →
  lo ≤ s ≤ hi →
  get_review_interval s = hours.
Proof.
  unfold get_review_interval. rewrite first_band_cases.
  unfold REVIEW_INTERVALS. rewrite !elem_of_cons, elem_of_nil.
  intros Hin Hs.
  repeat case_bool_decide; try lia;
    repeat (destruct Hin as [Hin | Hin]; [ injection Hin as -> -> -> | ]);
    try reflexivity; try lia; try contradiction.
Qed.

Lemma interval_fallback (s : Z) :
  s < 0 ∨ 100 < s → get_review_interval s = 168%Q.
Proof.
  intros Hs. unfold get_review_interval. rewrite first_band_cases.
  repeat case_bool_decide; try lia; reflexivity.
Qed.

Lemma interval_monotone (s1 s2 : Z) :
  0 ≤ s1 → s1 ≤ s2 → s2 ≤ 100 →
  (get_review_interval s1 <= get_review_interval s2)%Q.
Proof.
  intros H0 H12 H100. unfold get_review_interval.
  rewrite !first_band_cases.
  repeat case_bool_decide; try lia; unfold Qle; simpl; lia.
Qed.

End intervals.

Ltac in_table := apply list_elem_of_In; simpl; tauto.

(** C8. [get_review_interval] is non-decreasing over the knowledge scores
    0..100, and it is the step table of the specification: a score in
    [0,20] gives half an hour (30 minutes), [21,50] gives 4 hours, [51,70]
    gives 24 hours, [71,89] gives 72 hours, [90,100] gives 168 hours, and
    any score outside 0..100 falls back to 168 hours, the longest. *)
Theorem C8_review_interval_step_table_monotone :
  (∀ s1 s2 : Z, 0 ≤ s1 → s1 ≤ s2 → s2 ≤ 100 →
     (LearningConfig.get_review_interval s1
      <= LearningConfig.get_review_interval s2)%Q)
  ∧ (∀ s : Z,
       (0 ≤ s ≤ 20 →
          LearningConfig.get_review_interval s = 0.5%Q
          ∧ Py.timedelta_hours (LearningConfig.get_review_interval s)
            = Py.timedelta_minutes 30)
       ∧ (21 ≤ s ≤ 50 → LearningConfig.get_review_interval s = 4%Q)
       ∧ (51 ≤ s ≤ 70 → LearningConfig.get_review_interval s = 24%Q)
       ∧ (71 ≤ s ≤ 89 → LearningConfig.get_review_interval s = 72%Q)
       ∧ (90 ≤ s ≤ 100 → LearningConfig.get_review_interval s = 168%Q)
       ∧ (s < 0 ∨ 100 < s → LearningConfig.get_review_interval s = 168%Q)).
Proof.
  split; [ exact interval_monotone | ].
  intros s. split_and!; intros Hs.
  - split.
    + apply (interval_band s 0 20); [ in_table | assumption ].
    + rewrite (interval_band s 0 20 0.5%Q);
        [ reflexivity | in_table | assumption ].
  - apply (interval_band s 21 50); [ in_table | assumption ].
  - apply (interval_band s 51 70); [ in_table | assumption ].
  - apply (interval_band s 71 89); [ in_table | assumption ].
  - apply (interval_band s 90 100); [ in_table | assumption ].
  - apply interval_fallback, Hs.
Qed.

Lemma C8_witness :
  (LearningConfig.get_review_interval 20
   <= LearningConfig.get_review_interval 21)%Q
  ∧ LearningConfig.get_review_interval 50 = 4%Q
  ∧ LearningConfig.get_review_interval 101 = 168%Q.
Proof.
  destruct C8_review_interval_step_table_monotone as [Hmono Hband].
  split; [ apply Hmono; lia | ].
  split; [ apply (Hband 50); lia | apply (Hband 101); lia ].
Defined.

(** ** Running the session monad *)

Lemma bind_run {A B} (m : M A) (k : A → M B) (w : World) :
  (m ≫= k) w = match m w with
               | (Ok a, w') => k a w'
               | (Raise e, w') => (Raise e, w')
               end.
Proof. reflexivity. Qed.

(** Unfold the binds of the goal and compute the steps that can run. *)
Ltac mrun := unfold mbind, M_bind, bind, try_except; cbn.

(** ** The mastery update *)

Section mastery.
Import UserWordProgress.

Lemma update_word_progress_run (w : World) (progress_id : Z)
    (is_correct : option bool) (p : t) :
  user_word_progress (db w) !! progress_id = Some p →
  crud.update_word_progress progress_id is_correct w
  = (Ok (),
     committed
       (set_user_word_progress
          (<[progress_id :=
               progress_after is_correct (clock w (reads w))
                 (clock w (S (reads w))) (clock w (S (S (reads w)))) p]>
             (user_word_progress (db w))) (db w))
       (after_reads 3 w)).
Proof.
  intros Hp. unfold crud.update_word_progress. mrun.
  rewrite Hp. reflexivity.
Qed.

Lemma update_word_progress_missing (w : World) (progress_id : Z)
    (is_correct : option bool) :
  user_word_progress (db w) !! progress_id = None →
  crud.update_word_progress progress_id is_correct w = (Ok (), w).
Proof.
  intros Hp. unfold crud.update_word_progress. mrun.
  rewrite Hp. reflexivity.
Qed.

(** C3. For a stored progress row whose knowledge score is in [0,100] and
    an outcome [is_correct], [update_word_progress] commits a row with the
    total counter one higher, the correct counter one higher exactly when
    the outcome is correct, the score [score + 15] (correct) or
    [score - 10] (incorrect) clamped to [0,100], and [next_review_at] equal
    to the clock reading taken for it plus the interval of the new
    score. *)
Theorem C3_update_word_progress_applies_outcome (w : World)
    (progress_id : Z) (p : t) (is_correct : bool) :
  user_word_progress (db w) !! progress_id = Some p →
  0 ≤ knowledge_percent p ≤ 100 →
  ∃ (w' : World) (p' : t),
    crud.update_word_progress progress_id (Some is_correct) w = (Ok (), w')
    ∧ user_word_progress (db w') !! progress_id = Some p'
    ∧ total_answers_count p' = total_answers_count p + 1
    ∧ correct_answers_count p'
      = correct_answers_count p + (if is_correct then 1 else 0)
    ∧ (correct_answers_count p' = correct_answers_count p + 1
       ↔ is_correct = true)
    ∧ knowledge_percent p'
      = Z.max 0 (Z.min 100
          (knowledge_percent p + (if is_correct then 15 else -10)))
    ∧ 0 ≤ knowledge_percent p' ≤ 100
    ∧ next_review_at p'
      = clock w (S (reads w))
        + Py.timedelta_hours
            (LearningConfig.get_review_interval (knowledge_percent p')).
Proof.
  intros Hp Hk.
  eexists _, _. split; [ apply update_word_progress_run, Hp | ].
  cbn. rewrite lookup_insert_eq. split; [ reflexivity | ].
  destruct is_correct; cbn; repeat split; intros; try lia; try discriminate.
Qed.

End mastery.

(** ** The review selector *)

Section sorting.
Context {A : Type} (R : relation A) `{!∀ x y, Decision (R x y)}.
Context `{!Transitive R, !Total R}.

(** The first row of an [ORDER BY] is a row of the input that may come
    before every row of the input. *)
Lemma merge_sort_head (l : list A) (x : A) (rest : list A) :
  merge_sort R l = x :: rest →
  x ∈ l ∧ ∀ y, y ∈ l → R x y.
Proof.
  intros Hsort.
  pose proof (merge_sort_Permutation R l) as Hperm.
  pose proof (StronglySorted_merge_sort R l) as Hsorted.
  rewrite Hsort in Hperm, Hsorted.
  apply StronglySorted_inv in Hsorted as [_ Hall].
  split.
  - rewrite <- Hperm. left.
  - intros y Hy. rewrite <- Hperm in Hy.
    apply elem_of_cons in Hy as [-> | Hy].
    + destruct (total R x x); assumption.
    + rewrite Forall_forall in Hall. apply Hall, Hy.
Qed.

Lemma merge_sort_nil (l : list A) : merge_sort R l = [] → l = [].
Proof.
  intros Hsort. pose proof (merge_sort_Permutation R l) as Hperm.
  rewrite Hsort in Hperm. symmetry in Hperm.
  apply Permutation_nil_r in Hperm. exact Hperm.
Qed.

End sorting.

Section selector.
Import UserWordProgress.

#[local] Instance review_order_total : Total crud.review_order.
Proof. intros r1 r2. unfold crud.review_order. lia. Qed.

#[local] Instance review_order_trans : Transitive crud.review_order.
Proof. intros r1 r2 r3. unfold crud.review_order. lia. Qed.

Lemma get_words_for_review_run (w : World) (uid : Z) (limit : nat) :
  crud.get_words_for_review uid limit w
  = (Ok (take limit
           (merge_sort crud.review_order
              (filter (crud.due uid (clock w (reads w)))
                      (map_to_list (user_word_progress (db w)))))),
     after_reads 1 w).
Proof. reflexivity. Qed.

Lemma elem_of_due_rows (d : DB) (uid now : Z) (r : Z * t) :
  r ∈ due_rows d uid now ↔
  user_word_progress d !! r.1 = Some r.2
  ∧ user_id r.2 = uid ∧ next_review_at r.2 ≤ now.
Proof.
  unfold due_rows. rewrite list_elem_of_filter.
  destruct r as [k p]. rewrite elem_of_map_to_list.
  unfold crud.due. cbn. tauto.
Qed.

(** C2. With [now] the clock reading of the call, [get_words_for_review]
    with limit 1 returns either no row, and then no row of the user is due
    ([next_review_at ≤ now]), or one row, which belongs to the user, is due,
    and has the top priority among the user's due rows: it is never
    reviewed if any due row is; among rows alike in that, its knowledge
    score is the lowest; among rows alike in both, its due time is the
    earliest. The query writes nothing. *)
Theorem C2_get_words_for_review_top_priority_due (w : World) (uid : Z) :
  let now := clock w (reads w) in
  match crud.get_words_for_review uid 1 w with
  | (Ok [], w') =>
      db w' = db w
      ∧ ∀ (k : Z) (p : t),
          user_word_progress (db w) !! k = Some p →
          user_id p = uid → now < next_review_at p
  | (Ok [r], w') =>
      db w' = db w
      ∧ user_word_progress (db w) !! r.1 = Some r.2
      ∧ user_id r.2 = uid
      ∧ next_review_at r.2 ≤ now
      ∧ ∀ (k : Z) (p : t),
          user_word_progress (db w) !! k = Some p →
          user_id p = uid → next_review_at p ≤ now →
          (* never reviewed before reviewed *)
          (last_reviewed_at p = None → last_reviewed_at r.2 = None)
          (* then the lower knowledge score *)
          ∧ ((last_reviewed_at p = None ↔ last_reviewed_at r.2 = None) →
             knowledge_percent r.2 ≤ knowledge_percent p)
          (* then the earlier due time *)
          ∧ ((last_reviewed_at p = None ↔ last_reviewed_at r.2 = None) →
             knowledge_percent r.2 = knowledge_percent p →
             next_review_at r.2 ≤ next_review_at p)
  | _ => False
  end.
Proof.
  intros now. rewrite get_words_for_review_run.
  change (filter _ _) with (due_rows (db w) uid now).
  destruct (merge_sort crud.review_order (due_rows (db w) uid now))
    as [ | r rest ] eqn:Hsort; cbn.
  - split; [ reflexivity | ]. intros k p Hk Hu.
    apply merge_sort_nil in Hsort.
    destruct (decide (next_review_at p ≤ now)) as [Hdue | ]; [ | lia ].
    assert (Hin : (k, p) ∈ due_rows (db w) uid now)
      by (apply elem_of_due_rows; auto).
    rewrite Hsort in Hin. inversion Hin.
  - rewrite take_0.
    apply merge_sort_head in Hsort as [Hin Hmin]; [ | apply _ .. ].
    apply elem_of_due_rows in Hin as (Hr & Hu & Hdue).
    split_and!; try done.
    intros k p Hk Hpu Hpdue.
    assert (Hp : (k, p) ∈ due_rows (db w) uid now)
      by (apply elem_of_due_rows; auto).
    apply Hmin in Hp. unfold crud.review_order in Hp. cbn in Hp.
    destruct (last_reviewed_at p) as [ tp | ],
             (last_reviewed_at r.2) as [ tr | ]; cbn in Hp.
    + split_and!; [ discriminate | intros _; lia | intros _ Hk'; lia ].
    + split_and!; [ discriminate | intros [_ Hc] .. ];
        discriminate (Hc eq_refl).
    + exfalso. lia.
    + split_and!; [ reflexivity | intros _; lia | intros _ Hk'; lia ].
Qed.

End selector.

(** ** Fresh primary keys *)

Lemma fresh_id_above {A} (table : gmap Z A) (k : Z) :
  is_Some (table !! k) → k < fresh_id table.
Proof.
  unfold fresh_id. revert k.
  apply (map_fold_weak_ind
           (λ r (m : gmap Z A), ∀ k, is_Some (m !! k) → k < 1 + r)).
  - intros k [x Hx]. rewrite lookup_empty in Hx. discriminate.
  - intros i x m r _ IH k Hk.
    destruct (decide (i = k)) as [-> | Hne]; [ lia | ].
    rewrite lookup_insert_ne in Hk by assumption.
    specialize (IH k Hk). lia.
Qed.

Lemma fresh_id_fresh {A} (table : gmap Z A) :
  table !! fresh_id table = None.
Proof.
  destruct (table !! fresh_id table) eqn:Hk; [ | reflexivity ].
  assert (fresh_id table < fresh_id table)
    by (apply fresh_id_above; eauto).
  lia.
Qed.

(** ** A new progress row *)

Section new_progress.
Import UserWordProgress.

Lemma create_user_word_progress_run (w : World) (uid wid : Z) :
  let id := fresh_id (user_word_progress (db w)) in
  let p := mk uid wid 0 None (clock w (reads w)) 0 0
              (clock w (S (reads w))) (clock w (S (S (reads w)))) in
  crud.create_user_word_progress uid wid w
  = (Ok (id, p),
     committed
       (set_user_word_progress
          (<[id := p]> (user_word_progress (db w))) (db w))
       (after_reads 3 w)).
Proof. reflexivity. Qed.

(** C9. [create_user_word_progress] stores, under a fresh key, a row with
    knowledge score 0, no last review, both counters 0 and [next_review_at]
    equal to the clock reading of its creation; hence at any tick whose
    clock reading is not earlier the row is among the due rows of its user
    and the selector returns a row. *)
Theorem C9_new_progress_row_is_due_at_once (w : World) (uid wid : Z) :
  ∃ (id : Z) (p : t) (w' : World),
    crud.create_user_word_progress uid wid w = (Ok (id, p), w')
    ∧ user_word_progress (db w) !! id = None
    ∧ user_word_progress (db w') !! id = Some p
    ∧ user_id p = uid ∧ word_id p = wid
    ∧ knowledge_percent p = 0
    ∧ last_reviewed_at p = None
    ∧ total_answers_count p = 0
    ∧ correct_answers_count p = 0
    ∧ next_review_at p = clock w (reads w)
    ∧ ∀ tick : World,
        db tick = db w' →
        clock w (reads w) ≤ clock tick (reads tick) →
        (id, p) ∈ due_rows (db tick) uid (clock tick (reads tick))
        ∧ ∃ (r : Z * t) (tick' : World),
            crud.get_words_for_review uid 1 tick = (Ok [r], tick').
Proof.
  eexists _, _, _.
  split; [ apply create_user_word_progress_run | ].
  split; [ apply fresh_id_fresh | ].
  cbn. rewrite lookup_insert_eq. split_and!; try reflexivity.
  intros tick Hdb Hlater.
  assert (Hin : (fresh_id (user_word_progress (db w)),
                 mk uid wid 0 None (clock w (reads w)) 0 0
                    (clock w (S (reads w))) (clock w (S (S (reads w)))))
                ∈ due_rows (db tick) uid (clock tick (reads tick))).
  { apply elem_of_due_rows. rewrite Hdb. cbn.
    rewrite lookup_insert_eq. auto. }
  split; [ exact Hin | ].
  rewrite get_words_for_review_run.
  change (filter _ _) with (due_rows (db tick) uid (clock tick (reads tick))).
  destruct (merge_sort crud.review_order
              (due_rows (db tick) uid (clock tick (reads tick))))
    as [ | r rest ] eqn:Hsort.
  - apply merge_sort_nil in Hsort. rewrite Hsort in Hin. inversion Hin.
  - cbn. rewrite take_0. eauto.
Qed.

End new_progress.

(** ** The scheduler tick *)

Section tick.

Lemma sent_nil (w : World) : sent [] w = w.
Proof. destruct w. unfold sent. cbn. rewrite app_nil_r. reflexivity. Qed.

Lemma _send_task_message_run (w : World) (tg : Z) (td : TaskData.t)
    (id : Z) :
  tasks._send_task_message tg td id w
  = (Ok (), sent (pair tg <$> question_of td id) w).
Proof.
  unfold tasks._send_task_message, question_of.
  repeat case_bool_decide; try reflexivity.
  cbn. rewrite sent_nil. reflexivity.
Qed.

Lemma random_choice_task_type (pick : nat) :
  tasks.random_choice ai_service.task_types pick ∈ ai_service.task_types.
Proof.
  unfold tasks.random_choice.
  destruct (ai_service.task_types !! (pick mod length ai_service.task_types)%nat)
    as [ s | ] eqn:Hs.
  - cbn. apply list_elem_of_lookup. eauto.
  - apply lookup_ge_None in Hs.
    pose proof (Nat.mod_upper_bound pick (length ai_service.task_types)) as Hlt.
    cbn in Hs, Hlt. lia.
Qed.

Lemma create_task_history_run (w : World) (uid wid : Z)
    (task_type : string) (td : TaskData.t) :
  let id := fresh_id (task_history (db w)) in
  let task :=
    TaskHistory.mk uid wid task_type td None None None
                   (clock w (reads w)) in
  crud.create_task_history uid wid task_type td w
  = (Ok (id, task),
     committed
       (set_task_history (<[id := task]> (task_history (db w))) (db w))
       (after_reads 1 w)).
Proof. reflexivity. Qed.

Context (w : World) (pick : nat) (reply : ai_service.api_reply TaskData.t).
Context (uid tg : Z) (u : Z * User.t).
Hypothesis Huser : crud.get_user_by_telegram_id tg w = (Ok (Some u), w).

(** The job of a user who is not active returns at once. *)
Lemma tick_inactive :
  User.is_active u.2 = false →
  tasks.send_task_to_user pick reply uid tg w = (Ok (), w).
Proof.
  intros Hasleep. unfold tasks.send_task_to_user. mrun.
  rewrite Huser, Hasleep. reflexivity.
Qed.

Hypothesis Hactive : User.is_active u.2 = true.

(** Inside the window the tick reads the clock once and returns. *)
Lemma tick_silent (until : Z) :
  User.do_not_disturb_until u.2 = Some until →
  clock w (reads w) < until →
  tasks.send_task_to_user pick reply uid tg w = (Ok (), after_reads 1 w).
Proof.
  intros Hdnd Hnow. unfold tasks.send_task_to_user. mrun.
  rewrite Huser, Hactive. cbn. rewrite Hdnd. cbn.
  rewrite bool_decide_true by assumption. reflexivity.
Qed.

Lemma tick_selects :
  window_over w u →
  tasks.send_task_to_user pick reply uid tg w
  = (words_progress ← crud.get_words_for_review uid 1;
     match words_progress with
     | [] => send_message tg AllReviewed
     | progress :: _ =>
         d ← get_db;
         let word_id := UserWordProgress.word_id progress.2 in
         let word := words d !! word_id in
         let task_type :=
           tasks.random_choice ai_service.task_types pick in
         try_except
           (w ← match word with
                | Some w => ret w
                | None => raise Py.AttributeError
                end;
            task_data ← ai_service.generate_task
                          (Word.word_en w) (Word.word_ru w)
                          task_type reply;
            task_history ← crud.create_task_history
                             uid word_id task_type task_data;
            tasks._send_task_message tg task_data task_history.1)
           (λ e, send_message tg GenerationFailed)
     end) (after_reads (window_reads u) w).
Proof.
  unfold window_over, window_reads, tasks.send_task_to_user.
  intros Hover. mrun. rewrite Huser, Hactive. cbn.
  destruct (User.do_not_disturb_until u.2) as [ until | ]; cbn.
  - rewrite bool_decide_false by lia. reflexivity.
  - destruct w; reflexivity.
Qed.

(** Outside the window, with no row due, the tick says so. *)
Lemma tick_all_reviewed (w2 : World) :
  window_over w u →
  crud.get_words_for_review uid 1 (after_reads (window_reads u) w)
  = (Ok [], w2) →
  tasks.send_task_to_user pick reply uid tg w
  = (Ok (), sent [(tg, AllReviewed)] (after_reads (S (window_reads u)) w)).
Proof.
  intros Hover Hsel. rewrite tick_selects by assumption.
  mrun. rewrite Hsel.
  rewrite get_words_for_review_run in Hsel. injection Hsel as _ <-.
  reflexivity.
Qed.

(** Outside the window, with a row due, its word stored and a payload
    generated, the tick stores a new pending task and sends it. *)
Lemma tick_issues (progress : Z * UserWordProgress.t)
    (rest : list (Z * UserWordProgress.t)) (w2 : World) (word : Word.t)
    (td : TaskData.t) :
  window_over w u →
  crud.get_words_for_review uid 1 (after_reads (window_reads u) w)
  = (Ok (progress :: rest), w2) →
  words (db w) !! UserWordProgress.word_id progress.2 = Some word →
  reply = ai_service.Json td →
  let id := fresh_id (task_history (db w)) in
  let task :=
    TaskHistory.mk uid (UserWordProgress.word_id progress.2)
      (tasks.random_choice ai_service.task_types pick) td
      None None None (clock w (S (window_reads u) + reads w)) in
  tasks.send_task_to_user pick reply uid tg w
  = (Ok (),
     sent (pair tg <$> question_of td id)
       (committed
          (set_task_history (<[id := task]> (task_history (db w))) (db w))
          (after_reads (S (S (window_reads u))) w))).
Proof.
  intros Hover Hsel Hword Hreply id task.
  rewrite tick_selects by assumption.
  mrun. rewrite Hsel.
  rewrite get_words_for_review_run in Hsel. injection Hsel as _ <-.
  cbn. rewrite Hword. cbn.
  unfold ai_service.generate_task.
  rewrite bool_decide_true by apply random_choice_task_type.
  rewrite Hreply. cbn. rewrite create_task_history_run. cbn.
  rewrite _send_task_message_run. reflexivity.
Qed.

End tick.

(** C7. A tick of a learner whose "do not disturb" time stamp [until] lies
    after the clock reading [now] of the tick is a silent no-op: it returns
    normally, stores nothing, commits nothing and sends nothing -- neither
    a question nor the "all reviewed" notice. A tick of an active learner
    whose time stamp has been reached ([until ≤ now]) goes on as usual:
    when the selector returns a due row (its word stored, the generator
    answering with a payload) a new pending task is stored under a fresh
    key and the question is sent; when no row is due the "all reviewed"
    notice is sent. *)
Theorem C7_tick_in_do_not_disturb_window_is_silent (w : World) (pick : nat)
    (reply : ai_service.api_reply TaskData.t) (uid tg : Z)
    (u : Z * User.t) (until : Z) :
  crud.get_user_by_telegram_id tg w = (Ok (Some u), w) →
  User.do_not_disturb_until u.2 = Some until →
  let now := clock w (reads w) in
  (* before the time stamp: nothing stored, nothing sent *)
  (now < until →
     ∃ w' : World,
       tasks.send_task_to_user pick reply uid tg w = (Ok (), w')
       ∧ db w' = db w ∧ commits w' = commits w ∧ outbox w' = outbox w)
  (* from the time stamp on: a due row is issued as a new pending task *)
  ∧ (User.is_active u.2 = true →
     until ≤ now →
       ∀ (progress : Z * UserWordProgress.t)
         (rest : list (Z * UserWordProgress.t)) (w2 : World)
         (word : Word.t) (td : TaskData.t),
         crud.get_words_for_review uid 1 (after_reads 1 w)
         = (Ok (progress :: rest), w2) →
         words (db w) !! UserWordProgress.word_id progress.2 = Some word →
         reply = ai_service.Json td →
         ∃ (w' : World) (id : Z) (task : TaskHistory.t),
           tasks.send_task_to_user pick reply uid tg w = (Ok (), w')
           ∧ task_history (db w) !! id = None
           ∧ task_history (db w') = <[id := task]> (task_history (db w))
           ∧ TaskHistory.user_id task = uid
           ∧ TaskHistory.word_id task = UserWordProgress.word_id progress.2
           ∧ TaskHistory.task_content task = td
           ∧ TaskHistory.is_correct task = None
           ∧ outbox w' = outbox w ++ (pair tg <$> question_of td id))
  (* ... and with no row due the notice is sent *)
  ∧ (User.is_active u.2 = true →
     until ≤ now →
       ∀ w2 : World,
         crud.get_words_for_review uid 1 (after_reads 1 w) = (Ok [], w2) →
         ∃ w' : World,
           tasks.send_task_to_user pick reply uid tg w = (Ok (), w')
           ∧ db w' = db w
           ∧ outbox w' = outbox w ++ [(tg, AllReviewed)]).
Proof.
  intros Huser Hdnd now.
  assert (Hreads : window_reads u = 1%nat)
    by (unfold window_reads; rewrite Hdnd; reflexivity).
  split_and!.
  - intros Hnow. destruct (User.is_active u.2) eqn:Hactive.
    + eexists. split; [ eapply tick_silent; eassumption | auto ].
    + eexists. split; [ eapply tick_inactive; eassumption | auto ].
  - intros Hactive Hnow progress rest w2 word td Hsel Hword Hreply.
    eexists _, _, _. split.
    + eapply (tick_issues w pick reply uid tg u); try eassumption.
      * unfold window_over. rewrite Hdnd. exact Hnow.
      * rewrite Hreads. exact Hsel.
    + split; [ apply fresh_id_fresh | ]. cbn. auto 10.
  - intros Hactive Hnow w2 Hsel. eexists. split.
    + eapply (tick_all_reviewed w pick reply uid tg u); try eassumption.
      * unfold window_over. rewrite Hdnd. exact Hnow.
      * rewrite Hreads. exact Hsel.
    + auto.
Qed.

(** ** Queries leave the world as it is *)

Section queries.

Lemma scalar_one_or_none_inv {A} (rows : list A) (w w' : World)
    (r : res (option A)) :
  scalar_one_or_none rows w = (r, w') →
  w' = w ∧ ∀ x, r = Ok (Some x) → rows = [x].
Proof.
  destruct rows as [ | x [ | y rows ] ]; cbn; intros [= <- <-];
    (split; [ reflexivity | ]); intros x' Hx;
    try discriminate Hx; injection Hx as ->; reflexivity.
Qed.

Lemma elem_of_merge_sort {A} (R : relation A) `{!∀ x y, Decision (R x y)}
    (l : list A) (x : A) :
  x ∈ merge_sort R l ↔ x ∈ l.
Proof. rewrite (merge_sort_Permutation R l). reflexivity. Qed.

Lemma get_user_by_telegram_id_inv (w w' : World) (tg : Z)
    (r : res (option (Z * User.t))) :
  crud.get_user_by_telegram_id tg w = (r, w') → w' = w.
Proof.
  unfold crud.get_user_by_telegram_id. mrun. intros H.
  apply scalar_one_or_none_inv in H as [-> _]. reflexivity.
Qed.

Lemma get_user_word_progress_inv (w w' : World) (uid wid : Z)
    (r : res (option (Z * UserWordProgress.t))) :
  crud.get_user_word_progress uid wid w = (r, w') →
  w' = w
  ∧ ∀ p, r = Ok (Some p) →
      user_word_progress (db w) !! p.1 = Some p.2
      ∧ UserWordProgress.user_id p.2 = uid
      ∧ UserWordProgress.word_id p.2 = wid.
Proof.
  unfold crud.get_user_word_progress. mrun. intros H.
  apply scalar_one_or_none_inv in H as [-> Hrows].
  split; [ reflexivity | ]. intros [k p] Hr. specialize (Hrows _ Hr).
  assert (Hin : (k, p) ∈ [(k, p)]) by left.
  rewrite <- Hrows in Hin. apply list_elem_of_filter in Hin as [[? ?] Hin].
  apply elem_of_map_to_list in Hin. auto.
Qed.

(** The answer depends on the progress table only. *)
Lemma get_user_word_progress_frame (w w1 : World) (uid wid : Z)
    (r : res (option (Z * UserWordProgress.t))) :
  user_word_progress (db w1) = user_word_progress (db w) →
  crud.get_user_word_progress uid wid w = (r, w) →
  crud.get_user_word_progress uid wid w1 = (r, w1).
Proof.
  unfold crud.get_user_word_progress. mrun. intros ->.
  destruct (filter _ _) as [ | x [ | y rows ] ]; cbn;
    unfold ret, raise; congruence.
Qed.

Lemma get_last_pending_task_inv (w w' : World) (uid : Z)
    (r : res (option (Z * TaskHistory.t))) :
  crud.get_last_pending_task uid w = (r, w') →
  w' = w
  ∧ ∀ task, r = Ok (Some task) →
      task_history (db w) !! task.1 = Some task.2
      ∧ TaskHistory.user_id task.2 = uid
      ∧ TaskHistory.is_correct task.2 = None.
Proof.
  unfold crud.get_last_pending_task. mrun. intros H.
  apply scalar_one_or_none_inv in H as [-> Hrows].
  split; [ reflexivity | ]. intros [k t] Hr. specialize (Hrows _ Hr).
  match type of Hrows with
  | ?rows = _ => assert (Hin : (k, t) ∈ rows) by (rewrite Hrows; left)
  end.
  apply subseteq_take, elem_of_merge_sort in Hin.
  apply list_elem_of_filter in Hin as [[? ?] Hin].
  apply elem_of_map_to_list in Hin. auto.
Qed.

(** Looking a user up, or registering a new one, touches neither the
    tasks nor the progress rows, and sends nothing. *)
Lemma get_or_create_user_frame (w w' : World) (tg : Z)
    (r : res (Z * User.t)) :
  crud.get_or_create_user tg w = (r, w') →
  task_history (db w') = task_history (db w)
  ∧ user_word_progress (db w') = user_word_progress (db w)
  ∧ words (db w') = words (db w)
  ∧ outbox w' = outbox w.
Proof.
  unfold crud.get_or_create_user. mrun.
  destruct (crud.get_user_by_telegram_id tg w) as [ r0 w0 ] eqn:Hget.
  apply get_user_by_telegram_id_inv in Hget as ->.
  destruct r0 as [ [ u | ] | e ]; cbn; intros [= <- <-]; auto.
Qed.

Lemma get_or_create_user_known (w : World) (tg : Z) (u : Z * User.t) :
  crud.get_user_by_telegram_id tg w = (Ok (Some u), w) →
  crud.get_or_create_user tg w = (Ok u, w).
Proof. intros H. unfold crud.get_or_create_user. mrun. rewrite H. reflexivity. Qed.

End queries.

(** ** Grading a text answer *)

Section text_answer.

Lemma update_task_history_answer_run (w : World) (task_id : Z)
    (user_answer : string) (is_correct : option bool)
    (ai_feedback : option string) :
  crud.update_task_history_answer task_id user_answer is_correct
    ai_feedback w
  = (Ok (),
     committed
       (set_task_history
          (alter (answered user_answer is_correct ai_feedback) task_id
                 (task_history (db w))) (db w)) w).
Proof. reflexivity. Qed.

Lemma check_answer_translation (td : TaskData.t) (user_answer : string)
    (correct_answer : option string)
    (reply : ai_service.api_reply ai_service.verdict) :
  translation td →
  ai_service.check_answer td user_answer correct_answer reply
  = ai_service.request reply.
Proof.
  unfold ai_service.check_answer. intros [Hk | Hk].
  - rewrite bool_decide_true by assumption. reflexivity.
  - rewrite (bool_decide_true _ Hk).
    case_bool_decide; reflexivity.
Qed.

Context (w : World) (reply : ai_service.api_reply ai_service.verdict).
Context (from_user : Z) (text : string).
Context (u : Z * User.t) (task : Z * TaskHistory.t).
Hypothesis Huser : crud.get_or_create_user from_user w = (Ok u, w).
Hypothesis Htask :
  crud.get_last_pending_task u.1 w = (Ok (Some task), w).
Hypothesis Hkind : translation (TaskHistory.task_content task.2).

Lemma text_answer_checks :
  answers.handle_text_answer reply from_user text w
  = try_except
      (check_result ← ai_service.request reply;
       let is_correct := ai_service.is_correct check_result in
       let feedback := ai_service.feedback check_result in
       crud.update_task_history_answer task.1 text is_correct feedback;;
       progress ← crud.get_user_word_progress
                    u.1 (TaskHistory.word_id task.2);
       match progress with
       | Some p => crud.update_word_progress p.1 is_correct
       | None => ret ()
       end;;
       row ← answers.refresh progress;
       send_message from_user
         (TextGraded (crud.truthy is_correct) feedback
                     (UserWordProgress.knowledge_percent row)))
      (λ e, send_message from_user CheckFailed) w.
Proof.
  unfold answers.handle_text_answer. mrun. rewrite Huser. cbn.
  rewrite Htask. cbn.
  rewrite bool_decide_false
    by (destruct Hkind as [-> | ->]; intros [? ?]; congruence).
  rewrite check_answer_translation by assumption. reflexivity.
Qed.

(** The request failed or its content was not JSON: the [except] branch
    runs before anything is written. *)
Lemma text_answer_check_failed :
  reply = ai_service.ApiError ∨ reply = ai_service.NotJson →
  answers.handle_text_answer reply from_user text w
  = (Ok (), sent [(from_user, CheckFailed)] w).
Proof.
  intros Hreply. rewrite text_answer_checks. mrun.
  destruct Hreply as [-> | ->]; reflexivity.
Qed.

(** The classifier replied with an object and the user has a progress
    row for the word: two commits, the task first. *)
Lemma text_answer_graded (v : ai_service.verdict)
    (p : Z * UserWordProgress.t) :
  reply = ai_service.Json v →
  crud.get_user_word_progress u.1 (TaskHistory.word_id task.2) w
  = (Ok (Some p), w) →
  let is_correct := ai_service.is_correct v in
  let s1 :=
    set_task_history
      (alter (answered text is_correct (ai_service.feedback v)) task.1
             (task_history (db w))) (db w) in
  let p' :=
    progress_after is_correct (clock w (reads w))
      (clock w (S (reads w))) (clock w (S (S (reads w)))) p.2 in
  let s2 :=
    set_user_word_progress
      (<[p.1 := p']> (user_word_progress (db w))) s1 in
  answers.handle_text_answer reply from_user text w
  = (Ok (),
     sent [(from_user,
            TextGraded (crud.truthy is_correct) (ai_service.feedback v)
                       (UserWordProgress.knowledge_percent p'))]
       (committed s2 (after_reads 3 (committed s1 w)))).
Proof.
  intros Hreply Hprogress is_correct s1 p' s2.
  pose proof (get_user_word_progress_inv _ _ _ _ _ Hprogress)
    as [_ Hrow].
  destruct (Hrow p eq_refl) as (Hp & _).
  rewrite text_answer_checks. mrun. rewrite Hreply. cbn.
  rewrite update_task_history_answer_run.
  erewrite (get_user_word_progress_frame w);
    [ | reflexivity | exact Hprogress ].
  cbn. rewrite (update_word_progress_run _ _ _ p.2) by exact Hp.
  mrun. rewrite lookup_insert_eq. reflexivity.
Qed.

End text_answer.

(** ** Grading a multiple-choice answer *)

Section choice_answer.

Lemma getitem_None {A} (l : list A) (i : Z) :
  Py.getitem l i = None ↔ i < - Z.of_nat (length l) ∨ Z.of_nat (length l) ≤ i.
Proof.
  unfold Py.getitem.
  repeat case_bool_decide; rewrite ?lookup_ge_None; [ lia .. | ].
  split; [ lia | reflexivity ].
Qed.

Lemma parse_callback_inv (data : string) (w w' : World) (r : res (Z * Z)) :
  answers.parse_callback data w = (r, w') → w' = w.
Proof.
  unfold answers.parse_callback.
  repeat match goal with
         | |- context [ match ?x with _ => _ end ] => destruct x
         end; unfold ret, raise; congruence.
Qed.

Context (w w1 : World) (from_user : Z) (data : string).
Context (task_id selected_index : Z) (u : Z * User.t).
Hypothesis Hparse :
  answers.parse_callback data w = (Ok (task_id, selected_index), w).
Hypothesis Huser : crud.get_or_create_user from_user w = (Ok u, w1).

Lemma choice_looks_up :
  answers.handle_multiple_choice_answer from_user data w
  = match task_history (db w) !! task_id with
    | None =>
        if bool_decide (Py.int64 task_id)
        then send_message from_user AlertNotFound w1
        else (Raise Py.OverflowError, w1)
    | Some task =>
        if bool_decide (TaskHistory.is_correct task ≠ None)
        then send_message from_user AlertAlreadyAnswered w1
        else
          let task_data := TaskHistory.task_content task in
          let options := default [] (TaskData.options task_data) in
          let correct_index := TaskData.correct_index task_data in
          let is_correct :=
            bool_decide (Some selected_index = correct_index) in
          match Py.getitem options selected_index with
          | None => (Raise Py.IndexError, w1)
          | Some user_answer =>
              match correct_index with
              | None => (Raise Py.TypeError, w1)
              | Some correct_index =>
                  match Py.getitem options correct_index with
                  | None => (Raise Py.IndexError, w1)
                  | Some correct_answer =>
                      let feedback :=
                        if is_correct then "Правильно! ✅"
                        else "Неправильно. Правильный ответ: "
                               +:+ correct_answer in
                      (crud.update_task_history_answer
                         task_id user_answer (Some is_correct)
                         (Some feedback);;
                       progress ← crud.get_user_word_progress
                                    u.1 (TaskHistory.word_id task);
                       match progress with
                       | Some p =>
                           crud.update_word_progress p.1 (Some is_correct)
                       | None => ret ()
                       end;;
                       row ← answers.refresh progress;
                       send_message from_user
                         (EditWithResult feedback
                            (UserWordProgress.knowledge_percent row));;
                       send_message from_user CallbackAnswered) w1
                  end
              end
          end
    end.
Proof.
  pose proof (get_or_create_user_frame _ _ _ _ Huser) as (Htasks & _).
  unfold answers.handle_multiple_choice_answer. mrun.
  rewrite Hparse, Huser. cbn. rewrite Htasks.
  destruct (task_history (db w) !! task_id) as [ task | ];
    [ | case_bool_decide; reflexivity ].
  case_bool_decide; [ reflexivity | ].
  destruct (Py.getitem _ selected_index); [ | reflexivity ].
  destruct (TaskData.correct_index _); [ | reflexivity ].
  destruct (Py.getitem _ _); reflexivity.
Qed.




Lemma choice_index_out_of_range (task : TaskHistory.t) :
  task_history (db w) !! task_id = Some task →
  TaskHistory.is_correct task = None →
  Py.getitem (default [] (TaskData.options (TaskHistory.task_content task)))
             selected_index = None →
  answers.handle_multiple_choice_answer from_user data w
  = (Raise Py.IndexError, w1).
Proof.
  intros H Hpending Hout. rewrite choice_looks_up, H.
  rewrite bool_decide_false by congruence. cbn. rewrite Hout. reflexivity.
Qed.

Lemma choice_without_correct_index (task : TaskHistory.t) :
  task_history (db w) !! task_id = Some task →
  TaskHistory.is_correct task = None →
  TaskData.correct_index (TaskHistory.task_content task) = None →
  answers.handle_multiple_choice_answer from_user data w
  = (Raise
       (match Py.getitem
                (default [] (TaskData.options (TaskHistory.task_content task)))
                selected_index with
        | None => Py.IndexError
        | Some _ => Py.TypeError
        end), w1).
Proof.
  intros H Hpending Hnone. rewrite choice_looks_up, H.
  rewrite bool_decide_false by congruence. cbn. rewrite Hnone.
  destruct (Py.getitem _ _); reflexivity.
Qed.

End choice_answer.

(** ** Callback data *)

Lemma split_nonempty (sep : ascii) (s : string) : Py.split sep s ≠ [].
Proof.
  destruct s as [ | c s ]; cbn; [ discriminate | ].
  case_bool_decide; [ discriminate | ].
  destruct (Py.split sep s); discriminate.
Qed.

(** Data that passes the router's filter has a task part: [parts[1]]
    never raises. *)
Lemma answer_callback_has_task_part (data : string) :
  answers.is_answer_callback data = true →
  ∃ p rest, Py.split "_" data = "answer" :: p :: rest.
Proof.
  unfold answers.is_answer_callback. intros Hfilter.
  do 7 (destruct data as [ | c data ]; [ discriminate | ];
        cbn in Hfilter; apply andb_prop in Hfilter as [Hc Hfilter];
        apply bool_decide_eq_true in Hc; subst c).
  pose proof (split_nonempty "_" data) as Hparts.
  cbn. destruct (Py.split "_" data) as [ | p rest ]; [ contradiction | ].
  eauto.
Qed.

(** The keyboard has one button per option, carrying the option's own
    index. *)
Lemma keyboard_button (options : list string) (task_id : Z) (i : nat)
    (button : string * string) :
  keyboards.get_multiple_choice_keyboard options task_id !! i = Some button ↔
  ∃ option,
    options !! i = Some option
    ∧ button = (option,
                "answer_" +:+ pretty task_id +:+ "_" +:+ pretty (Z.of_nat i)).
Proof.
  unfold keyboards.get_multiple_choice_keyboard.
  rewrite list_lookup_imap. destruct (options !! i) as [ o | ]; cbn.
  - split; [ intros [= <-]; eauto | intros (o' & [= <-] & ->); reflexivity ].
  - split; [ discriminate | intros (o' & [= ] & _) ].
Qed.

(** The four buttons sent for the multiple-choice task of the scenario
    pass the filter and parse back to task 1 and the indices 0..3. *)
Lemma scenario_buttons_parse_back :
  (λ button : string * string,
     (answers.is_answer_callback button.2,
      (answers.parse_callback button.2 scenario.start).1))
    <$> keyboards.get_multiple_choice_keyboard
          (default [] (TaskData.options scenario.choose_apple)) 1
  = [ (true, Ok (1, 0)); (true, Ok (1, 1));
      (true, Ok (1, 2)); (true, Ok (1, 3)) ].
Proof. vm_compute. reflexivity. Qed.

(** ** The task life cycle *)

(** C1, as amended. Issuing while the learner has a pending task does not
    fail: whenever the tick gets as far as issuing (the learner active and
    outside the "do not disturb" window, a row due, its word stored, a
    payload generated), it returns normally, stores a further pending task
    under a fresh key and leaves every stored task row, the pending one
    among them, as it was: the learner then has two pending tasks. *)
Theorem C1_issue_while_pending_adds_second_pending_task (w : World)
    (pick : nat) (reply : ai_service.api_reply TaskData.t) (uid tg : Z)
    (u : Z * User.t) (k0 : Z) (t0 : TaskHistory.t)
    (progress : Z * UserWordProgress.t)
    (rest : list (Z * UserWordProgress.t)) (w2 : World) (word : Word.t)
    (td : TaskData.t) :
  (* the learner already has a pending task *)
  task_history (db w) !! k0 = Some t0 →
  TaskHistory.user_id t0 = uid →
  TaskHistory.is_correct t0 = None →
  (* the tick gets as far as issuing *)
  crud.get_user_by_telegram_id tg w = (Ok (Some u), w) →
  User.is_active u.2 = true →
  window_over w u →
  crud.get_words_for_review uid 1 (after_reads (window_reads u) w)
  = (Ok (progress :: rest), w2) →
  words (db w) !! UserWordProgress.word_id progress.2 = Some word →
  reply = ai_service.Json td →
  ∃ (w' : World) (id : Z) (task : TaskHistory.t),
    tasks.send_task_to_user pick reply uid tg w = (Ok (), w')
    ∧ id ≠ k0
    ∧ task_history (db w') !! k0 = Some t0
    ∧ task_history (db w') !! id = Some task
    ∧ TaskHistory.user_id task = uid
    ∧ TaskHistory.is_correct task = None
    ∧ (∀ (k : Z) (t : TaskHistory.t),
         task_history (db w) !! k = Some t →
         task_history (db w') !! k = Some t)
    ∧ task_history (db w) !! id = None.
Proof.
  intros Hk0 Hu0 Hp0 Huser Hactive Hover Hsel Hword Hreply.
  eexists _, (fresh_id (task_history (db w))), _. split.
  - eapply tick_issues; eassumption.
  - cbn.
    assert (Hfresh : ∀ k t, task_history (db w) !! k = Some t →
                            fresh_id (task_history (db w)) ≠ k).
    { intros k t Hk Heq. rewrite <- Heq, fresh_id_fresh in Hk.
      discriminate. }
    split_and!.
    + exact (Hfresh _ _ Hk0).
    + rewrite lookup_insert_ne by exact (Hfresh _ _ Hk0). exact Hk0.
    + apply lookup_insert_eq.
    + reflexivity.
    + reflexivity.
    + intros k t Hk. rewrite lookup_insert_ne by exact (Hfresh _ _ Hk).
      exact Hk.
    + apply fresh_id_fresh.
Qed.

(** C4, as amended. Grading a text answer writes in two commits, the
    outcome first: with a boolean verdict from the classifier and a
    progress row of the answering learner for the task's word, the handler
    makes exactly two commits. The first holds the task with its outcome,
    answer and feedback and the progress table unchanged; the second holds
    the same tasks and the progress row updated by the mastery rule, and is
    the state the handler returns in. *)
Theorem C4_text_grade_commits_outcome_then_progress (w : World)
    (reply : ai_service.api_reply ai_service.verdict)
    (from_user : Z) (text : string) (u : Z * User.t)
    (task : Z * TaskHistory.t) (b : bool) (fb : option string)
    (p : Z * UserWordProgress.t) :
  crud.get_or_create_user from_user w = (Ok u, w) →
  crud.get_last_pending_task u.1 w = (Ok (Some task), w) →
  translation (TaskHistory.task_content task.2) →
  reply = ai_service.Json (ai_service.mkVerdict (Some b) fb) →
  crud.get_user_word_progress u.1 (TaskHistory.word_id task.2) w
  = (Ok (Some p), w) →
  ∃ (w' : World) (s1 s2 : DB) (t' : TaskHistory.t)
    (p' : UserWordProgress.t),
    answers.handle_text_answer reply from_user text w = (Ok (), w')
    ∧ commits w' = commits w ++ [s1; s2]
    ∧ db w' = s2
    (* the first commit holds the outcome and the old progress *)
    ∧ task_history s1 !! task.1 = Some t'
    ∧ TaskHistory.is_correct t' = Some b
    ∧ TaskHistory.user_answer t' = Some text
    ∧ TaskHistory.ai_feedback t' = fb
    ∧ user_word_progress s1 = user_word_progress (db w)
    ∧ user_word_progress s1 !! p.1 = Some p.2
    (* the second commit holds the outcome and the new progress *)
    ∧ task_history s2 = task_history s1
    ∧ user_word_progress s2 !! p.1 = Some p'
    ∧ UserWordProgress.total_answers_count p'
      = UserWordProgress.total_answers_count p.2 + 1
    ∧ UserWordProgress.knowledge_percent p'
      = (if b
         then Z.min 100 (UserWordProgress.knowledge_percent p.2 + 15)
         else Z.max 0 (UserWordProgress.knowledge_percent p.2 - 10)).
Proof.
  intros Huser Htask Hkind Hreply Hprogress.
  pose proof (get_last_pending_task_inv _ _ _ _ Htask) as [_ Ht].
  destruct (Ht task eq_refl) as (Hrow & _).
  pose proof (get_user_word_progress_inv _ _ _ _ _ Hprogress) as [_ Hp].
  destruct (Hp p eq_refl) as (Hprow & _).
  eexists _, _, _, _, _. split.
  - eapply text_answer_graded; eassumption.
  - cbn. rewrite <- app_assoc.
    split; [ reflexivity | ]. split; [ reflexivity | ]. cbn.
    split; [ rewrite lookup_alter_eq, Hrow; reflexivity | ].
    do 4 (split; [ reflexivity | ]).
    split; [ exact Hprow | ]. split; [ reflexivity | ].
    split; [ apply lookup_insert_eq | ].
    split; [ reflexivity | ].
    cbn. destruct b; reflexivity.
Qed.

(** C5, the failing input. When the classifier answers with a JSON object
    that has no "is_correct" key, the text handler reports no error: the
    task stays pending (its outcome is still unset) but the answer is
    stored, and the progress row is updated as for a wrong answer -- total
    counter one higher, correct counter unchanged, score lowered by 10
    (not below 0) -- and the learner is told the answer was wrong. *)
Theorem C5_verdict_without_is_correct_is_graded_wrong (w : World)
    (reply : ai_service.api_reply ai_service.verdict)
    (from_user : Z) (text : string) (u : Z * User.t)
    (task : Z * TaskHistory.t) (fb : option string)
    (p : Z * UserWordProgress.t) :
  crud.get_or_create_user from_user w = (Ok u, w) →
  crud.get_last_pending_task u.1 w = (Ok (Some task), w) →
  translation (TaskHistory.task_content task.2) →
  reply = ai_service.Json (ai_service.mkVerdict None fb) →
  crud.get_user_word_progress u.1 (TaskHistory.word_id task.2) w
  = (Ok (Some p), w) →
  ∃ (w' : World) (t' : TaskHistory.t) (p' : UserWordProgress.t),
    answers.handle_text_answer reply from_user text w = (Ok (), w')
    (* the task is still pending, with the answer stored *)
    ∧ task_history (db w') !! task.1 = Some t'
    ∧ TaskHistory.is_correct t' = None
    ∧ TaskHistory.user_answer t' = Some text
    (* the progress row took the penalty of a wrong answer *)
    ∧ user_word_progress (db w') !! p.1 = Some p'
    ∧ UserWordProgress.total_answers_count p'
      = UserWordProgress.total_answers_count p.2 + 1
    ∧ UserWordProgress.correct_answers_count p'
      = UserWordProgress.correct_answers_count p.2
    ∧ UserWordProgress.knowledge_percent p'
      = Z.max 0 (UserWordProgress.knowledge_percent p.2 - 10)
    ∧ outbox w'
      = outbox w
        ++ [(from_user,
             TextGraded false fb (UserWordProgress.knowledge_percent p'))].
Proof.
  intros Huser Htask Hkind Hreply Hprogress.
  pose proof (get_last_pending_task_inv _ _ _ _ Htask) as [_ Ht].
  destruct (Ht task eq_refl) as (Hrow & _).
  eexists _, _, _. split.
  - eapply text_answer_graded; eassumption.
  - cbn.
    split; [ rewrite lookup_alter_eq, Hrow; reflexivity | ].
    do 2 (split; [ reflexivity | ]).
    split; [ apply lookup_insert_eq | ].
    split_and!; reflexivity.
Qed.


(** C10. For a pending task, the callback handler indexes the stored
    options with the index parsed from the callback data and with the
    stored correct index without any check: an index outside the list
    raises [IndexError], a payload without a correct index raises too
    ([TypeError] when the submitted index is inside the list), and the
    exception leaves the handler with the task still pending and neither
    progress nor outbox written. *)
Theorem C10_choice_index_is_not_checked (w w1 : World) (from_user : Z)
    (data : string) (task_id selected_index : Z) (u : Z * User.t)
    (task : TaskHistory.t) :
  answers.parse_callback data w = (Ok (task_id, selected_index), w) →
  crud.get_or_create_user from_user w = (Ok u, w1) →
  task_history (db w) !! task_id = Some task →
  TaskHistory.is_correct task = None →
  let options :=
    default [] (TaskData.options (TaskHistory.task_content task)) in
  let size := Z.of_nat (length options) in
  (* an index outside the list *)
  (selected_index < - size ∨ size ≤ selected_index →
   answers.handle_multiple_choice_answer from_user data w
   = (Raise Py.IndexError, w1))
  (* a payload without correct_index *)
  ∧ (TaskData.correct_index (TaskHistory.task_content task) = None →
     ∃ e : Py.exn,
       answers.handle_multiple_choice_answer from_user data w
       = (Raise e, w1)
       ∧ (- size ≤ selected_index < size → e = Py.TypeError))
  (* what is left behind: the task as it was, still pending *)
  ∧ task_history (db w1) !! task_id = Some task
  ∧ user_word_progress (db w1) = user_word_progress (db w)
  ∧ outbox w1 = outbox w.
Proof.
  intros Hparse Huser Htask Hpending options size.
  pose proof (get_or_create_user_frame _ _ _ _ Huser)
    as (Htasks & Hprog & _ & Hout).
  split_and!.
  - intros Hrange. eapply choice_index_out_of_range; try eassumption.
    apply getitem_None. exact Hrange.
  - intros Hnone. eexists. split.
    + eapply choice_without_correct_index; eassumption.
    + intros Hrange.
      destruct (Py.getitem _ selected_index) eqn:Hget; [ reflexivity | ].
      apply getitem_None in Hget. fold options size in Hget. lia.
  - rewrite Htasks. exact Htask.
  - exact Hprog.
  - exact Hout.
Qed.

(** C1: a second tick while task 1 is pending neither fails nor replaces
    it: tasks 1 and 2 are then both pending for learner 1. *)
Lemma C1_counterexample_two_pending_tasks :
  let tick :=
    tasks.send_task_to_user 0 (ai_service.Json scenario.translate_apple)
      1 100 in
  (TaskHistory.is_correct <$> task_history (db scenario.translation_pending) !! 1)
  = Some None
  ∧ (tick scenario.translation_pending).1 = Ok ()
  ∧ (λ t, (TaskHistory.user_id t, TaskHistory.is_correct t))
      <$> task_history (db (tick scenario.translation_pending).2) !! 1
    = Some (1, None)
  ∧ (λ t, (TaskHistory.user_id t, TaskHistory.is_correct t))
      <$> task_history (db (tick scenario.translation_pending).2) !! 2
    = Some (1, None).
Proof. vm_compute. auto. Qed.

Lemma C1_witness_second_task_is_added :
  ∃ (w' : World) (id : Z) (task : TaskHistory.t),
    tasks.send_task_to_user 0 (ai_service.Json scenario.translate_apple)
      1 100 scenario.translation_pending = (Ok (), w')
    ∧ id ≠ 1
    ∧ TaskHistory.is_correct <$> task_history (db w') !! 1 = Some None
    ∧ task_history (db w') !! id = Some task
    ∧ TaskHistory.is_correct task = None.
Proof.
  edestruct (C1_issue_while_pending_adds_second_pending_task
               scenario.translation_pending 0
               (ai_service.Json scenario.translate_apple) 1 100
               (1, scenario.learner) 1)
    as (w' & id & task & Hrun & Hne & Hold & Hnew & _ & Hpending & _).
  - vm_compute. reflexivity.
  - reflexivity.
  - reflexivity.
  - vm_compute. reflexivity.
  - reflexivity.
  - exact I.
  - vm_compute. reflexivity.
  - vm_compute. reflexivity.
  - reflexivity.
  - exists w', id, task. rewrite Hold. auto.
Defined.

Lemma C2_witness_new_row_wins :
  ∃ (r : Z * UserWordProgress.t) (w' : World),
    crud.get_words_for_review 1 1 scenario.two_due = (Ok [r], w')
    ∧ UserWordProgress.last_reviewed_at r.2 = None.
Proof.
  pose proof (C2_get_words_for_review_top_priority_due scenario.two_due 1)
    as Htop.
  destruct (crud.get_words_for_review 1 1 scenario.two_due)
    as [ [ [ | r [ | ] ] | ] w' ]; try contradiction.
  - destruct Htop as [_ Hnone].
    specialize (Hnone 1 scenario.new_row eq_refl eq_refl).
    vm_compute in Hnone. discriminate.
  - exists r, w'. split; [ reflexivity | ].
    destruct Htop as (_ & _ & _ & _ & Hbest).
    apply (Hbest 1 scenario.new_row); [ reflexivity .. | | reflexivity ].
    vm_compute. discriminate.
Defined.

Lemma C3_witness_first_right_answer :
  ∃ (w' : World) (p' : UserWordProgress.t),
    crud.update_word_progress 1 (Some true) scenario.start = (Ok (), w')
    ∧ user_word_progress (db w') !! 1 = Some p'
    ∧ UserWordProgress.knowledge_percent p' = 15
    ∧ UserWordProgress.total_answers_count p' = 1
    ∧ UserWordProgress.correct_answers_count p' = 1
    ∧ UserWordProgress.next_review_at p'
      = scenario.seconds 1 + 30 * scenario.minute.
Proof.
  destruct (C3_update_word_progress_applies_outcome
              scenario.start 1 scenario.new_row true)
    as (w' & p' & Hrun & Hrow & Htotal & Hcorrect & _ & Hscore & _ & Hdue).
  - reflexivity.
  - vm_compute. split; discriminate.
  - exists w', p'. rewrite Hdue, Hscore, Htotal, Hcorrect.
    split_and!; try assumption; vm_compute; reflexivity.
Defined.

(** C4: the first of the two commits of a grade holds the outcome of
    task 1 while the progress row is still the one from before. *)
Lemma C4_counterexample_outcome_committed_alone :
  let w' :=
    (answers.handle_text_answer (ai_service.Json scenario.right_verdict)
       100 "I eat an apple" scenario.translation_pending).2 in
  ∃ s : DB,
    commits w' !! 1%nat = Some s
    ∧ TaskHistory.is_correct <$> task_history s !! 1 = Some (Some true)
    ∧ user_word_progress s !! 1 = Some scenario.new_row.
Proof. eexists. vm_compute. auto. Qed.

Lemma C4_witness_two_commits :
  ∃ (w' : World) (s1 s2 : DB),
    answers.handle_text_answer (ai_service.Json scenario.right_verdict)
      100 "I eat an apple" scenario.translation_pending = (Ok (), w')
    ∧ commits w' = commits scenario.translation_pending ++ [s1; s2]
    ∧ TaskHistory.is_correct <$> task_history s1 !! 1 = Some (Some true)
    ∧ user_word_progress s1 !! 1 = Some scenario.new_row
    ∧ UserWordProgress.knowledge_percent <$> user_word_progress s2 !! 1
      = Some 15.
Proof.
  edestruct (C4_text_grade_commits_outcome_then_progress
               scenario.translation_pending
               (ai_service.Json scenario.right_verdict)
               100 "I eat an apple" (1, scenario.learner))
    as (w' & s1 & s2 & t' & p' & Hrun & Hcommits & _ & Ht' & Hb & _ & _
        & _ & Hold & _ & Hnew & _ & Hscore).
  - vm_compute. reflexivity.
  - vm_compute. reflexivity.
  - left. vm_compute. reflexivity.
  - reflexivity.
  - vm_compute. reflexivity.
  - exists w', s1, s2. cbn in Ht', Hold, Hnew.
    split_and!; [ assumption | assumption | | exact Hold | ].
    + rewrite Ht'. cbn. rewrite Hb. reflexivity.
    + rewrite Hnew. cbn. rewrite Hscore. reflexivity.
Defined.

Lemma C5_witness_missing_is_correct :
  ∃ (w' : World) (t' : TaskHistory.t) (p' : UserWordProgress.t),
    answers.handle_text_answer
      (ai_service.Json scenario.verdict_without_is_correct)
      100 "I eat an apple" scenario.translation_pending = (Ok (), w')
    ∧ task_history (db w') !! 1 = Some t'
    ∧ TaskHistory.is_correct t' = None
    ∧ user_word_progress (db w') !! 1 = Some p'
    ∧ UserWordProgress.total_answers_count p' = 1
    ∧ UserWordProgress.correct_answers_count p' = 0.
Proof.
  edestruct (C5_verdict_without_is_correct_is_graded_wrong
               scenario.translation_pending
               (ai_service.Json scenario.verdict_without_is_correct)
               100 "I eat an apple" (1, scenario.learner))
    as (w' & t' & p' & Hrun & Ht' & Hstill & _ & Hp' & Htotal & Hcorrect
        & _).
  - vm_compute. reflexivity.
  - vm_compute. reflexivity.
  - left. vm_compute. reflexivity.
  - reflexivity.
  - vm_compute. reflexivity.
  - exists w', t', p'. cbn in Ht', Hp'. auto 10.
Defined.



Lemma C7_witness_sixty_minute_window :
  let tick :=
    tasks.send_task_to_user 0 (ai_service.Json scenario.translate_apple)
      1 100 in
  (* the tick 10 minutes into the window *)
  (∃ w' : World,
     tick scenario.quiet = (Ok (), w')
     ∧ db w' = db scenario.quiet
     ∧ commits w' = commits scenario.quiet
     ∧ outbox w' = outbox scenario.quiet)
  (* the tick 70 minutes after the window was set *)
  ∧ (∃ (w' : World) (id : Z) (task : TaskHistory.t),
       tick (tick scenario.quiet).2 = (Ok (), w')
       ∧ task_history (db w') !! id = Some task
       ∧ TaskHistory.is_correct task = None
       ∧ outbox w' = [(100, TranslateToEn (Some "Я ем яблоко"))]).
Proof.
  intros tick. split.
  - edestruct (C7_tick_in_do_not_disturb_window_is_silent
                 scenario.quiet 0
                 (ai_service.Json scenario.translate_apple) 1 100)
      as (Hsilent & _).
    + vm_compute. reflexivity.
    + reflexivity.
    + apply Hsilent. vm_compute. reflexivity.
  - edestruct (C7_tick_in_do_not_disturb_window_is_silent
                 (tick scenario.quiet).2 0
                 (ai_service.Json scenario.translate_apple) 1 100)
      as (_ & Hissues & _).
    + vm_compute. reflexivity.
    + reflexivity.
    + edestruct Hissues
        as (w' & id & task & Hrun & _ & Hdb & _ & _ & _ & Hpending & Hout).
      * reflexivity.
      * vm_compute. discriminate.
      * vm_compute. reflexivity.
      * vm_compute. reflexivity.
      * reflexivity.
      * exists w', id, task. rewrite Hdb, lookup_insert_eq, Hout. auto.
Defined.

Lemma C9_witness_word_added_then_tick :
  ∃ (id : Z) (p : UserWordProgress.t) (w' : World),
    crud.create_user_word_progress 1 2 scenario.start = (Ok (id, p), w')
    ∧ UserWordProgress.next_review_at p = scenario.seconds 0
    ∧ ∃ (r : Z * UserWordProgress.t) (tick' : World),
        crud.get_words_for_review 1 1 w' = (Ok [r], tick').
Proof.
  destruct (C9_new_progress_row_is_due_at_once scenario.start 1 2)
    as (id & p & w' & Hrun & _ & _ & _ & _ & _ & _ & _ & _ & Hdue & Htick).
  exists id, p, w'. split_and!; try assumption.
  apply (Htick w'); [ reflexivity | ].
  injection Hrun as _ _ <-. vm_compute. discriminate.
Defined.

Lemma C10_witness_index_five_of_four :
  answers.handle_multiple_choice_answer 100 "answer_1_5"
    scenario.choice_pending
  = (Raise Py.IndexError, scenario.choice_pending)
  ∧ TaskHistory.is_correct <$> task_history (db scenario.choice_pending) !! 1
    = Some None.
Proof.
  edestruct (C10_choice_index_is_not_checked
               scenario.choice_pending scenario.choice_pending
               100 "answer_1_5" 1 5 (1, scenario.learner))
    as (Hraise & _ & Hleft & _).
  - reflexivity.
  - vm_compute. reflexivity.
  - vm_compute. reflexivity.
  - reflexivity.
  - split.
    + apply Hraise. vm_compute. right. discriminate.
    + rewrite Hleft. reflexivity.
Defined.

(** * Further properties *)

(** ** Queries that expect one row *)

Section unique_rows.
Context {A : Type} (P : A → Prop) `{!∀ x, Decision (P x)}.

Lemma filter_nil_iff (l : list A) :
  filter P l = [] ↔ ∀ y, y ∈ l → ¬ P y.
Proof.
  split.
  - intros Hnil y Hy HP.
    assert (Hin : y ∈ filter P l) by (apply list_elem_of_filter; auto).
    rewrite Hnil in Hin. inversion Hin.
  - intros Hnone. destruct (filter P l) as [ | y rest ] eqn:Hf;
      [ reflexivity | ].
    assert (Hin : y ∈ filter P l) by (rewrite Hf; left).
    apply list_elem_of_filter in Hin as [HP Hy]. destruct (Hnone y Hy HP).
Qed.

Lemma filter_singleton_iff (l : list A) (x : A) :
  NoDup l →
  filter P l = [x] ↔ x ∈ l ∧ P x ∧ ∀ y, y ∈ l → P y → y = x.
Proof.
  intros Hnodup. split.
  - intros Hone. assert (Hx : x ∈ filter P l) by (rewrite Hone; left).
    apply list_elem_of_filter in Hx as [HP Hx]. split_and!; try done.
    intros y Hy HPy.
    assert (Hin : y ∈ filter P l) by (apply list_elem_of_filter; auto).
    rewrite Hone in Hin. apply list_elem_of_singleton in Hin. exact Hin.
  - intros (Hx & HP & Honly).
    assert (Hnd : NoDup (filter P l)) by (apply NoDup_filter, Hnodup).
    assert (Hin : x ∈ filter P l) by (apply list_elem_of_filter; auto).
    assert (Hall : ∀ y, y ∈ filter P l → y = x).
    { intros y Hy. apply list_elem_of_filter in Hy as [HPy Hy]. auto. }
    destruct (filter P l) as [ | a [ | b rest ] ].
    + inversion Hin.
    + f_equal. apply Hall. left.
    + exfalso. apply NoDup_cons in Hnd as [Hnotin _]. apply Hnotin.
      rewrite (Hall a) by left. rewrite (Hall b) by (right; left). left.
Qed.

End unique_rows.

Section select.
Context {A : Type} (P : Z * A → Prop) `{!∀ x, Decision (P x)}.

Lemma select_one (m : gmap Z A) (w : World) (r : Z * A) :
  scalar_one_or_none (filter P (map_to_list m)) w = (Ok (Some r), w) ↔
  m !! r.1 = Some r.2
  ∧ P r ∧ ∀ k a, m !! k = Some a → P (k, a) → k = r.1.
Proof.
  destruct r as [k0 a0]. cbn. split.
  - intros Hrun.
    assert (Hone : filter P (map_to_list m) = [(k0, a0)]).
    { destruct (filter P (map_to_list m)) as [ | x [ | y l ] ];
        cbn in Hrun; unfold ret, raise in Hrun; congruence. }
    apply filter_singleton_iff in Hone as (Hin & HP & Honly);
      [ | apply NoDup_map_to_list ].
    apply elem_of_map_to_list in Hin. split_and!; try done.
    intros k a Hk HPk. apply elem_of_map_to_list in Hk.
    specialize (Honly _ Hk HPk). congruence.
  - intros (Hin & HP & Honly).
    assert (Hone : filter P (map_to_list m) = [(k0, a0)]).
    { apply filter_singleton_iff; [ apply NoDup_map_to_list | ].
      split_and!; [ by apply elem_of_map_to_list | done | ].
      intros [k a] Hk HPk. apply elem_of_map_to_list in Hk.
      assert (k = k0) by eauto. subst k. congruence. }
    rewrite Hone. reflexivity.
Qed.

Lemma select_none (m : gmap Z A) (w : World) :
  scalar_one_or_none (filter P (map_to_list m)) w = (Ok None, w) ↔
  ∀ k a, m !! k = Some a → ¬ P (k, a).
Proof.
  split.
  - intros Hrun k a Hk.
    assert (Hnil : filter P (map_to_list m) = []).
    { destruct (filter P (map_to_list m)) as [ | x [ | y l ] ];
        cbn in Hrun; unfold ret, raise in Hrun; congruence. }
    rewrite filter_nil_iff in Hnil. apply Hnil.
    by apply elem_of_map_to_list.
  - intros Hnone.
    assert (Hnil : filter P (map_to_list m) = []).
    { apply filter_nil_iff. intros [k a] Hk. apply elem_of_map_to_list in Hk.
      eauto. }
    rewrite Hnil. reflexivity.
Qed.

End select.

Lemma get_user_by_telegram_id_only (w : World) (tg : Z) (u : Z * User.t) :
  crud.get_user_by_telegram_id tg w = (Ok (Some u), w) ↔
  only_user (db w) tg u.
Proof.
  unfold crud.get_user_by_telegram_id, only_user. mrun.
  rewrite select_one. reflexivity.
Qed.

Lemma get_user_by_telegram_id_no_user (w : World) (tg : Z) :
  crud.get_user_by_telegram_id tg w = (Ok None, w) ↔ no_user (db w) tg.
Proof.
  unfold crud.get_user_by_telegram_id, no_user. mrun.
  rewrite select_none. reflexivity.
Qed.

Lemma get_user_word_progress_only (w : World) (uid wid : Z)
    (p : Z * UserWordProgress.t) :
  crud.get_user_word_progress uid wid w = (Ok (Some p), w) ↔
  only_progress (db w) uid wid p.
Proof.
  unfold crud.get_user_word_progress, only_progress. mrun.
  rewrite select_one. cbn. split.
  - intros (Hrow & [Hu Hw] & Honly). split_and!; try done.
    intros k a Hk Hku Hkw. apply (Honly k a); auto.
  - intros (Hrow & Hu & Hw & Honly). split_and!; try done.
    intros k a Hk [Hku Hkw]. apply (Honly k a); auto.
Qed.

Lemma get_user_word_progress_no_progress (w : World) (uid wid : Z) :
  crud.get_user_word_progress uid wid w = (Ok None, w) ↔
  no_progress (db w) uid wid.
Proof.
  unfold crud.get_user_word_progress, no_progress. mrun.
  rewrite select_none. reflexivity.
Qed.

(** ** The mastery rule, further *)

Section mastery_more.
Import UserWordProgress.

Lemma interval_bounds (knowledge : Z) :
  Py.timedelta_minutes 30
  ≤ Py.timedelta_hours (LearningConfig.get_review_interval knowledge)
  ≤ Py.timedelta_minutes (168 * 60).
Proof.
  unfold LearningConfig.get_review_interval. rewrite first_band_cases.
  repeat case_bool_decide; split; vm_compute; discriminate.
Qed.

Lemma progress_after_ok (ic : option bool) (t1 t2 t3 : Z) (p : t) :
  progress_ok p → progress_ok (progress_after ic t1 t2 t3 p).
Proof.
  unfold progress_ok, progress_after. cbn.
  destruct (crud.truthy ic); lia.
Qed.

(** X1. The bounds of the progress table are an invariant of the two
    operations that write it: if every row has its score in [0,100] and
    [0 ≤ correct ≤ total], so has every row after
    [update_word_progress] -- whatever is passed as [is_correct], [None]
    included -- and after [create_user_word_progress]. *)
Theorem X1_progress_bounds_are_kept (w : World) :
  progress_table_ok (db w) →
  (∀ (progress_id : Z) (is_correct : option bool),
     progress_table_ok
       (db (crud.update_word_progress progress_id is_correct w).2))
  ∧ (∀ uid wid : Z,
       progress_table_ok
         (db (crud.create_user_word_progress uid wid w).2)).
Proof.
  unfold progress_table_ok. intros Hok. split.
  - intros pid ic.
    destruct (user_word_progress (db w) !! pid) as [ p | ] eqn:Hp.
    + rewrite (update_word_progress_run _ _ _ p) by exact Hp. cbn.
      apply map_Forall_insert_2; [ | exact Hok ].
      apply progress_after_ok. exact (Hok _ _ Hp).
    + rewrite update_word_progress_missing by exact Hp. exact Hok.
  - intros uid wid. rewrite create_user_word_progress_run. cbn.
    apply map_Forall_insert_2; [ | exact Hok ].
    unfold progress_ok. cbn. lia.
Qed.

(** X2. A row that was just updated is marked as reviewed and is due
    again between half an hour and a week after the clock reading the
    update took for it; before that half hour has passed the selector's
    filter does not let it through. *)
Theorem X2_updated_row_rests_before_next_review (w : World)
    (progress_id : Z) (is_correct : option bool) (p : t) :
  user_word_progress (db w) !! progress_id = Some p →
  ∃ (w' : World) (p' : t),
    crud.update_word_progress progress_id is_correct w = (Ok (), w')
    ∧ user_word_progress (db w') !! progress_id = Some p'
    ∧ last_reviewed_at p' = Some (clock w (reads w))
    ∧ clock w (S (reads w)) + Py.timedelta_minutes 30 ≤ next_review_at p'
    ∧ next_review_at p'
      ≤ clock w (S (reads w)) + Py.timedelta_minutes (168 * 60)
    ∧ ∀ now : Z,
        now < clock w (S (reads w)) + Py.timedelta_minutes 30 →
        (progress_id, p') ∉ due_rows (db w') (user_id p) now.
Proof.
  intros Hp. eexists _, _.
  split; [ apply update_word_progress_run, Hp | ].
  cbn. rewrite lookup_insert_eq.
  pose proof (interval_bounds
                (if crud.truthy is_correct
                 then Z.min 100 (knowledge_percent p + 15)
                 else Z.max 0 (knowledge_percent p - 10))) as Hbounds.
  split_and!; [ reflexivity | reflexivity | cbn; lia | cbn; lia | ].
  intros now Hnow Hdue. apply elem_of_due_rows in Hdue as (_ & _ & Hdue).
  cbn in Hdue. lia.
Qed.


End mastery_more.

(** ** The two ordered queries, further *)

Section ordered.


#[local] Existing Instances review_order_total review_order_trans.
#[local] Existing Instance crud.newest_first_dec.


#[local] Instance newest_first_total : Total crud.newest_first.
Proof. intros r1 r2. unfold crud.newest_first. lia. Qed.

#[local] Instance newest_first_trans : Transitive crud.newest_first.
Proof. intros r1 r2 r3. unfold crud.newest_first. lia. Qed.

Lemma elem_of_pending_rows (d : DB) (uid : Z) (r : Z * TaskHistory.t) :
  r ∈ pending_rows d uid ↔
  task_history d !! r.1 = Some r.2
  ∧ TaskHistory.user_id r.2 = uid ∧ TaskHistory.is_correct r.2 = None.
Proof.
  unfold pending_rows. rewrite list_elem_of_filter.
  destruct r as [k t]. rewrite elem_of_map_to_list.
  unfold crud.pending_of. cbn. tauto.
Qed.

Lemma get_last_pending_task_run (w : World) (uid : Z) :
  crud.get_last_pending_task uid w
  = (Ok (head (merge_sort crud.newest_first (pending_rows (db w) uid))), w).
Proof.
  unfold crud.get_last_pending_task, pending_rows. mrun.
  destruct (merge_sort _ _) as [ | r rest ]; reflexivity.
Qed.

(** X5. [get_last_pending_task] never raises and writes nothing. It
    returns no task exactly when the user has no task with the outcome
    unset; otherwise it returns one of the user's pending tasks, and none
    of them was created later. *)
Theorem X5_get_last_pending_task_returns_newest (w : World) (uid : Z) :
  match crud.get_last_pending_task uid w with
  | (Ok None, w') =>
      w' = w
      ∧ ∀ (k : Z) (t : TaskHistory.t),
          task_history (db w) !! k = Some t →
          TaskHistory.user_id t = uid → TaskHistory.is_correct t ≠ None
  | (Ok (Some r), w') =>
      w' = w
      ∧ task_history (db w) !! r.1 = Some r.2
      ∧ TaskHistory.user_id r.2 = uid
      ∧ TaskHistory.is_correct r.2 = None
      ∧ ∀ (k : Z) (t : TaskHistory.t),
          task_history (db w) !! k = Some t →
          TaskHistory.user_id t = uid → TaskHistory.is_correct t = None →
          TaskHistory.created_at t ≤ TaskHistory.created_at r.2
  | (Raise _, _) => False
  end.
Proof.
  rewrite get_last_pending_task_run.
  destruct (merge_sort crud.newest_first (pending_rows (db w) uid))
    as [ | r rest ] eqn:Hsort; cbn.
  - split; [ reflexivity | ]. intros k t Hk Hu Hpending.
    apply merge_sort_nil in Hsort.
    assert (Hin : (k, t) ∈ pending_rows (db w) uid)
      by (apply elem_of_pending_rows; auto).
    rewrite Hsort in Hin. inversion Hin.
  - apply merge_sort_head in Hsort as [Hin Hmax]; [ | apply _ .. ].
    apply elem_of_pending_rows in Hin as (Hr & Hu & Hpending).
    split_and!; try done.
    intros k t Hk Htu Htp.
    assert (Hin : (k, t) ∈ pending_rows (db w) uid)
      by (apply elem_of_pending_rows; auto).
    apply Hmax in Hin. exact Hin.
Qed.

End ordered.

(** ** Users *)

Section users.

Lemma create_user_run (w : World) (tg : Z) :
  let id := fresh_id (users (db w)) in
  let u := User.mk tg false 30 None (clock w (reads w))
                   (clock w (S (reads w))) in
  crud.create_user tg w
  = (Ok (id, u),
     committed (set_users (<[id := u]> (users (db w))) (db w))
               (after_reads 2 w)).
Proof. reflexivity. Qed.

Lemma only_user_insert_fresh (d : DB) (tg id : Z) (u : User.t) :
  no_user d tg → users d !! id = None → User.telegram_id u = tg →
  only_user (set_users (<[id := u]> (users d)) d) tg (id, u).
Proof.
  intros Hnone Hfresh Htg. unfold only_user. cbn.
  split_and!; [ apply lookup_insert_eq | exact Htg | ].
  intros k u' Hk Hu'. destruct (decide (id = k)) as [ | Hne ]; [ done | ].
  rewrite lookup_insert_ne in Hk by exact Hne.
  destruct (Hnone _ _ Hk Hu').
Qed.

Lemma only_user_alter (d : DB) (tg uid : Z) (u : User.t)
    (f : User.t → User.t) :
  only_user d tg (uid, u) →
  (∀ x, User.telegram_id (f x) = User.telegram_id x) →
  only_user (set_users (alter f uid (users d)) d) tg (uid, f u).
Proof.
  intros (Hrow & Htg & Honly) Hf. unfold only_user. cbn in *.
  split_and!.
  - rewrite lookup_alter_eq, Hrow. reflexivity.
  - rewrite Hf. exact Htg.
  - intros k u' Hk Hu'. destruct (decide (uid = k)) as [ | Hne ]; [ done | ].
    rewrite lookup_alter_ne in Hk by exact Hne. eauto.
Qed.

Lemma only_user_unique (d : DB) (tg : Z) (u1 u2 : Z * User.t) :
  only_user d tg u1 → only_user d tg u2 → u1 = u2.
Proof.
  intros (Hrow1 & Htg1 & Honly1) (Hrow2 & Htg2 & _).
  destruct u1 as [k1 x1], u2 as [k2 x2]. cbn in *.
  assert (k2 = k1) by eauto. subst k2. congruence.
Qed.

(** X6. When at most one user row carries the Telegram id,
    [get_or_create_user] returns a row that afterwards is the one row with
    that id, and calling it again returns the same row and writes nothing.
    A known user is returned as stored, with the world untouched; an
    unknown one is stored under a fresh key, inactive, with the interval
    of 30 minutes and no "do not disturb" window. *)
Theorem X6_get_or_create_user_registers_once (w : World) (tg : Z) :
  no_user (db w) tg ∨ (∃ u, only_user (db w) tg u) →
  ∃ (u : Z * User.t) (w' : World),
    crud.get_or_create_user tg w = (Ok u, w')
    ∧ only_user (db w') tg u
    ∧ crud.get_or_create_user tg w' = (Ok u, w')
    ∧ (no_user (db w) tg →
         users (db w) !! u.1 = None
         ∧ u.2 = User.mk tg false 30 None (clock w (reads w))
                         (clock w (S (reads w)))
         ∧ users (db w') = <[u.1 := u.2]> (users (db w)))
    ∧ (∀ u0, only_user (db w) tg u0 → u = u0 ∧ w' = w).
Proof.
  intros [Hnone | [u Hone]].
  - pose proof Hnone as Hget. apply get_user_by_telegram_id_no_user in Hget.
    assert (Hnew : only_user
                     (set_users
                        (<[fresh_id (users (db w)) :=
                             User.mk tg false 30 None (clock w (reads w))
                                     (clock w (S (reads w)))]>
                           (users (db w))) (db w))
                     tg
                     (fresh_id (users (db w)),
                      User.mk tg false 30 None (clock w (reads w))
                              (clock w (S (reads w))))).
    { apply only_user_insert_fresh;
        [ exact Hnone | apply fresh_id_fresh | reflexivity ]. }
    eexists _, _. split_and!.
    + unfold crud.get_or_create_user. mrun. rewrite Hget. cbn.
      rewrite create_user_run. reflexivity.
    + exact Hnew.
    + apply get_or_create_user_known, get_user_by_telegram_id_only.
      exact Hnew.
    + intros _. cbn. split_and!; [ apply fresh_id_fresh | done | done ].
    + intros u0 (Hrow0 & Htg0 & _). destruct (Hnone _ _ Hrow0 Htg0).
  - pose proof Hone as Hget. apply get_user_by_telegram_id_only in Hget.
    apply get_or_create_user_known in Hget.
    exists u, w. split_and!; try done.
    + intros Hnone. destruct Hone as (Hrow & Htg & _).
      destruct (Hnone _ _ Hrow Htg).
    + intros u0 Hone0. split; [ | reflexivity ].
      eapply only_user_unique; eassumption.
Qed.

Lemma window_end_Some (now minutes until : Z) :
  window_end now minutes = Some until ↔
  Py.timedelta_min ≤ Py.timedelta_minutes minutes ≤ Py.timedelta_max
  ∧ Py.datetime_min ≤ until ≤ Py.datetime_max
  ∧ until = now + Py.timedelta_minutes minutes.
Proof.
  unfold window_end, Py.timedelta_of_minutes, Py.datetime_add. cbn.
  repeat case_bool_decide; cbn; repeat case_bool_decide;
    split; try discriminate; try (intros [= <-]; auto);
    try (intros (? & ? & ->); done); intros (? & ? & ?); lia.
Qed.

Lemma set_do_not_disturb_run (w : World) (uid minutes until : Z) :
  window_end (clock w (reads w)) minutes = Some until →
  crud.set_do_not_disturb uid minutes w
  = (Ok (),
     committed
       (set_users
          (alter (λ u, User.mk (User.telegram_id u) (User.is_active u)
                               (User.interval_minutes u) (Some until)
                               (User.created_at u) (clock w (S (reads w))))
                 uid (users (db w))) (db w))
       (after_reads 2 w)).
Proof.
  unfold window_end, crud.set_do_not_disturb. intros Hend. mrun.
  destruct (Py.timedelta_of_minutes minutes) as [ delta | ];
    [ | discriminate ].
  cbn in Hend |- *. rewrite Hend. reflexivity.
Qed.

(** Out of range [timedelta] or the sum raises after the first clock
    reading and before anything is written. *)
Lemma set_do_not_disturb_overflow (w : World) (uid minutes : Z) :
  window_end (clock w (reads w)) minutes = None →
  crud.set_do_not_disturb uid minutes w
  = (Raise Py.OverflowError, after_reads 1 w).
Proof.
  unfold window_end, crud.set_do_not_disturb. intros Hend. mrun.
  destruct (Py.timedelta_of_minutes minutes) as [ delta | ];
    [ | reflexivity ].
  cbn in Hend |- *. rewrite Hend. reflexivity.
Qed.

Lemma clear_do_not_disturb_run (w : World) (uid : Z) :
  crud.clear_do_not_disturb uid w
  = (Ok (),
     committed
       (set_users
          (alter (λ u, User.mk (User.telegram_id u) (User.is_active u)
                               (User.interval_minutes u) None
                               (User.created_at u) (clock w (reads w)))
                 uid (users (db w))) (db w))
       (after_reads 1 w)).
Proof. reflexivity. Qed.

(** X7. When [minutes] is such that [timedelta(minutes=minutes)] and its
    sum with the clock reading of the call are in range,
    [set_do_not_disturb] returns and silences every later tick of that
    user that reads the clock before that sum: such a tick stores,
    commits and sends nothing; once the window is cleared, a tick of the
    active user that finds no row due sends the "all reviewed" notice
    again, however far ahead the window had been set. When the
    [timedelta] or the sum is out of range, the call raises
    [OverflowError] after its first clock reading and nothing is written
    or committed: no window is set. *)
Theorem X7_set_do_not_disturb_silences_ticks (w : World) (pick : nat)
    (reply : ai_service.api_reply TaskData.t) (uid tg : Z) (u : User.t)
    (minutes : Z) :
  only_user (db w) tg (uid, u) →
  (∀ until : Z,
     window_end (clock w (reads w)) minutes = Some until →
     ∃ quiet : World,
       crud.set_do_not_disturb uid minutes w = (Ok (), quiet)
       ∧ until = clock w (reads w) + Py.timedelta_minutes minutes
       ∧ (∀ tick : World,
            db tick = db quiet →
            clock tick (reads tick) < until →
            ∃ w' : World,
              tasks.send_task_to_user pick reply uid tg tick = (Ok (), w')
              ∧ db w' = db tick ∧ commits w' = commits tick
              ∧ outbox w' = outbox tick)
       ∧ (let cleared := (crud.clear_do_not_disturb uid quiet).2 in
          ∀ tick w2 : World,
            db tick = db cleared →
            User.is_active u = true →
            crud.get_words_for_review uid 1 tick = (Ok [], w2) →
            ∃ w' : World,
              tasks.send_task_to_user pick reply uid tg tick = (Ok (), w')
              ∧ outbox w' = outbox tick ++ [(tg, AllReviewed)]))
  ∧ (window_end (clock w (reads w)) minutes = None →
     ∃ w' : World,
       crud.set_do_not_disturb uid minutes w = (Raise Py.OverflowError, w')
       ∧ db w' = db w ∧ commits w' = commits w ∧ outbox w' = outbox w).
Proof.
  intros Hone. split.
  2: { intros Hend. eexists.
       split; [ apply set_do_not_disturb_overflow, Hend | auto ]. }
  intros t0 Hend. eexists.
  split; [ apply (set_do_not_disturb_run _ _ _ t0), Hend | ].
  split; [ apply window_end_Some in Hend; tauto | ].
  pose proof (only_user_alter _ _ _ _
                (λ x, User.mk (User.telegram_id x) (User.is_active x)
                        (User.interval_minutes x) (Some t0)
                        (User.created_at x) (clock w (S (reads w))))
                Hone (λ _, eq_refl)) as Hquiet.
  split.
  - intros tick Hdb Hnow.
    assert (Huser : crud.get_user_by_telegram_id tg tick
                    = (Ok (Some (uid,
                         User.mk (User.telegram_id u) (User.is_active u)
                           (User.interval_minutes u) (Some t0)
                           (User.created_at u) (clock w (S (reads w))))),
                       tick)).
    { apply get_user_by_telegram_id_only. rewrite Hdb. exact Hquiet. }
    destruct (User.is_active u) eqn:Hactive.
    + eexists. split.
      * eapply tick_silent; [ exact Huser | reflexivity | reflexivity | ].
        exact Hnow.
      * auto.
    + eexists. split.
      * eapply tick_inactive; [ exact Huser | reflexivity ].
      * auto.
  - intros cleared tick w2 Hdb Hactive Hsel.
    assert (Huser : crud.get_user_by_telegram_id tg tick
                    = (Ok (Some (uid,
                         User.mk (User.telegram_id u) (User.is_active u)
                           (User.interval_minutes u) None
                           (User.created_at u)
                           (clock w (S (S (reads w)))))),
                       tick)).
    { apply get_user_by_telegram_id_only. rewrite Hdb. unfold cleared.
      rewrite clear_do_not_disturb_run.
      exact (only_user_alter _ _ _ _
               (λ x, User.mk (User.telegram_id x) (User.is_active x)
                       (User.interval_minutes x) None
                       (User.created_at x) (clock w (S (S (reads w)))))
               Hquiet (λ _, eq_refl)). }
    eexists. split.
    + eapply tick_all_reviewed;
        [ exact Huser | exact Hactive | exact I | exact Hsel ].
    + reflexivity.
Qed.

End users.

(** ** Rows that must be looked up before they are created *)

Section lookup_then_create.

Lemma select_many {A} (P : Z * A → Prop) `{!∀ x, Decision (P x)}
    (m : gmap Z A) (w : World) (k1 k2 : Z) (a1 a2 : A) :
  m !! k1 = Some a1 → m !! k2 = Some a2 → k1 ≠ k2 →
  P (k1, a1) → P (k2, a2) →
  scalar_one_or_none (filter P (map_to_list m)) w
  = (Raise Py.MultipleResultsFound, w).
Proof.
  intros H1 H2 Hne HP1 HP2.
  assert (Hin1 : (k1, a1) ∈ filter P (map_to_list m))
    by (apply list_elem_of_filter; split; [ done | by apply elem_of_map_to_list ]).
  assert (Hin2 : (k2, a2) ∈ filter P (map_to_list m))
    by (apply list_elem_of_filter; split; [ done | by apply elem_of_map_to_list ]).
  destruct (filter P (map_to_list m)) as [ | x [ | y l ] ].
  - inversion Hin1.
  - apply list_elem_of_singleton in Hin1, Hin2. congruence.
  - reflexivity.
Qed.

(** X8. [create_user_word_progress] and [get_user_word_progress] round
    trip only for a pair that has no row yet: then the new row is the one
    row of the pair and is what the lookup returns, and every other pair
    is looked up as before (its row is found, or none is). Created for a
    pair that already has a row, the second row makes every later lookup
    of the pair raise [MultipleResultsFound]: no constraint of the table
    rules it out, the callers' lookup does. *)
Theorem X8_progress_is_created_once_per_pair (w : World) (uid wid : Z) :
  let run := crud.create_user_word_progress uid wid w in
  (no_progress (db w) uid wid →
   ∃ p : Z * UserWordProgress.t,
     run.1 = Ok p
     ∧ only_progress (db run.2) uid wid p
     ∧ crud.get_user_word_progress uid wid run.2 = (Ok (Some p), run.2))
  ∧ (∀ (uid' wid' : Z) (p' : Z * UserWordProgress.t),
       (uid', wid') ≠ (uid, wid) →
       only_progress (db w) uid' wid' p' →
       crud.get_user_word_progress uid' wid' run.2 = (Ok (Some p'), run.2))
  ∧ (∀ p0 : Z * UserWordProgress.t,
       only_progress (db w) uid wid p0 →
       crud.get_user_word_progress uid wid run.2
       = (Raise Py.MultipleResultsFound, run.2))
  ∧ (∀ uid' wid' : Z,
       (uid', wid') ≠ (uid, wid) →
       no_progress (db w) uid' wid' →
       crud.get_user_word_progress uid' wid' run.2 = (Ok None, run.2)).
Proof.
  intros run. unfold run. rewrite create_user_word_progress_run. cbn.
  set (id := fresh_id (user_word_progress (db w))).
  set (p := UserWordProgress.mk uid wid 0 None _ 0 0 _ _).
  assert (Hfresh : user_word_progress (db w) !! id = None)
    by apply fresh_id_fresh.
  split_and!.
  - intros Hnone.
    assert (Hone : only_progress
                     (set_user_word_progress
                        (<[id := p]> (user_word_progress (db w))) (db w))
                     uid wid (id, p)).
    { unfold only_progress. cbn.
      split_and!; [ apply lookup_insert_eq | done | done | ].
      intros k p' Hk Hu Hw. destruct (decide (id = k)) as [ | Hne ]; [ done | ].
      rewrite lookup_insert_ne in Hk by exact Hne.
      destruct (Hnone _ _ Hk). auto. }
    exists (id, p). split_and!; [ reflexivity | exact Hone | ].
    apply get_user_word_progress_only. exact Hone.
  - intros uid' wid' p' Hother (Hrow & Hu & Hw & Honly).
    apply get_user_word_progress_only. unfold only_progress. cbn.
    assert (Hne : id ≠ p'.1) by (intros Heq; rewrite Heq in Hfresh; congruence).
    split_and!; [ by rewrite lookup_insert_ne | done | done | ].
    intros k q Hk Hqu Hqw. destruct (decide (id = k)) as [ <- | Hnek ].
    + rewrite lookup_insert_eq in Hk. injection Hk as <-. cbn in Hqu, Hqw.
      congruence.
    + rewrite lookup_insert_ne in Hk by exact Hnek. eauto.
  - intros p0 (Hrow & Hu & Hw & _).
    unfold crud.get_user_word_progress. mrun.
    assert (Hne : id ≠ p0.1) by (intros Heq; rewrite Heq in Hfresh; congruence).
    apply (select_many _ _ _ id p0.1 p p0.2);
      [ apply lookup_insert_eq | by rewrite lookup_insert_ne | done
      | done | done ].
  - intros uid' wid' Hother Hnone.
    apply get_user_word_progress_no_progress. intros k q Hk [Hqu Hqw].
    cbn in Hk. destruct (decide (id = k)) as [ <- | Hnek ].
    + rewrite lookup_insert_eq in Hk. injection Hk as <-. cbn in Hqu, Hqw.
      congruence.
    + rewrite lookup_insert_ne in Hk by exact Hnek.
      destruct (Hnone _ _ Hk). auto.
Qed.

Lemma create_word_run (w : World) (word_en word_ru : string) :
  let id := fresh_id (words (db w)) in
  let word :=
    Word.mk (word_key word_en) (Py.str_strip word_ru) (clock w (reads w)) in
  crud.create_word word_en word_ru w
  = (Ok (id, word),
     committed (crud.set_words (<[id := word]> (words (db w))) (db w))
               (after_reads 1 w)).
Proof. reflexivity. Qed.

Lemma get_word_by_en_only (w : World) (word_en : string)
    (word : Z * Word.t) :
  crud.get_word_by_en word_en w = (Ok (Some word), w) ↔
  only_word (db w) (word_key word_en) word.
Proof.
  unfold crud.get_word_by_en, only_word, word_key. mrun.
  rewrite select_one. reflexivity.
Qed.

Lemma get_word_by_en_no_word (w : World) (word_en : string) :
  crud.get_word_by_en word_en w = (Ok None, w) ↔
  no_word (db w) (word_key word_en).
Proof.
  unfold crud.get_word_by_en, no_word, word_key. mrun.
  rewrite select_none. reflexivity.
Qed.

(** X9. For an English word in ASCII letters: when at most one word row
    has the key of [word_en] (its lower-cased, stripped form),
    [get_or_create_word] returns a row with that key which every ASCII
    spelling with the same key then looks up. A word that is stored
    already is returned as it is and nothing is written: the translation
    passed along is ignored. An unknown word is stored under a fresh id
    with the stripped translation (any text). Words with letters of
    other scripts, which [str.lower] folds by rules [word_key] does not
    cover, are left out by the hypothesis. *)
Theorem X9_get_or_create_word_keeps_stored_translation (w : World)
    (word_en word_ru : string) :
  Py.isascii word_en = true →
  no_word (db w) (word_key word_en)
  ∨ (∃ word, only_word (db w) (word_key word_en) word) →
  ∃ (word : Z * Word.t) (w' : World),
    crud.get_or_create_word word_en word_ru w = (Ok word, w')
    ∧ Word.word_en word.2 = word_key word_en
    ∧ (∀ spelling : string,
         Py.isascii spelling = true →
         word_key spelling = word_key word_en →
         crud.get_word_by_en spelling w' = (Ok (Some word), w'))
    ∧ (no_word (db w) (word_key word_en) →
         words (db w) !! word.1 = None
         ∧ Word.word_ru word.2 = Py.str_strip word_ru
         ∧ words (db w') = <[word.1 := word.2]> (words (db w)))
    ∧ (∀ word0, only_word (db w) (word_key word_en) word0 →
         word = word0 ∧ w' = w).
Proof.
  intros _ [Hnone | [word Hone]].
  - pose proof Hnone as Hget. apply get_word_by_en_no_word in Hget.
    set (id := fresh_id (words (db w))).
    set (new := Word.mk (word_key word_en) (Py.str_strip word_ru)
                        (clock w (reads w))).
    assert (Hnew : only_word
                     (crud.set_words (<[id := new]> (words (db w))) (db w))
                     (word_key word_en) (id, new)).
    { unfold only_word. cbn.
      split_and!; [ apply lookup_insert_eq | reflexivity | ].
      intros k x Hk Hx. destruct (decide (id = k)) as [ | Hne ]; [ done | ].
      rewrite lookup_insert_ne in Hk by exact Hne.
      destruct (Hnone _ _ Hk Hx). }
    exists (id, new). eexists. split_and!.
    + unfold crud.get_or_create_word. mrun. rewrite Hget. cbn.
      rewrite create_word_run. reflexivity.
    + reflexivity.
    + intros spelling _ Hkey. apply get_word_by_en_only.
      rewrite Hkey. exact Hnew.
    + intros _. cbn. split_and!; [ apply fresh_id_fresh | done | done ].
    + intros word0 (Hrow0 & Hkey0 & _). destruct (Hnone _ _ Hrow0 Hkey0).
  - pose proof Hone as Hget. apply get_word_by_en_only in Hget.
    exists word, w. split_and!.
    + unfold crud.get_or_create_word. mrun. rewrite Hget. reflexivity.
    + apply Hone.
    + intros spelling _ Hkey. apply get_word_by_en_only.
      rewrite Hkey. exact Hone.
    + intros Hnone. destruct Hone as (Hrow & Hkey & _).
      destruct (Hnone _ _ Hrow Hkey).
    + intros word0 (Hrow0 & Hkey0 & _). split; [ | reflexivity ].
      destruct Hone as (Hrow & Hkey & Honly).
      destruct word as [k x], word0 as [k0 x0]. cbn in *.
      assert (k0 = k) by eauto. subst k0. congruence.
Qed.

End lookup_then_create.

(** ** Statistics *)

Section statistics.

Lemma length_filter_three {A} (P1 P2 P3 : A → Prop)
    `{!∀ x, Decision (P1 x), !∀ x, Decision (P2 x), !∀ x, Decision (P3 x)}
    (l : list A) :
  (∀ x, x ∈ l → ¬ (P1 x ∧ P2 x) ∧ ¬ (P1 x ∧ P3 x) ∧ ¬ (P2 x ∧ P3 x)) →
  (length (filter P1 l) + length (filter P2 l) + length (filter P3 l)
   ≤ length l)%nat
  ∧ ((∀ x, x ∈ l → P1 x ∨ P2 x ∨ P3 x) ↔
     (length (filter P1 l) + length (filter P2 l) + length (filter P3 l)
      = length l)%nat).
Proof.
  induction l as [ | a l IH ]; intros Hexcl.
  - split; [ reflexivity | ]. split; [ reflexivity | ].
    intros _ x Hx. inversion Hx.
  - destruct IH as [IHle IHeq].
    { intros x Hx. apply Hexcl. by right. }
    destruct (Hexcl a) as (H12 & H13 & H23); [ by left | ].
    rewrite !filter_cons. split; [ | split ].
    + repeat case_decide; cbn; try lia; tauto.
    + intros Hall.
      assert (Heq : (length (filter P1 l) + length (filter P2 l)
                     + length (filter P3 l) = length l)%nat).
      { apply IHeq. intros x Hx. apply Hall. by right. }
      destruct (Hall a) as [ Ha | [ Ha | Ha ] ]; [ by left | | | ];
        repeat case_decide; cbn; try lia; tauto.
    + intros Hsum x Hx. apply elem_of_cons in Hx as [ -> | Hx ].
      * destruct (decide (P1 a)); [ tauto | ].
        destruct (decide (P2 a)); [ tauto | ].
        destruct (decide (P3 a)); [ tauto | ].
        cbn in Hsum. lia.
      * apply IHeq; [ | exact Hx ].
        destruct (decide (P1 a)); destruct (decide (P2 a));
          destruct (decide (P3 a)); cbn in Hsum; try tauto; lia.
Qed.

(** X10. The counts of [get_user_statistics] never add up to more than the
    total: learned (score at least 90), in progress (strictly between 0
    and 90) and new (score 0) rows are disjoint. They add up to the total
    exactly when no row of the user has a negative score, and a user
    without rows gets four zeros. The query writes nothing. *)
Theorem X10_statistics_counts_partition_the_rows (w : World) (uid : Z) :
  ∃ s : crud.statistics,
    crud.get_user_statistics uid w = (Ok s, w)
    ∧ (crud.learned_words s + crud.in_progress_words s + crud.new_words s
       ≤ crud.total_words s)%nat
    ∧ ((∀ k p, user_word_progress (db w) !! k = Some p →
               UserWordProgress.user_id p = uid →
               0 ≤ UserWordProgress.knowledge_percent p) ↔
       (crud.learned_words s + crud.in_progress_words s + crud.new_words s
        = crud.total_words s)%nat)
    ∧ ((∀ k p, user_word_progress (db w) !! k = Some p →
               UserWordProgress.user_id p ≠ uid) →
       s = crud.mkStatistics 0 0 0 0).
Proof.
  eexists. split; [ reflexivity | ]. cbn.
  set (rows := filter _ (map_to_list (user_word_progress (db w)))).
  destruct (length_filter_three
              (λ p : Z * UserWordProgress.t,
                 90 ≤ UserWordProgress.knowledge_percent p.2)
              (λ p : Z * UserWordProgress.t,
                 0 < UserWordProgress.knowledge_percent p.2
                 ∧ UserWordProgress.knowledge_percent p.2 < 90)
              (λ p : Z * UserWordProgress.t,
                 UserWordProgress.knowledge_percent p.2 = 0) rows)
    as [Hle Heq]; [ intros x _; lia | ].
  split_and!.
  - exact Hle.
  - rewrite <- Heq. split.
    + intros Hnonneg [k p] Hin.
      apply list_elem_of_filter in Hin as [Hu Hin].
      apply elem_of_map_to_list in Hin. specialize (Hnonneg _ _ Hin Hu).
      cbn in *. lia.
    + intros Hall k p Hk Hu.
      assert (Hin : (k, p) ∈ rows).
      { apply list_elem_of_filter. split; [ exact Hu | ].
        by apply elem_of_map_to_list. }
      specialize (Hall _ Hin). cbn in Hall. lia.
  - intros Hnone.
    assert (Hnil : rows = []).
    { apply filter_nil_iff. intros [k p] Hin Hu.
      apply elem_of_map_to_list in Hin. exact (Hnone _ _ Hin Hu). }
    rewrite Hnil. reflexivity.
Qed.

End statistics.

(** ** Printing and parsing integers *)

Section integers.

#[local] Abbreviation chars := String.list_ascii_of_string.

Lemma digit_pretty_N_char (d : N) :
  (d < 10)%N → Py.digit (pretty_N_char d) = Some (Z.of_N d).
Proof.
  intros Hd.
  assert (Hcases : d ∈ [0; 1; 2; 3; 4; 5; 6; 7; 8; 9]%N).
  { rewrite !elem_of_cons. lia. }
  rewrite !elem_of_cons, elem_of_nil in Hcases.
  repeat (destruct Hcases as [ -> | Hcases ]; [ reflexivity | ]).
  contradiction.
Qed.

Lemma pretty_N_go_chars (n : N) (s : string) :
  ∃ pre : list ascii,
    chars (pretty_N_go n s) = pre ++ chars s
    ∧ Forall is_digit pre
    ∧ ((0 < n)%N → pre ≠ [])
    ∧ ∀ acc rest,
        Py.digits acc (pre ++ rest)
        = Py.digits (acc * 10 ^ Z.of_nat (length pre) + Z.of_N n) rest.
Proof.
  revert s. induction (N.lt_wf_0 n) as [ n _ IH ]. intros s.
  destruct (decide (n = 0%N)) as [ -> | Hn ].
  - exists []. rewrite pretty_N_go_0. split_and!; [ done | done | lia | ].
    intros acc rest. cbn. f_equal. lia.
  - rewrite pretty_N_go_step by lia.
    destruct (IH (n `div` 10)%N) with
      (s := String (pretty_N_char (n `mod` 10)) s)
      as (pre & Hchars & Hdigits & _ & Hvalue).
    { apply N.div_lt; lia. }
    assert (Hd : Py.digit (pretty_N_char (n `mod` 10))
                 = Some (Z.of_N (n `mod` 10)))
      by (apply digit_pretty_N_char, N.mod_lt; lia).
    exists (pre ++ [pretty_N_char (n `mod` 10)]). split_and!.
    + rewrite Hchars. cbn. rewrite <- app_assoc. reflexivity.
    + apply Forall_app. split; [ exact Hdigits | ].
      constructor; [ | constructor ]. unfold is_digit. rewrite Hd. eauto.
    + intros _. destruct pre; discriminate.
    + intros acc rest. rewrite <- app_assoc. cbn. rewrite Hvalue. cbn.
      rewrite Hd. f_equal. rewrite length_app. cbn.
      rewrite Nat2Z.inj_add, Z.pow_add_r by lia.
      pose proof (N.div_mod n 10) as Hdm.
      rewrite ?N2Z.inj_div, ?N2Z.inj_mod in *. 
      assert (Z.of_N n = 10 * (Z.of_N n `div` 10) + Z.of_N n `mod` 10)
        by (apply Z.div_mod; lia).
      lia.
Qed.

Lemma digit_not_space (c : ascii) : is_digit c → Py.int_space c = false.
Proof.
  unfold is_digit, Py.digit, Py.int_space.
  case_bool_decide; [ | by intros [] ].
  intros _. cbv zeta. apply orb_false_intro.
  - apply andb_false_iff; right; apply Nat.leb_gt; lia.
  - apply Nat.eqb_neq. lia.
Qed.

Lemma strip_not_space (l : list ascii) :
  Forall (λ c, Py.int_space c = false) l → Py.strip l = l.
Proof.
  assert (Hl : ∀ k : list ascii,
             Forall (λ c, Py.int_space c = false) k → Py.lstrip k = k).
  { intros [ | c k ] Hk; [ reflexivity | ]. cbn.
    apply Forall_cons in Hk as [-> _]. reflexivity. }
  intros Hall. unfold Py.strip. rewrite (Hl l Hall).
  rewrite Hl by (apply Forall_reverse, Hall). apply reverse_involutive.
Qed.

Lemma int_unsigned (c : ascii) (l : list ascii) :
  c ≠ "-"%char → c ≠ "+"%char →
  match c :: l with
  | "-"%char :: l' => Z.opp <$> Py.unsigned l'
  | "+"%char :: l' => Py.unsigned l'
  | l' => Py.unsigned l'
  end = Py.unsigned (c :: l).
Proof.
  intros Hminus Hplus.
  destruct c as [ [] [] [] [] [] [] [] [] ]; try reflexivity; congruence.
Qed.

Lemma int_pretty_N (n : N) :
  (0 < n)%N →
  ∃ c l,
    chars (pretty_N_go n "") = c :: l
    ∧ Forall is_digit (c :: l)
    ∧ Py.unsigned (c :: l) = Some (Z.of_N n).
Proof.
  intros Hn. destruct (pretty_N_go_chars n "") as (pre & Hchars & Hd & Hne & Hv).
  cbn in Hchars. rewrite app_nil_r in Hchars.
  destruct pre as [ | c l ]; [ destruct (Hne Hn eq_refl) | ].
  exists c, l. split; [ exact Hchars | ]. split; [ exact Hd | ].
  specialize (Hv 0 []). rewrite app_nil_r in Hv.
  assert (Hc : is_digit c) by (apply Forall_cons in Hd as [Hc _]; exact Hc).
  destruct Hc as [d Hc]. unfold Py.unsigned. rewrite Hc.
  rewrite Hv. cbn. f_equal; lia.
Qed.

(** [int(str(z)) == z]. *)
Lemma int_pretty (z : Z) : Py.int (pretty z) = Some z.
Proof.
  destruct z as [ | p | p ]; [ reflexivity | | ].
  - destruct (int_pretty_N (N.pos p)) as (c & l & Hchars & Hd & Hv); [ lia | ].
    unfold Py.int.
    change (pretty (Z.pos p)) with (pretty_N_go (N.pos p) "").
    rewrite Hchars, strip_not_space
      by (eapply Forall_impl; [ exact Hd | exact digit_not_space ]).
    rewrite int_unsigned, Hv; [ reflexivity | | ];
      apply Forall_cons in Hd as [[d Hc] _]; intros ->; discriminate.
  - destruct (int_pretty_N (N.pos p)) as (c & l & Hchars & Hd & Hv); [ lia | ].
    unfold Py.int.
    change (pretty (Z.neg p)) with ("-" +:+ pretty_N_go (N.pos p) "").
    change (chars ("-" +:+ pretty_N_go (N.pos p) ""))
      with ("-"%char :: chars (pretty_N_go (N.pos p) "")).
    rewrite Hchars.
    rewrite strip_not_space.
    + rewrite Hv. reflexivity.
    + constructor; [ reflexivity | ].
      eapply Forall_impl; [ exact Hd | exact digit_not_space ].
Qed.

(** The characters of a printed integer: digits and the sign. *)
Lemma pretty_chars (z : Z) :
  Forall (λ c, c ≠ "_"%char) (chars (pretty z)).
Proof.
  assert (Hdigit : ∀ c, is_digit c → c ≠ "_"%char).
  { intros c [d Hc] ->. discriminate. }
  destruct z as [ | p | p ].
  - repeat constructor. discriminate.
  - destruct (int_pretty_N (N.pos p)) as (c & l & Hchars & Hd & _); [ lia | ].
    change (pretty (Z.pos p)) with (pretty_N_go (N.pos p) "").
    rewrite Hchars. eapply Forall_impl; [ exact Hd | exact Hdigit ].
  - destruct (int_pretty_N (N.pos p)) as (c & l & Hchars & Hd & _); [ lia | ].
    change (pretty (Z.neg p)) with ("-" +:+ pretty_N_go (N.pos p) "").
    change (chars ("-" +:+ pretty_N_go (N.pos p) ""))
      with ("-"%char :: chars (pretty_N_go (N.pos p) "")).
    rewrite Hchars.
    constructor; [ discriminate | ].
    eapply Forall_impl; [ exact Hd | exact Hdigit ].
Qed.

Lemma split_no_separator (sep : ascii) (s : string) :
  Forall (λ c, c ≠ sep) (chars s) → Py.split sep s = [s].
Proof.
  induction s as [ | c s IH ]; intros Hall; [ reflexivity | ].
  cbn in Hall. apply Forall_cons in Hall as [Hc Hall]. cbn.
  rewrite bool_decide_false by exact Hc. rewrite IH by exact Hall.
  reflexivity.
Qed.

Lemma split_at_separator (sep : ascii) (s rest : string) :
  Forall (λ c, c ≠ sep) (chars s) →
  Py.split sep (s +:+ String sep rest) = s :: Py.split sep rest.
Proof.
  induction s as [ | c s IH ]; intros Hall.
  - change ("" +:+ String sep rest) with (String sep rest). cbn.
    rewrite bool_decide_true by reflexivity. reflexivity.
  - cbn in Hall. apply Forall_cons in Hall as [Hc Hall].
    change (String c s +:+ String sep rest)
      with (String c (s +:+ String sep rest)). cbn.
    rewrite bool_decide_false by exact Hc. rewrite IH by exact Hall.
    reflexivity.
Qed.

(** The data of a button parse back to the numbers it was built from. *)
Lemma parse_callback_pretty (task_id idx : Z) (w : World) :
  answers.parse_callback
    ("answer_" +:+ pretty task_id +:+ "_" +:+ pretty idx) w
  = (Ok (task_id, idx), w).
Proof.
  unfold answers.parse_callback.
  change ("answer_" +:+ pretty task_id +:+ "_" +:+ pretty idx)
    with ("answer" +:+ String "_" (pretty task_id +:+ String "_" (pretty idx))).
  rewrite split_at_separator by (repeat constructor; discriminate).
  rewrite split_at_separator by apply pretty_chars.
  rewrite split_no_separator by apply pretty_chars.
  cbn [lookup list_lookup]. cbn -[Py.int pretty].
  rewrite !int_pretty. reflexivity.
Qed.

End integers.

(** X11. Every button of the multiple-choice keyboard carries its option
    and data that pass the router's filter and parse back to the task id
    and to the button's own position, which indexes the options: a press
    of a button that was really sent never fails on the index. *)
Theorem X11_keyboard_buttons_parse_back (options : list string)
    (task_id : Z) (w : World) (i : nat) (button : string * string) :
  keyboards.get_multiple_choice_keyboard options task_id !! i = Some button →
  options !! i = Some button.1
  ∧ answers.is_answer_callback button.2 = true
  ∧ answers.parse_callback button.2 w = (Ok (task_id, Z.of_nat i), w)
  ∧ Py.getitem options (Z.of_nat i) = Some button.1.
Proof.
  intros Hbutton. apply keyboard_button in Hbutton as (option & Hoption & ->).
  cbn [fst snd]. split_and!.
  - exact Hoption.
  - reflexivity.
  - apply parse_callback_pretty.
  - unfold Py.getitem. rewrite bool_decide_true by lia.
    rewrite Nat2Z.id. exact Hoption.
Qed.

(** ** The tick, further *)

Section tick_more.
Context (w : World) (pick : nat) (reply : ai_service.api_reply TaskData.t).
Context (uid tg : Z).

(** X12. The tick of a Telegram id without a user row, or of a user who
    is not active, returns at once: it reads no clock, stores nothing and
    sends nothing, whatever is due. *)
Theorem X12_tick_of_unknown_or_inactive_user_is_a_no_op :
  no_user (db w) tg
  ∨ (∃ u, only_user (db w) tg u ∧ User.is_active u.2 = false) →
  tasks.send_task_to_user pick reply uid tg w = (Ok (), w).
Proof.
  intros [Hnone | (u & Hone & Hasleep)].
  - apply get_user_by_telegram_id_no_user in Hnone.
    unfold tasks.send_task_to_user. mrun. rewrite Hnone. reflexivity.
  - apply get_user_by_telegram_id_only in Hone.
    eapply tick_inactive; eassumption.
Qed.

Context (u : Z * User.t).
Context (progress : Z * UserWordProgress.t).
Context (rest : list (Z * UserWordProgress.t)) (w2 : World).
Hypothesis Huser : crud.get_user_by_telegram_id tg w = (Ok (Some u), w).
Hypothesis Hactive : User.is_active u.2 = true.
Hypothesis Hover : window_over w u.
Hypothesis Hsel :
  crud.get_words_for_review uid 1 (after_reads (window_reads u) w)
  = (Ok (progress :: rest), w2).

Lemma tick_generation_failed :
  reply = ai_service.ApiError ∨ reply = ai_service.NotJson
  ∨ words (db w) !! UserWordProgress.word_id progress.2 = None →
  tasks.send_task_to_user pick reply uid tg w
  = (Ok (), sent [(tg, GenerationFailed)]
              (after_reads (S (window_reads u)) w)).
Proof.
  intros Hfail. rewrite (tick_selects w pick reply uid tg u) by assumption.
  mrun. rewrite Hsel.
  rewrite get_words_for_review_run in Hsel. injection Hsel as _ <-. cbn.
  destruct (words (db w) !! UserWordProgress.word_id progress.2)
    as [ word | ] eqn:Hword; [ | reflexivity ].
  cbn. unfold ai_service.generate_task.
  rewrite bool_decide_true by apply random_choice_task_type.
  destruct Hfail as [ -> | [ -> | Hnone ] ]; [ reflexivity .. | discriminate ].
Qed.

End tick_more.

(** X13. When the tick has selected a due row but the generator's request
    fails, its content is not JSON, or the word of the row is not stored,
    the [except] branch runs: no task is stored, nothing is committed, and
    the one message sent is the "generation failed" notice. The tick
    itself returns normally. *)
Theorem X13_tick_generation_failure_stores_nothing (w : World) (pick : nat)
    (reply : ai_service.api_reply TaskData.t) (uid tg : Z)
    (u : Z * User.t) (progress : Z * UserWordProgress.t)
    (rest : list (Z * UserWordProgress.t)) (w2 : World) :
  crud.get_user_by_telegram_id tg w = (Ok (Some u), w) →
  User.is_active u.2 = true →
  window_over w u →
  crud.get_words_for_review uid 1 (after_reads (window_reads u) w)
  = (Ok (progress :: rest), w2) →
  reply = ai_service.ApiError ∨ reply = ai_service.NotJson
  ∨ words (db w) !! UserWordProgress.word_id progress.2 = None →
  ∃ w' : World,
    tasks.send_task_to_user pick reply uid tg w = (Ok (), w')
    ∧ db w' = db w
    ∧ commits w' = commits w
    ∧ outbox w' = outbox w ++ [(tg, GenerationFailed)].
Proof.
  intros Huser Hactive Hover Hsel Hfail. eexists. split.
  - eapply tick_generation_failed; eassumption.
  - auto.
Qed.

(** X14. A payload whose "task_type" is missing or is none of the four
    kinds is stored all the same: the tick returns normally with a new
    pending task in the table, under the kind that was drawn, and sends
    no message at all -- [_send_task_message] has no branch for it. *)
Theorem X14_tick_stores_unrenderable_payload_silently (w : World)
    (pick : nat) (reply : ai_service.api_reply TaskData.t) (uid tg : Z)
    (u : Z * User.t) (progress : Z * UserWordProgress.t)
    (rest : list (Z * UserWordProgress.t)) (w2 : World) (word : Word.t)
    (td : TaskData.t) :
  crud.get_user_by_telegram_id tg w = (Ok (Some u), w) →
  User.is_active u.2 = true →
  window_over w u →
  crud.get_words_for_review uid 1 (after_reads (window_reads u) w)
  = (Ok (progress :: rest), w2) →
  words (db w) !! UserWordProgress.word_id progress.2 = Some word →
  reply = ai_service.Json td →
  (∀ kind, TaskData.task_type td = Some kind →
           kind ∉ ai_service.task_types) →
  ∃ (w' : World) (id : Z) (task : TaskHistory.t),
    tasks.send_task_to_user pick reply uid tg w = (Ok (), w')
    ∧ task_history (db w) !! id = None
    ∧ task_history (db w') !! id = Some task
    ∧ TaskHistory.is_correct task = None
    ∧ TaskHistory.task_content task = td
    ∧ TaskHistory.user_id task = uid
    ∧ TaskHistory.word_id task = UserWordProgress.word_id progress.2
    ∧ TaskHistory.task_type task
      = tasks.random_choice ai_service.task_types pick
    ∧ TaskHistory.task_type task ∈ ai_service.task_types
    ∧ outbox w' = outbox w.
Proof.
  intros Huser Hactive Hover Hsel Hword Hreply Hkind.
  assert (Hsilent : question_of td (fresh_id (task_history (db w))) = []).
  { unfold question_of.
    destruct (TaskData.task_type td) as [ kind | ] eqn:Htype.
    - specialize (Hkind kind eq_refl). unfold ai_service.task_types in Hkind.
      rewrite !not_elem_of_cons in Hkind.
      destruct Hkind as (H1 & H2 & H3 & H4 & _).
      rewrite !bool_decide_false; [ reflexivity | | | ]; try congruence.
      intros [ [= ] | [= ] ]; congruence.
    - rewrite !bool_decide_false; [ reflexivity | | | ]; try congruence.
      intros [ [= ] | [= ] ]. }
  eexists _, (fresh_id (task_history (db w))), _. split.
  - eapply tick_issues; eassumption.
  - cbn. rewrite Hsilent. cbn. rewrite app_nil_r.
    split_and!; [ apply fresh_id_fresh | apply lookup_insert_eq | .. ];
      try reflexivity.
    apply random_choice_task_type.
Qed.

(** ** Text answers, further *)

Section text_more.
Context (w : World) (from_user : Z) (u : Z * User.t).
Hypothesis Huser : only_user (db w) from_user u.

Lemma known_user_after (msgs : list (Z * message)) :
  crud.get_or_create_user from_user (sent msgs w) = (Ok u, sent msgs w).
Proof.
  apply get_or_create_user_known, get_user_by_telegram_id_only. exact Huser.
Qed.

Lemma known_user : crud.get_or_create_user from_user w = (Ok u, w).
Proof.
  apply get_or_create_user_known, get_user_by_telegram_id_only. exact Huser.
Qed.

End text_more.

(** X15. A text message is graded only against the newest pending task
    of the sender, and only if that task is a translation: with no
    pending task the reply is "no active task", with a newest pending
    task of any other kind (a multiple-choice one, or a payload without
    "task_type") it is "choose an option". In both cases the classifier
    is not asked, and database, commit log and clock are left as they
    were. *)
Theorem X15_text_is_graded_only_against_a_translation_task (w : World)
    (reply : ai_service.api_reply ai_service.verdict)
    (from_user : Z) (text : string) (u : Z * User.t)
    (task : option (Z * TaskHistory.t)) :
  only_user (db w) from_user u →
  crud.get_last_pending_task u.1 w = (Ok task, w) →
  (∀ t, task = Some t → ¬ translation (TaskHistory.task_content t.2)) →
  answers.handle_text_answer reply from_user text w
  = (Ok (), sent [(from_user,
                   match task with
                   | None => NoActiveTask
                   | Some _ => NeedsOptionChoice
                   end)] w).
Proof.
  intros Huser Htask Hkind. unfold answers.handle_text_answer. mrun.
  rewrite (known_user w from_user u Huser). cbn. rewrite Htask. cbn.
  destruct task as [ t | ]; [ | reflexivity ].
  specialize (Hkind t eq_refl). unfold translation in Hkind.
  rewrite bool_decide_true; [ reflexivity | ]. split; intros ?; tauto.
Qed.

(** X16. A failed check leaves the task pending, so the next text is
    graded against the same task. When the classifier's request fails
    (or its content is not JSON) the handler only sends the "check
    failed" notice; a second text message, for which the classifier
    replies with a verdict, then records its own text and verdict on that
    task and counts one attempt on the progress row. *)
Theorem X16_text_answer_can_be_retried_after_failed_check (w : World)
    (failed : ai_service.api_reply ai_service.verdict)
    (v : ai_service.verdict) (from_user : Z) (text1 text2 : string)
    (u : Z * User.t) (task : Z * TaskHistory.t)
    (p : Z * UserWordProgress.t) :
  only_user (db w) from_user u →
  crud.get_last_pending_task u.1 w = (Ok (Some task), w) →
  translation (TaskHistory.task_content task.2) →
  only_progress (db w) u.1 (TaskHistory.word_id task.2) p →
  failed = ai_service.ApiError ∨ failed = ai_service.NotJson →
  ∃ w1 w2 : World,
    answers.handle_text_answer failed from_user text1 w = (Ok (), w1)
    ∧ db w1 = db w ∧ commits w1 = commits w
    ∧ outbox w1 = outbox w ++ [(from_user, CheckFailed)]
    ∧ answers.handle_text_answer (ai_service.Json v) from_user text2 w1
      = (Ok (), w2)
    ∧ task_history (db w2) !! task.1
      = Some (answered text2 (ai_service.is_correct v)
                (ai_service.feedback v) task.2)
    ∧ (∃ p', user_word_progress (db w2) !! p.1 = Some p'
             ∧ UserWordProgress.total_answers_count p'
               = UserWordProgress.total_answers_count p.2 + 1).
Proof.
  intros Huser Htask Hkind Hprogress Hfailed.
  pose proof (get_last_pending_task_inv _ _ _ _ Htask) as [_ Hrow].
  destruct (Hrow task eq_refl) as (Hlookup & _).
  set (w1 := sent [(from_user, CheckFailed)] w).
  assert (Htask1 : crud.get_last_pending_task u.1 w1 = (Ok (Some task), w1)).
  { rewrite get_last_pending_task_run in Htask.
    rewrite get_last_pending_task_run. cbn.
    injection Htask as ->. reflexivity. }
  assert (Hprogress1 :
    crud.get_user_word_progress u.1 (TaskHistory.word_id task.2) w1
    = (Ok (Some p), w1)).
  { apply get_user_word_progress_only. exact Hprogress. }
  eexists w1, _. split_and!.
  - eapply text_answer_check_failed;
      [ apply known_user, Huser | exact Htask | exact Hkind | exact Hfailed ].
  - reflexivity.
  - reflexivity.
  - reflexivity.
  - eapply (text_answer_graded w1);
      [ apply (known_user_after w), Huser | exact Htask1 | exact Hkind
      | reflexivity | exact Hprogress1 ].
  - cbn. rewrite lookup_alter_eq, Hlookup. reflexivity.
  - cbn. rewrite lookup_insert_eq. eexists. split; reflexivity.
Qed.

(** ** Multiple-choice answers, further *)

Section choice_more.
Context (w : World) (from_user : Z) (data : string).
Context (task_id selected_index : Z) (u : Z * User.t).
Context (task : TaskHistory.t).
Context (user_answer correct_answer : string) (correct_index : Z).

#[local] Abbreviation options :=
  (default [] (TaskData.options (TaskHistory.task_content task))).
#[local] Abbreviation is_correct :=
  (bool_decide (selected_index = correct_index)).
#[local] Abbreviation feedback :=
  (if is_correct then "Правильно! ✅"
   else "Неправильно. Правильный ответ: " +:+ correct_answer).
#[local] Abbreviation s1 :=
  (set_task_history
     (alter (answered user_answer (Some is_correct) (Some feedback)) task_id
            (task_history (db w))) (db w)).

Hypothesis Hparse :
  answers.parse_callback data w = (Ok (task_id, selected_index), w).
Hypothesis Huser : only_user (db w) from_user u.
Hypothesis Htask : task_history (db w) !! task_id = Some task.
Hypothesis Hpending : TaskHistory.is_correct task = None.
Hypothesis Hselected : Py.getitem options selected_index = Some user_answer.
Hypothesis Hindex :
  TaskData.correct_index (TaskHistory.task_content task) = Some correct_index.
Hypothesis Hcorrect : Py.getitem options correct_index = Some correct_answer.

Lemma choice_grades :
  answers.handle_multiple_choice_answer from_user data w
  = (progress ← crud.get_user_word_progress
                  u.1 (TaskHistory.word_id task);
     match progress with
     | Some p => crud.update_word_progress p.1 (Some is_correct)
     | None => ret ()
     end;;
     row ← answers.refresh progress;
     send_message from_user
       (EditWithResult feedback (UserWordProgress.knowledge_percent row));;
     send_message from_user CallbackAnswered) (committed s1 w).
Proof.
  rewrite (choice_looks_up w w from_user data task_id selected_index u
             Hparse (known_user w from_user u Huser)).
  rewrite Htask, bool_decide_false by congruence. cbn.
  rewrite Hselected, Hindex, Hcorrect.
  assert (His : bool_decide (Some selected_index = Some correct_index)
                = is_correct).
  { apply bool_decide_ext. split; congruence. }
  rewrite His. reflexivity.
Qed.

Lemma choice_graded (p : Z * UserWordProgress.t) :
  only_progress (db w) u.1 (TaskHistory.word_id task) p →
  let p' :=
    progress_after (Some is_correct) (clock w (reads w))
      (clock w (S (reads w))) (clock w (S (S (reads w)))) p.2 in
  let s2 :=
    set_user_word_progress (<[p.1 := p']> (user_word_progress (db w))) s1 in
  answers.handle_multiple_choice_answer from_user data w
  = (Ok (),
     sent [(from_user,
            EditWithResult feedback (UserWordProgress.knowledge_percent p'));
           (from_user, CallbackAnswered)]
       (committed s2 (after_reads 3 (committed s1 w)))).
Proof.
  intros Hprogress p' s2. rewrite choice_grades.
  pose proof Hprogress as (Hp & _).
  apply get_user_word_progress_only in Hprogress.
  mrun.
  erewrite (get_user_word_progress_frame w);
    [ | reflexivity | exact Hprogress ].
  cbn. rewrite (update_word_progress_run _ _ _ p.2) by exact Hp.
  mrun. rewrite lookup_insert_eq. unfold ret, send_message, sent. cbn.
  rewrite <- (app_assoc (outbox w)). reflexivity.
Qed.

Lemma choice_without_progress :
  no_progress (db w) u.1 (TaskHistory.word_id task) →
  answers.handle_multiple_choice_answer from_user data w
  = (Raise Py.UnmappedInstanceError, committed s1 w).
Proof.
  intros Hnone. rewrite choice_grades.
  apply get_user_word_progress_no_progress in Hnone.
  mrun.
  erewrite (get_user_word_progress_frame w);
    [ | reflexivity | exact Hnone ].
  reflexivity.
Qed.

End choice_more.

(** X17. A press on an option of a pending task is graded by comparing
    indices: the task gets the pressed option's text as the answer and
    the outcome [selected_index == correct_index]; the sender's progress
    row for the task's word counts one attempt, and one right answer
    exactly when the indices are equal. The two writes are two commits,
    and the message is edited before the callback is answered. The task
    is found by its id alone: nothing requires it to be a task of the
    sender. *)
Theorem X17_choice_is_graded_by_comparing_indices (w : World)
    (from_user : Z) (data : string) (task_id selected_index : Z)
    (u : Z * User.t) (task : TaskHistory.t)
    (user_answer correct_answer : string) (correct_index : Z)
    (p : Z * UserWordProgress.t) :
  answers.parse_callback data w = (Ok (task_id, selected_index), w) →
  only_user (db w) from_user u →
  task_history (db w) !! task_id = Some task →
  TaskHistory.is_correct task = None →
  Py.getitem (default [] (TaskData.options (TaskHistory.task_content task)))
             selected_index = Some user_answer →
  TaskData.correct_index (TaskHistory.task_content task)
  = Some correct_index →
  Py.getitem (default [] (TaskData.options (TaskHistory.task_content task)))
             correct_index = Some correct_answer →
  only_progress (db w) u.1 (TaskHistory.word_id task) p →
  ∃ (w' : World) (task' : TaskHistory.t) (p' : UserWordProgress.t)
    (feedback : string),
    answers.handle_multiple_choice_answer from_user data w = (Ok (), w')
    ∧ task_history (db w') !! task_id = Some task'
    ∧ TaskHistory.user_answer task' = Some user_answer
    ∧ TaskHistory.is_correct task'
      = Some (bool_decide (selected_index = correct_index))
    ∧ user_word_progress (db w') !! p.1 = Some p'
    ∧ UserWordProgress.total_answers_count p'
      = UserWordProgress.total_answers_count p.2 + 1
    ∧ UserWordProgress.correct_answers_count p'
      = UserWordProgress.correct_answers_count p.2
        + (if bool_decide (selected_index = correct_index) then 1 else 0)
    ∧ length (commits w') = S (S (length (commits w)))
    ∧ outbox w'
      = outbox w
        ++ [(from_user,
             EditWithResult feedback (UserWordProgress.knowledge_percent p'));
            (from_user, CallbackAnswered)].
Proof.
  intros Hparse Huser Htask Hpending Hselected Hindex Hcorrect Hprogress.
  eexists _, _, _, _. split.
  - eapply choice_graded; eassumption.
  - cbn. rewrite lookup_alter_eq, Htask, lookup_insert_eq. cbn.
    split_and!; try reflexivity.
    + case_bool_decide; cbn; lia.
    + rewrite !length_app. cbn. lia.
Qed.

(** X18. When the sender of the press has no progress row for the
    task's word, the outcome is still written: the task is committed as
    answered, then [session.refresh(None)] raises
    [UnmappedInstanceError]. The handler stops there -- the message is
    not edited and the callback is not answered. *)
Theorem X18_choice_without_progress_row_commits_outcome_then_raises
    (w : World) (from_user : Z) (data : string)
    (task_id selected_index : Z) (u : Z * User.t) (task : TaskHistory.t)
    (user_answer correct_answer : string) (correct_index : Z) :
  answers.parse_callback data w = (Ok (task_id, selected_index), w) →
  only_user (db w) from_user u →
  task_history (db w) !! task_id = Some task →
  TaskHistory.is_correct task = None →
  Py.getitem (default [] (TaskData.options (TaskHistory.task_content task)))
             selected_index = Some user_answer →
  TaskData.correct_index (TaskHistory.task_content task)
  = Some correct_index →
  Py.getitem (default [] (TaskData.options (TaskHistory.task_content task)))
             correct_index = Some correct_answer →
  no_progress (db w) u.1 (TaskHistory.word_id task) →
  ∃ (w' : World) (task' : TaskHistory.t),
    answers.handle_multiple_choice_answer from_user data w
    = (Raise Py.UnmappedInstanceError, w')
    ∧ task_history (db w') !! task_id = Some task'
    ∧ TaskHistory.is_correct task'
      = Some (bool_decide (selected_index = correct_index))
    ∧ commits w' = commits w ++ [db w']
    ∧ user_word_progress (db w') = user_word_progress (db w)
    ∧ outbox w' = outbox w.
Proof.
  intros Hparse Huser Htask Hpending Hselected Hindex Hcorrect Hnone.
  eexists _, _. split.
  - eapply choice_without_progress; eassumption.
  - cbn. rewrite lookup_alter_eq, Htask. cbn. split_and!; reflexivity.
Qed.

(** X19. ASCII callback data that passes the router's filter but has
    fewer than three parts -- "answer_", "answer_7" -- makes the handler
    raise before the session is opened: [IndexError] when the second
    part is an integer and the third is missing, [ValueError] when the
    second part is not an integer. Nothing is read or written. (The
    buttons of this bot carry ASCII data; for other text, which [int]
    reads by rules that [Py.int] does not cover, nothing is stated.) *)
Theorem X19_short_callback_data_raises_before_any_access (w : World)
    (from_user : Z) (data : string) :
  Py.isascii data = true →
  (length (Py.split "_" data) < 3)%nat →
  ∃ e : Py.exn,
    answers.handle_multiple_choice_answer from_user data w = (Raise e, w)
    ∧ (e = Py.IndexError ∨ e = Py.ValueError)
    ∧ (e = Py.ValueError ↔
       ∃ part, Py.split "_" data !! 1%nat = Some part
               ∧ Py.int part = None).
Proof.
  intros _ Hshort.
  assert (Hthird : Py.split "_" data !! 2%nat = None)
    by (apply lookup_ge_None; lia).
  unfold answers.handle_multiple_choice_answer, answers.parse_callback.
  mrun. rewrite Hthird.
  destruct (Py.split "_" data !! 1%nat) as [ part | ] eqn:Hsecond; cbn.
  - destruct (Py.int part) as [ n | ] eqn:Hint; cbn.
    + eexists. split_and!; [ reflexivity | by left | ].
      split; [ discriminate | ]. intros (part' & [= <-] & Hnone). congruence.
    + eexists. split_and!; [ reflexivity | by right | ].
      split; [ eauto | reflexivity ].
  - eexists. split_and!; [ reflexivity | by left | ].
    split; [ discriminate | ]. intros (part' & [=] & _).
Qed.

(** ** The tick returns *)

Lemma tick_returns (w : World) (pick : nat)
    (reply : ai_service.api_reply TaskData.t) (uid tg : Z)
    (u : Z * User.t) :
  only_user (db w) tg u →
  ∃ w' : World,
    tasks.send_task_to_user pick reply uid tg w = (Ok (), w')
    ∧ users (db w') = users (db w)
    ∧ words (db w') = words (db w)
    ∧ user_word_progress (db w') = user_word_progress (db w)
    ∧ (User.is_active u.2 = false → w' = w)
    ∧ (∀ until, User.is_active u.2 = true →
         User.do_not_disturb_until u.2 = Some until →
         clock w (reads w) < until → w' = after_reads 1 w).
Proof.
  intros Huser. apply get_user_by_telegram_id_only in Huser.
  destruct (User.is_active u.2) eqn:Hactive.
  2: { exists w. split; [ eapply tick_inactive; eassumption | ].
       split_and!; try reflexivity. discriminate. }
  assert (Hwindow :
    (∃ until, User.do_not_disturb_until u.2 = Some until
              ∧ clock w (reads w) < until)
    ∨ window_over w u).
  { unfold window_over.
    destruct (User.do_not_disturb_until u.2) as [ until | ]; [ | by right ].
    destruct (decide (clock w (reads w) < until)); [ left; eauto | right; lia ]. }
  destruct Hwindow as [ (until & Hdnd & Hnow) | Hover ].
  { exists (after_reads 1 w).
    split; [ eapply tick_silent; eassumption | ].
    split_and!; try reflexivity. discriminate. }
  assert (Hnot : ∀ until, User.do_not_disturb_until u.2 = Some until →
                          clock w (reads w) < until → False).
  { intros t0 Hdnd Hnow. unfold window_over in Hover.
    rewrite Hdnd in Hover. lia. }
  destruct (crud.get_words_for_review uid 1
              (after_reads (window_reads u) w)) as [ r w2 ] eqn:Hsel.
  pose proof Hsel as Hrun. rewrite get_words_for_review_run in Hrun.
  destruct r as [ [ | progress rest ] | e ]; [ | | discriminate ].
  { eexists. split; [ eapply tick_all_reviewed; eassumption | ].
    split_and!; try reflexivity; [ discriminate | ].
    intros t0 _ Hdnd Hnow. destruct (Hnot _ Hdnd Hnow). }
  destruct (words (db w) !! UserWordProgress.word_id progress.2)
    as [ word | ] eqn:Hword.
  - destruct reply as [ | | td ] eqn:Hreply.
    + eexists. split;
        [ eapply tick_generation_failed; try eassumption; by left | ].
      split_and!; try reflexivity; [ discriminate | ].
      intros t0 _ Hdnd Hnow. destruct (Hnot _ Hdnd Hnow).
    + eexists. split;
        [ eapply tick_generation_failed; try eassumption; right; by left | ].
      split_and!; try reflexivity; [ discriminate | ].
      intros t0 _ Hdnd Hnow. destruct (Hnot _ Hdnd Hnow).
    + eexists. split; [ eapply tick_issues; try eassumption; reflexivity | ].
      split_and!; try reflexivity; [ discriminate | ].
      intros t0 _ Hdnd Hnow. destruct (Hnot _ Hdnd Hnow).
  - eexists. split;
      [ eapply tick_generation_failed; try eassumption; right; by right | ].
    split_and!; try reflexivity; [ discriminate | ].
    intros t0 _ Hdnd Hnow. destruct (Hnot _ Hdnd Hnow).
Qed.

(** X20. One tick of a user whose Telegram id is on one user row always
    returns: an exception of the generation block is caught and turned
    into the "generation failed" notice, and nothing else in the tick can
    raise (sending a message is taken to succeed). The tick writes the
    task table only -- the user, word and progress rows are as before. *)
Theorem X20_tick_returns_and_writes_tasks_only (w : World) (pick : nat)
    (reply : ai_service.api_reply TaskData.t) (uid tg : Z)
    (u : Z * User.t) :
  only_user (db w) tg u →
  ∃ w' : World,
    tasks.send_task_to_user pick reply uid tg w = (Ok (), w')
    ∧ users (db w') = users (db w)
    ∧ words (db w') = words (db w)
    ∧ user_word_progress (db w') = user_word_progress (db w).
Proof.
  intros Huser.
  destruct (tick_returns w pick reply uid tg u Huser)
    as (w' & Hrun & Husers & Hwords & Hprogress & _).
  eauto.
Qed.

(** ** The job registry *)

Lemma job_id_inj (a b : Z) : tasks.job_id a = tasks.job_id b → a = b.
Proof.
  unfold tasks.job_id. intros Heq.
  apply (inj (String.app "user_")) in Heq. apply (inj pretty) in Heq.
  exact Heq.
Qed.

Lemma start_user_scheduler_jobs (pick : nat)
    (reply : ai_service.api_reply TaskData.t)
    (uid tg interval : Z) (jobs : gmap string tasks.Job) (w : World) :
  (tasks.start_user_scheduler pick reply uid tg interval jobs w).1
  = <[tasks.job_id uid := tasks.mkJob interval uid tg]> jobs.
Proof.
  unfold tasks.start_user_scheduler. cbn.
  case_bool_decide; [ apply insert_delete_eq | reflexivity ].
Qed.

Lemma stop_user_scheduler_jobs (uid : Z) (jobs : gmap string tasks.Job) :
  tasks.stop_user_scheduler uid jobs = delete (tasks.job_id uid) jobs.
Proof.
  unfold tasks.stop_user_scheduler.
  case_bool_decide as Hjob; [ reflexivity | ].
  symmetry. apply delete_id. apply eq_None_not_Some. exact Hjob.
Qed.

(** X21. The registry holds at most one job per user, under the id
    "user_<id>", and the jobs of different users are kept apart:
    starting a user's job leaves exactly one job for that user, with the
    interval and the arguments given (an earlier job of the user is
    replaced, not doubled), stopping it leaves none, starting and then
    stopping gives the registry without that user's job, and neither
    operation changes the job of any other user. Stopping a job that
    does not exist changes nothing. *)
Theorem X21_start_and_stop_act_on_one_job (pick : nat)
    (reply : ai_service.api_reply TaskData.t)
    (uid tg interval other : Z) (jobs : gmap string tasks.Job) (w : World) :
  other ≠ uid →
  let started :=
    (tasks.start_user_scheduler pick reply uid tg interval jobs w).1 in
  let stopped := tasks.stop_user_scheduler uid jobs in
  started !! tasks.job_id uid = Some (tasks.mkJob interval uid tg)
  ∧ started !! tasks.job_id other = jobs !! tasks.job_id other
  ∧ stopped !! tasks.job_id uid = None
  ∧ stopped !! tasks.job_id other = jobs !! tasks.job_id other
  ∧ tasks.stop_user_scheduler uid started = stopped
  ∧ (jobs !! tasks.job_id uid = None → stopped = jobs)
  ∧ (is_Some (jobs !! tasks.job_id uid) → size started = size jobs).
Proof.
  intros Hother started stopped. unfold started, stopped.
  assert (Hne : tasks.job_id uid ≠ tasks.job_id other)
    by (intros Heq; apply job_id_inj in Heq; congruence).
  rewrite !stop_user_scheduler_jobs, start_user_scheduler_jobs.
  split_and!.
  - apply lookup_insert_eq.
  - apply lookup_insert_ne, Hne.
  - apply lookup_delete_eq.
  - apply lookup_delete_ne, Hne.
  - apply delete_insert_eq.
  - apply delete_id.
  - intros [job Hjob]. rewrite map_size_insert_Some; eauto.
Qed.

(** ** The handlers of the main menu *)

Section menu.

Lemma update_user_active_status_run (w : World) (uid : Z) (b : bool) :
  crud.update_user_active_status uid b w
  = (Ok (),
     committed
       (set_users
          (alter (λ u, User.mk (User.telegram_id u) b
                               (User.interval_minutes u)
                               (User.do_not_disturb_until u)
                               (User.created_at u) (clock w (reads w)))
                 uid (users (db w))) (db w))
       (after_reads 1 w)).
Proof. reflexivity. Qed.

Context (w : World) (from_user uid : Z) (u : User.t).
Context (jobs : gmap string tasks.Job).
Hypothesis Huser : only_user (db w) from_user (uid, u).

#[local] Abbreviation switched b :=
  (User.mk (User.telegram_id u) b (User.interval_minutes u)
           (User.do_not_disturb_until u) (User.created_at u)
           (clock w (reads w))).

Lemma only_user_switched (b : bool) :
  only_user (db (crud.update_user_active_status uid b w).2) from_user
            (uid, switched b).
Proof.
  rewrite update_user_active_status_run. cbn.
  exact (only_user_alter _ _ _ _
           (λ x, User.mk (User.telegram_id x) b (User.interval_minutes x)
                         (User.do_not_disturb_until x) (User.created_at x)
                         (clock w (reads w)))
           Huser (λ _, eq_refl)).
Qed.

Lemma cmd_sleep_run :
  basic_commands.cmd_sleep from_user jobs w
  = (delete (tasks.job_id uid) jobs,
     (Ok basic_commands.GoodNight,
      (crud.update_user_active_status uid false w).2)).
Proof.
  unfold basic_commands.cmd_sleep.
  rewrite (known_user w from_user (uid, u) Huser). cbn.
  rewrite stop_user_scheduler_jobs. reflexivity.
Qed.

Lemma cmd_wake_up_run (pick : nat)
    (reply : ai_service.api_reply TaskData.t) :
  let w2 := (crud.update_user_active_status uid true w).2 in
  basic_commands.cmd_wake_up pick reply from_user jobs w
  = (<[tasks.job_id uid :=
         tasks.mkJob (User.interval_minutes u) uid from_user]> jobs,
     (Ok (basic_commands.Activated (User.interval_minutes u)),
      (tasks.send_task_to_user pick reply uid from_user w2).2)).
Proof.
  intros w2.
  destruct (tick_returns w2 pick reply uid from_user (uid, switched true)
              (only_user_switched true)) as (w3 & Hrun & _).
  rewrite Hrun. unfold w2 in Hrun.
  rewrite update_user_active_status_run in Hrun. cbn [snd] in Hrun.
  unfold basic_commands.cmd_wake_up.
  rewrite (known_user w from_user (uid, u) Huser). cbn [fst snd].
  rewrite update_user_active_status_run.
  unfold tasks.start_user_scheduler. cbv zeta. rewrite Hrun. cbn [snd].
  case_bool_decide; [ rewrite insert_delete_eq | ]; reflexivity.
Qed.

End menu.

(** X22. "Went to bed" of a known user answers "good night", removes the
    user's job from the registry and leaves the jobs of the other users
    alone; it stores the user as inactive, so that a tick that still
    fires afterwards -- whatever is due, whatever the generator would
    reply -- returns without reading the clock, storing or sending
    anything. *)
Theorem X22_sleep_removes_the_job_and_disarms_later_ticks (w : World)
    (from_user uid : Z) (u : User.t) (jobs : gmap string tasks.Job) :
  only_user (db w) from_user (uid, u) →
  ∃ (jobs' : gmap string tasks.Job) (w' : World),
    basic_commands.cmd_sleep from_user jobs w
    = (jobs', (Ok basic_commands.GoodNight, w'))
    ∧ jobs' !! tasks.job_id uid = None
    ∧ (∀ other, other ≠ uid →
         jobs' !! tasks.job_id other = jobs !! tasks.job_id other)
    ∧ outbox w' = outbox w
    ∧ (∀ (tick : World) (pick : nat)
         (reply : ai_service.api_reply TaskData.t),
         db tick = db w' →
         tasks.send_task_to_user pick reply uid from_user tick
         = (Ok (), tick)).
Proof.
  intros Huser. eexists _, _. split; [ eapply cmd_sleep_run, Huser | ].
  split_and!.
  - apply lookup_delete_eq.
  - intros other Hother. apply lookup_delete_ne.
    intros Heq. apply job_id_inj in Heq. congruence.
  - reflexivity.
  - intros tick pick reply Hdb.
    pose proof (only_user_switched w from_user uid u Huser false) as Hasleep.
    rewrite <- Hdb in Hasleep.
    apply get_user_by_telegram_id_only in Hasleep.
    eapply tick_inactive; [ exact Hasleep | reflexivity ].
Qed.

(** X23. "I woke up" of a known user always answers "activated" with the
    user's interval: it stores the user as active, registers the user's
    one job with that interval and runs the first tick at once. It does
    not touch the "do not disturb" window: while the window is still
    running at the first tick, the answer promises a first task but no
    task is stored and nothing is sent. *)
Theorem X23_wake_up_registers_job_but_keeps_do_not_disturb (w : World)
    (pick : nat) (reply : ai_service.api_reply TaskData.t)
    (from_user uid : Z) (u : User.t) (jobs : gmap string tasks.Job) :
  only_user (db w) from_user (uid, u) →
  ∃ (jobs' : gmap string tasks.Job) (w' : World) (u' : User.t),
    basic_commands.cmd_wake_up pick reply from_user jobs w
    = (jobs', (Ok (basic_commands.Activated (User.interval_minutes u)), w'))
    ∧ jobs' !! tasks.job_id uid
      = Some (tasks.mkJob (User.interval_minutes u) uid from_user)
    ∧ users (db w') !! uid = Some u'
    ∧ User.is_active u' = true
    ∧ User.do_not_disturb_until u' = User.do_not_disturb_until u
    ∧ (∀ t0 : Z,
         User.do_not_disturb_until u = Some t0 →
         clock w (S (reads w)) < t0 →
         task_history (db w') = task_history (db w)
         ∧ outbox w' = outbox w).
Proof.
  intros Huser.
  pose proof (only_user_switched w from_user uid u Huser true) as Hawake.
  destruct (tick_returns _ pick reply uid from_user _ Hawake)
    as (w3 & Hrun & Husers & _ & _ & _ & Hsilent).
  eexists _, _, _. split; [ eapply cmd_wake_up_run, Huser | ].
  rewrite Hrun. cbn [snd]. split_and!.
  - apply lookup_insert_eq.
  - rewrite Husers, update_user_active_status_run. cbn.
    destruct Huser as (Hrow & _). cbn in Hrow.
    rewrite lookup_alter_eq, Hrow. reflexivity.
  - reflexivity.
  - reflexivity.
  - intros t0 Hdnd Hnow.
    rewrite (Hsilent t0 eq_refl Hdnd)
      by (rewrite update_user_active_status_run; exact Hnow).
    rewrite update_user_active_status_run. cbn. split; reflexivity.
Qed.

(** ** The "do not disturb" dialogue *)

Lemma split_dnd (action : string) :
  Forall (λ c, c ≠ "_"%char) (String.list_ascii_of_string action) →
  Py.split "_" ("dnd_" +:+ action) = ["dnd"; action].
Proof.
  intros Haction.
  change ("dnd_" +:+ action) with ("dnd" +:+ String "_" action).
  rewrite split_at_separator by (repeat constructor; discriminate).
  rewrite split_no_separator by exact Haction. reflexivity.
Qed.

Lemma process_dnd_duration_minutes (w : World) (from_user : Z)
    (u : Z * User.t) (minutes : Z) :
  only_user (db w) from_user u →
  word_management.process_dnd_duration from_user
    ("dnd_" +:+ pretty minutes) w
  = match crud.set_do_not_disturb u.1 minutes w with
    | (Ok _, w') => (Ok (word_management.DndEnabled minutes), w')
    | (Raise e, w') => (Raise e, w')
    end.
Proof.
  intros Huser. unfold word_management.process_dnd_duration.
  rewrite split_dnd by apply pretty_chars. cbn [lookup list_lookup].
  rewrite bool_decide_false.
  2: { intros Heq. pose proof (int_pretty minutes) as Hint.
       rewrite Heq in Hint. vm_compute in Hint. discriminate. }
  rewrite int_pretty, bind_run, (known_user w from_user u Huser).
  reflexivity.
Qed.

(** X24. In the "do not disturb" dialogue a button whose data is
    "dnd_<minutes>" sets the window of the sender to the clock reading
    plus that many minutes and answers with the minutes, as long as
    [timedelta(minutes=minutes)] and that sum are in range; when they are
    not, the handler raises [OverflowError] and nothing is written. Every
    duration button of the keyboard is of this form with at most 180
    minutes, for which the window is in range at any clock reading up to
    three hours before [datetime.max]. The "cancel" button only closes
    the dialogue: it opens no session, so a window that is already set
    stays as it is. *)
Theorem X24_dnd_buttons_set_the_window_and_cancel_keeps_it (w : World)
    (from_user uid : Z) (u : User.t) :
  only_user (db w) from_user (uid, u) →
  word_management.process_dnd_duration from_user "dnd_cancel" w
  = (Ok word_management.DndCancelled, w)
  ∧ (∀ minutes until : Z,
       window_end (clock w (reads w)) minutes = Some until →
       ∃ w' : World,
         word_management.process_dnd_duration from_user
           ("dnd_" +:+ pretty minutes) w
         = (Ok (word_management.DndEnabled minutes), w')
         ∧ until = clock w (reads w) + Py.timedelta_minutes minutes
         ∧ users (db w') !! uid
           = Some (User.mk (User.telegram_id u) (User.is_active u)
                     (User.interval_minutes u) (Some until)
                     (User.created_at u) (clock w (S (reads w)))))
  ∧ (∀ minutes : Z,
       window_end (clock w (reads w)) minutes = None →
       ∃ w' : World,
         word_management.process_dnd_duration from_user
           ("dnd_" +:+ pretty minutes) w
         = (Raise Py.OverflowError, w')
         ∧ db w' = db w ∧ commits w' = commits w ∧ outbox w' = outbox w)
  ∧ Forall (λ button : string * string,
              word_management.is_dnd_callback button.2 = true
              ∧ (button.2 = "dnd_cancel"
                 ∨ ∃ minutes : Z,
                     0 < minutes ≤ 180
                     ∧ button.2 = "dnd_" +:+ pretty minutes))
           (concat keyboards.get_dnd_duration_keyboard)
  ∧ (∀ minutes : Z,
       0 < minutes ≤ 180 →
       Py.datetime_min ≤ clock w (reads w)
       ≤ Py.datetime_max - Py.timedelta_minutes 180 →
       is_Some (window_end (clock w (reads w)) minutes)).
Proof.
  intros Huser. split_and!.
  - reflexivity.
  - intros minutes t0 Hend. eexists. split_and!.
    + rewrite (process_dnd_duration_minutes w from_user (uid, u)) by exact Huser.
      cbn [fst]. rewrite (set_do_not_disturb_run _ _ _ t0) by exact Hend.
      reflexivity.
    + apply window_end_Some in Hend. tauto.
    + cbn. destruct Huser as (Hrow & _). cbn in Hrow.
      rewrite lookup_alter_eq, Hrow. reflexivity.
  - intros minutes Hend. eexists. split_and!.
    + rewrite (process_dnd_duration_minutes w from_user (uid, u)) by exact Huser.
      cbn [fst]. rewrite set_do_not_disturb_overflow by exact Hend.
      reflexivity.
    + reflexivity.
    + reflexivity.
    + reflexivity.
  - unfold keyboards.get_dnd_duration_keyboard. cbn [concat app].
    repeat apply Forall_cons_2; try apply Forall_nil_2;
      (split; [ reflexivity | ]).
    + right. exists 30. split; [ lia | reflexivity ].
    + right. exists 60. split; [ lia | reflexivity ].
    + right. exists 120. split; [ lia | reflexivity ].
    + right. exists 180. split; [ lia | reflexivity ].
    + by left.
  - intros minutes Hminutes Hnow.
    exists (clock w (reads w) + Py.timedelta_minutes minutes).
    apply window_end_Some.
    unfold Py.timedelta_minutes, Py.timedelta_min, Py.timedelta_max,
      Py.datetime_min, Py.datetime_max in *.
    lia.
Qed.

(** ** /start *)

Section start.
Context (uid : Z).

Lemma progress_cases (d : DB) (wid : Z) :
  progress_unique d uid →
  no_progress d uid wid ∨ ∃ p, only_progress d uid wid p.
Proof.
  intros Hunique.
  set (P := λ r : Z * UserWordProgress.t,
              UserWordProgress.user_id r.2 = uid
              ∧ UserWordProgress.word_id r.2 = wid).
  destruct (filter P (map_to_list (user_word_progress d)))
    as [ | [k p] rest ] eqn:Hrows.
  - left. intros k p Hk HP.
    apply (proj1 (filter_nil_iff P _) Hrows (k, p));
      [ by apply elem_of_map_to_list | exact HP ].
  - right. exists (k, p).
    assert (Hin : (k, p) ∈ filter P (map_to_list (user_word_progress d)))
      by (rewrite Hrows; left).
    apply list_elem_of_filter in Hin as [[Hu Hw] Hin].
    apply elem_of_map_to_list in Hin. cbn in Hu, Hw.
    unfold only_progress. cbn. split_and!; try done.
    intros k' p' Hk' Hu' Hw'. eapply Hunique; eauto. congruence.
Qed.

Lemma progress_only_of_row (d : DB) (k : Z) (p : UserWordProgress.t) :
  progress_unique d uid →
  user_word_progress d !! k = Some p →
  UserWordProgress.user_id p = uid →
  only_progress d uid (UserWordProgress.word_id p) (k, p).
Proof.
  intros Hunique Hk Hu. unfold only_progress. cbn.
  split_and!; try done.
  intros k' p' Hk' Hu' Hw'. eapply Hunique; eauto.
Qed.

Lemma create_missing_progress_run (ws : list (Z * Word.t)) :
  ∀ w : World,
    progress_unique (db w) uid →
    ∃ w' : World,
      basic_commands.create_missing_progress uid ws w = (Ok (), w')
      ∧ progress_unique (db w') uid
      ∧ users (db w') = users (db w)
      ∧ words (db w') = words (db w)
      ∧ task_history (db w') = task_history (db w)
      ∧ outbox w' = outbox w
      ∧ (∀ k p, user_word_progress (db w) !! k = Some p →
                user_word_progress (db w') !! k = Some p)
      ∧ (∀ word, word ∈ ws →
           ∃ p, only_progress (db w') uid word.1 p)
      ∧ ((∀ word, word ∈ ws → ∃ p, only_progress (db w) uid word.1 p) →
         w' = w).
Proof.
  induction ws as [ | word ws IH ]; intros w Hunique.
  - exists w. split_and!; try done. intros word Hin. inversion Hin.
  - destruct (progress_cases (db w) word.1 Hunique) as [ Hnone | [p Hone] ].
    + pose proof Hnone as Hget.
      apply get_user_word_progress_no_progress in Hget.
      set (id := fresh_id (user_word_progress (db w))).
      set (p := UserWordProgress.mk uid word.1 0 None (clock w (reads w)) 0 0
                  (clock w (S (reads w))) (clock w (S (S (reads w))))).
      set (w1 := committed
                   (set_user_word_progress
                      (<[id := p]> (user_word_progress (db w))) (db w))
                   (after_reads 3 w)).
      assert (Hfresh : user_word_progress (db w) !! id = None)
        by apply fresh_id_fresh.
      assert (Hunique1 : progress_unique (db w1) uid).
      { intros k1 k2 p1 p2 H1 H2 Hu1 Hu2 Hw. cbn in H1, H2.
        destruct (decide (id = k1)) as [ <- | Hne1 ];
          destruct (decide (id = k2)) as [ <- | Hne2 ]; [ done | | | ].
        - rewrite lookup_insert_eq in H1. injection H1 as <-.
          rewrite lookup_insert_ne in H2 by exact Hne2.
          destruct (Hnone _ _ H2). cbn in Hw. auto.
        - rewrite lookup_insert_eq in H2. injection H2 as <-.
          rewrite lookup_insert_ne in H1 by exact Hne1.
          destruct (Hnone _ _ H1). cbn in Hw. auto.
        - rewrite lookup_insert_ne in H1 by exact Hne1.
          rewrite lookup_insert_ne in H2 by exact Hne2.
          eapply Hunique; eauto. }
      destruct (IH w1 Hunique1)
        as (w' & Hrun & Hunique' & Husers & Hwords & Htasks & Hout
            & Hkept & Hcovered & _).
      exists w'. split_and!; try done.
      * cbn. mrun. rewrite Hget. cbn.
        rewrite create_user_word_progress_run. cbn. exact Hrun.
      * intros k q Hk. apply Hkept. cbn.
        rewrite lookup_insert_ne; [ exact Hk | ].
        intros <-. congruence.
      * intros word' Hin. apply elem_of_cons in Hin as [ -> | Hin ];
          [ | by apply Hcovered ].
        exists (id, p).
        apply (progress_only_of_row (db w') id p Hunique');
          [ | reflexivity ].
        apply Hkept. cbn. apply lookup_insert_eq.
      * intros Hall. destruct (Hall word) as [q Hq]; [ left | ].
        destruct Hq as (Hrow & Hu & Hw & _). destruct (Hnone _ _ Hrow). auto.
    + pose proof Hone as Hget.
      apply get_user_word_progress_only in Hget.
      destruct (IH w Hunique)
        as (w' & Hrun & Hunique' & Husers & Hwords & Htasks & Hout
            & Hkept & Hcovered & Hsame).
      exists w'. split_and!; try done.
      * cbn. mrun. rewrite Hget. cbn. exact Hrun.
      * intros word' Hin. apply elem_of_cons in Hin as [ -> | Hin ];
          [ | by apply Hcovered ].
        destruct Hone as (Hrow & Hu & Hw & _).
        exists p. rewrite <- Hw.
        apply (progress_only_of_row (db w') p.1 p.2 Hunique');
          [ by apply Hkept | exact Hu ].
      * intros Hall. apply Hsame. intros word' Hin. apply Hall. by right.
Qed.

End start.

Section start_command.

Lemma create_base_words_run (pairs : list (string * string)) :
  ∀ (acc : list (Z * Word.t)) (w : World),
    ∃ (created : list (Z * Word.t)) (w' : World),
      basic_commands.create_base_words pairs acc w
      = (Ok (acc ++ created), w')
      ∧ users (db w') = users (db w)
      ∧ user_word_progress (db w') = user_word_progress (db w)
      ∧ task_history (db w') = task_history (db w)
      ∧ outbox w' = outbox w
      ∧ (∀ k x, words (db w') !! k = Some x ↔
                words (db w) !! k = Some x ∨ (k, x) ∈ created)
      ∧ Forall2 (λ (pair : string * string) (word : Z * Word.t),
                   Word.word_en word.2 = word_key pair.1
                   ∧ Word.word_ru word.2 = Py.str_strip pair.2)
                pairs created.
Proof.
  induction pairs as [ | [word_en word_ru] pairs IH ]; intros acc w.
  - exists [], w. cbn. rewrite app_nil_r.
    split_and!; try reflexivity; [ | constructor ].
    intros k x. split; [ by left | ]. intros [ H | H ]; [ done | inversion H ].
  - set (id := fresh_id (words (db w))).
    set (word := Word.mk (word_key word_en) (Py.str_strip word_ru)
                         (clock w (reads w))).
    set (w1 := committed
                 (crud.set_words (<[id := word]> (words (db w))) (db w))
                 (after_reads 1 w)).
    destruct (IH (acc ++ [(id, word)]) w1)
      as (created & w' & Hrun & Husers & Hprogress & Htasks & Hout
          & Hwords & Hpairs).
    exists ((id, word) :: created), w'. split_and!; try done.
    + cbn. mrun. rewrite create_word_run. cbn. fold id word w1.
      rewrite Hrun, <- app_assoc. reflexivity.
    + intros k x. rewrite Hwords. cbn. rewrite elem_of_cons.
      assert (Hfresh : words (db w) !! id = None) by apply fresh_id_fresh.
      destruct (decide (id = k)) as [ <- | Hne ].
      * rewrite lookup_insert_eq, Hfresh. split.
        -- intros [ [= <-] | Hin ]; auto.
        -- intros [ [= ] | [ [= <-] | Hin ] ]; auto.
      * rewrite lookup_insert_ne by exact Hne. split.
        -- intros [ Hk | Hin ]; auto.
        -- intros [ Hk | [ [= ] | Hin ] ]; auto; congruence.
    + constructor; [ split; reflexivity | exact Hpairs ].
Qed.

Lemma get_or_create_user_cases (w : World) (tg : Z) :
  no_user (db w) tg ∨ (∃ u, only_user (db w) tg u) →
  ∃ (u : Z * User.t) (w' : World),
    crud.get_or_create_user tg w = (Ok u, w')
    ∧ only_user (db w') tg u
    ∧ task_history (db w') = task_history (db w)
    ∧ user_word_progress (db w') = user_word_progress (db w)
    ∧ words (db w') = words (db w)
    ∧ outbox w' = outbox w.
Proof.
  intros [Hnone | [u Hone]].
  - pose proof Hnone as Hget. apply get_user_by_telegram_id_no_user in Hget.
    eexists _, _. split_and!.
    + unfold crud.get_or_create_user. mrun. rewrite Hget. cbn.
      rewrite create_user_run. reflexivity.
    + apply only_user_insert_fresh;
        [ exact Hnone | apply fresh_id_fresh | reflexivity ].
    + reflexivity.
    + reflexivity.
    + reflexivity.
    + reflexivity.
  - exists u, w. split_and!; try done. apply known_user, Hone.
Qed.

Lemma cmd_start_known (w : World) (from_user : Z) (u : Z * User.t) :
  only_user (db w) from_user u →
  progress_unique (db w) u.1 →
  covers_words (db w) u.1 →
  words (db w) ≠ ∅ →
  basic_commands.cmd_start from_user w = (Ok basic_commands.Welcome, w).
Proof.
  intros Huser Hunique Hcovers Hwords.
  destruct (create_missing_progress_run u.1 (map_to_list (words (db w)))
              w Hunique)
    as (w' & Hrun & _ & _ & _ & _ & _ & _ & _ & Hsame).
  rewrite Hsame in Hrun.
  2: { intros [k x] Hin. apply elem_of_map_to_list in Hin. eauto. }
  unfold basic_commands.cmd_start. mrun.
  rewrite (known_user w from_user u Huser). cbn.
  unfold crud.get_all_words. mrun.
  rewrite bool_decide_false.
  2: { intros Hlen. apply Hwords, map_to_list_empty_iff.
       by apply length_zero_iff_nil. }
  cbn. rewrite Hrun. reflexivity.
Qed.

End start_command.

(** X25. "/start" leaves the sender with a progress row for every stored
    word. With at most one user row for the sender and at most one
    progress row per user and word, the command returns the welcome; the
    sender is then the one user with that Telegram id and has exactly one
    progress row for each word of the table. An empty word table gets
    the three base words first, a table with words is left as it is.
    Progress rows that existed before are kept as they were (a second
    "/start" resets nothing): run again, the command writes nothing at
    all. *)
Theorem X25_start_gives_every_word_a_progress_row (w : World)
    (from_user : Z) :
  no_user (db w) from_user ∨ (∃ u, only_user (db w) from_user u) →
  (∀ uid, progress_unique (db w) uid) →
  ∃ (u : Z * User.t) (w' : World),
    basic_commands.cmd_start from_user w = (Ok basic_commands.Welcome, w')
    ∧ only_user (db w') from_user u
    ∧ covers_words (db w') u.1
    ∧ (words (db w) ≠ ∅ → words (db w') = words (db w))
    ∧ (words (db w) = ∅ →
       Forall (λ pair : string * string,
                 ∃ k x, words (db w') !! k = Some x
                        ∧ Word.word_en x = pair.1
                        ∧ Word.word_ru x = pair.2)
              basic_commands.base_words)
    ∧ (∀ k p, user_word_progress (db w) !! k = Some p →
              user_word_progress (db w') !! k = Some p)
    ∧ task_history (db w') = task_history (db w)
    ∧ basic_commands.cmd_start from_user w'
      = (Ok basic_commands.Welcome, w').
Proof.
  intros Huser Hunique.
  destruct (get_or_create_user_cases w from_user Huser)
    as (u & w1 & Hget & Hone & Htasks1 & Hprogress1 & Hwords1 & Hout1).
  assert (Hunique1 : progress_unique (db w1) u.1).
  { unfold progress_unique. rewrite Hprogress1. apply Hunique. }
  (* the words the loop runs over, and the world it starts in *)
  assert (Hwords :
    ∃ (ws : list (Z * Word.t)) (w2 : World),
      (let ws' := map_to_list (words (db w1)) in
       if bool_decide (length ws' = 0%nat)
       then basic_commands.create_base_words basic_commands.base_words ws'
       else ret ws') w1 = (Ok ws, w2)
      ∧ users (db w2) = users (db w1)
      ∧ user_word_progress (db w2) = user_word_progress (db w1)
      ∧ task_history (db w2) = task_history (db w1)
      ∧ (∀ k x, words (db w2) !! k = Some x ↔ (k, x) ∈ ws)
      ∧ ws ≠ []
      ∧ (words (db w) ≠ ∅ → words (db w2) = words (db w))
      ∧ (words (db w) = ∅ →
         Forall2 (λ (pair : string * string) (word : Z * Word.t),
                    Word.word_en word.2 = word_key pair.1
                    ∧ Word.word_ru word.2 = Py.str_strip pair.2)
                 basic_commands.base_words ws)).
  { destruct (decide (words (db w) = ∅)) as [ Hempty | Hstored ].
    - destruct (create_base_words_run basic_commands.base_words [] w1)
        as (created & w2 & Hrun & Husers & Hprogress & Htasks & Hout
            & Hlookup & Hpairs).
      exists created, w2. split_and!; try done.
      + cbv zeta. rewrite Hwords1, Hempty, map_to_list_empty.
        rewrite bool_decide_true by reflexivity. exact Hrun.
      + intros k x. rewrite Hlookup, Hwords1, Hempty, lookup_empty.
        split; [ intros [ [= ] | H ]; exact H | by right ].
      + intros ->. inversion Hpairs.
    - exists (map_to_list (words (db w1))), w1. split_and!; try done.
      + cbv zeta. rewrite bool_decide_false; [ reflexivity | ].
        intros Hlen. apply Hstored. rewrite <- Hwords1.
        apply map_to_list_empty_iff. by apply length_zero_iff_nil.
      + intros k x. symmetry. apply elem_of_map_to_list.
      + rewrite Hwords1. intros Hnil. apply Hstored.
        by apply map_to_list_empty_iff. }
  destruct Hwords
    as (ws & w2 & Hloaded & Husers2 & Hprogress2 & Htasks2 & Hlookup
        & Hsome & Hsame & Hbase).
  assert (Hunique2 : progress_unique (db w2) u.1).
  { unfold progress_unique. rewrite Hprogress2. exact Hunique1. }
  destruct (create_missing_progress_run u.1 ws w2 Hunique2)
    as (w' & Hrun & Hunique' & Husers' & Hwords' & Htasks' & Hout'
        & Hkept & Hcovered & _).
  assert (Hone' : only_user (db w') from_user u).
  { unfold only_user. rewrite Husers', Husers2. exact Hone. }
  assert (Hcovers : covers_words (db w') u.1).
  { intros wid word Hword. rewrite Hwords' in Hword.
    apply Hlookup in Hword. apply (Hcovered _ Hword). }
  assert (Hstored' : words (db w') ≠ ∅).
  { rewrite Hwords'. intros Hempty. destruct ws as [ | [k x] ws ]; [ done | ].
    assert (Hk : words (db w2) !! k = Some x) by (apply Hlookup; left).
    rewrite Hempty, lookup_empty in Hk. discriminate. }
  exists u, w'. split_and!.
  - unfold basic_commands.cmd_start.
    rewrite bind_run, Hget. cbv beta iota.
    rewrite bind_run.
    change (crud.get_all_words w1)
      with (Ok (map_to_list (words (db w1))), w1).
    cbv beta iota zeta in Hloaded |- *.
    rewrite bind_run, Hloaded. cbv beta iota.
    rewrite bind_run, Hrun. reflexivity.
  - exact Hone'.
  - exact Hcovers.
  - intros Hstored. rewrite Hwords'. auto.
  - intros Hempty. specialize (Hbase Hempty).
    apply Forall_forall. intros pair Hin.
    apply list_elem_of_lookup in Hin as [i Hi].
    destruct (Forall2_lookup_l _ _ _ _ _ Hbase Hi)
      as ([k x] & Hword & Hen & Hru).
    cbn in Hen, Hru. exists k, x. split_and!.
    + rewrite Hwords'. apply Hlookup. eapply list_elem_of_lookup_2, Hword.
    + rewrite Hen. clear -Hi.
      do 3 (destruct i as [ | i ];
            [ injection Hi as <-; vm_compute; reflexivity | ]).
      discriminate.
    + rewrite Hru. clear -Hi.
      do 3 (destruct i as [ | i ];
            [ injection Hi as <-; vm_compute; reflexivity | ]).
      discriminate.
  - intros k p Hk. apply Hkept. rewrite Hprogress2, Hprogress1. exact Hk.
  - rewrite Htasks', Htasks2. exact Htasks1.
  - apply (cmd_start_known w' from_user u); assumption.
Qed.

(** ** Worked instances of the further properties *)

Lemma start_learner : only_user (db scenario.start) 100 (1, scenario.learner).
Proof. apply get_user_by_telegram_id_only. vm_compute. reflexivity. Qed.

Lemma start_progress :
  only_progress (db scenario.start) 1 1 (1, scenario.new_row).
Proof. apply get_user_word_progress_only. vm_compute. reflexivity. Qed.

Lemma X1_witness_scenario_rows_stay_in_bounds :
  progress_table_ok
    (db (crud.update_word_progress 1 None scenario.start).2)
  ∧ progress_table_ok
      (db (crud.create_user_word_progress 1 2 scenario.start).2).
Proof.
  destruct (X1_progress_bounds_are_kept scenario.start) as [Hupdate Hcreate].
  - unfold progress_table_ok. refine (bool_decide_unpack _ _).
    vm_compute. exact I.
  - split; [ apply Hupdate | apply Hcreate ].
Defined.

Lemma X2_witness_right_answer_rests_half_an_hour :
  ∃ (w' : World) (p' : UserWordProgress.t),
    crud.update_word_progress 1 (Some true) scenario.start = (Ok (), w')
    ∧ user_word_progress (db w') !! 1 = Some p'
    ∧ UserWordProgress.last_reviewed_at p' = Some (scenario.seconds 0)
    ∧ (1, p') ∉ due_rows (db w') 1 (scenario.seconds 1 + 29 * scenario.minute).
Proof.
  destruct (X2_updated_row_rests_before_next_review
              scenario.start 1 (Some true) scenario.new_row)
    as (w' & p' & Hrun & Hrow & Hlast & _ & _ & Hrest).
  - reflexivity.
  - exists w', p'. split_and!; try assumption.
    apply Hrest. vm_compute. reflexivity.
Defined.

Lemma X6_witness_new_user_is_registered_once :
  ∃ (u : Z * User.t) (w' : World),
    crud.get_or_create_user 200 scenario.start = (Ok u, w')
    ∧ only_user (db w') 200 u
    ∧ crud.get_or_create_user 200 w' = (Ok u, w')
    ∧ User.is_active u.2 = false.
Proof.
  destruct (X6_get_or_create_user_registers_once scenario.start 200)
    as (u & w' & Hrun & Hone & Hagain & Hnew & _).
  - left. apply get_user_by_telegram_id_no_user. vm_compute. reflexivity.
  - exists u, w'. split_and!; try assumption.
    destruct Hnew as (_ & -> & _); [ | reflexivity ].
    apply get_user_by_telegram_id_no_user. vm_compute. reflexivity.
Defined.

Lemma X7_witness_tick_ten_minutes_into_the_window :
  let window :=
    mkWorld (db scenario.start) [] scenario.quiet_clock 0 [] in
  (∃ quiet w' : World,
     crud.set_do_not_disturb 1 60 window = (Ok (), quiet)
     ∧ tasks.send_task_to_user 0 (ai_service.Json scenario.translate_apple)
         1 100 quiet = (Ok (), w')
     ∧ db w' = db quiet ∧ outbox w' = outbox quiet)
  ∧ (∃ w' : World,
       crud.set_do_not_disturb 1 5260000000 window
       = (Raise Py.OverflowError, w')
       ∧ db w' = db window).
Proof.
  intros window. split.
  - destruct (X7_set_do_not_disturb_silences_ticks window 0
                (ai_service.Json scenario.translate_apple) 1 100
                scenario.learner 60) as [Hset _].
    + exact start_learner.
    + destruct (Hset (60 * scenario.minute))
        as (quiet & Hrun & _ & Hsilent & _); [ reflexivity | ].
      destruct (Hsilent quiet) as (w' & Htick & Hdb & _ & Hout).
      * reflexivity.
      * clear -Hrun. vm_compute in Hrun. injection Hrun as <-.
        vm_compute. reflexivity.
      * exists quiet, w'. auto.
  - destruct (X7_set_do_not_disturb_silences_ticks window 0
                (ai_service.Json scenario.translate_apple) 1 100
                scenario.learner 5260000000) as [_ Hraise].
    + exact start_learner.
    + destruct Hraise as (w' & Hrun & Hdb & _); [ reflexivity | ].
      exists w'. auto.
Defined.

Lemma X9_witness_stored_apple_wins :
  ∃ (word : Z * Word.t) (w' : World),
    crud.get_or_create_word " Apple" "груша" scenario.start = (Ok word, w')
    ∧ word = (1, scenario.apple) ∧ w' = scenario.start.
Proof.
  destruct (X9_get_or_create_word_keeps_stored_translation
              scenario.start " Apple" "груша")
    as (word & w' & Hrun & _ & _ & _ & Hkept).
  - reflexivity.
  - right. exists (1, scenario.apple).
    apply (get_word_by_en_only scenario.start " Apple").
    vm_compute. reflexivity.
  - exists word, w'. split; [ exact Hrun | ].
    apply Hkept. apply (get_word_by_en_only scenario.start " Apple").
    vm_compute. reflexivity.
Defined.

Lemma X11_witness_second_button_of_task_one :
  answers.parse_callback "answer_1_1" scenario.choice_pending
  = (Ok (1, 1), scenario.choice_pending)
  ∧ Py.getitem ["яблоко"; "груша"; "слива"; "вишня"] 1 = Some "груша".
Proof.
  destruct (X11_keyboard_buttons_parse_back
              ["яблоко"; "груша"; "слива"; "вишня"] 1
              scenario.choice_pending 1 ("груша", "answer_1_1"))
    as (_ & _ & Hparse & Hitem).
  - vm_compute. reflexivity.
  - split; assumption.
Defined.

Lemma X12_witness_tick_of_unknown_chat :
  tasks.send_task_to_user 0 (ai_service.Json scenario.translate_apple)
    1 200 scenario.start
  = (Ok (), scenario.start).
Proof.
  apply (X12_tick_of_unknown_or_inactive_user_is_a_no_op
           scenario.start 0 (ai_service.Json scenario.translate_apple) 1 200).
  left. apply get_user_by_telegram_id_no_user. vm_compute. reflexivity.
Defined.

Lemma X13_witness_generator_is_down :
  ∃ w' : World,
    tasks.send_task_to_user 0 ai_service.ApiError 1 100 scenario.start
    = (Ok (), w')
    ∧ db w' = db scenario.start
    ∧ outbox w' = [(100, GenerationFailed)].
Proof.
  edestruct (X13_tick_generation_failure_stores_nothing
               scenario.start 0 ai_service.ApiError 1 100
               (1, scenario.learner) (1, scenario.new_row) [])
    as (w' & Hrun & Hdb & _ & Hout).
  - vm_compute. reflexivity.
  - reflexivity.
  - exact I.
  - vm_compute. reflexivity.
  - by left.
  - exists w'. auto.
Defined.

Lemma X14_witness_payload_without_task_type :
  ∃ (w' : World) (id : Z) (task : TaskHistory.t),
    tasks.send_task_to_user 0 (ai_service.Json scenario.untyped_payload)
      1 100 scenario.start = (Ok (), w')
    ∧ task_history (db w') !! id = Some task
    ∧ TaskHistory.is_correct task = None
    ∧ TaskHistory.task_type task = "translation_to_en"
    ∧ outbox w' = outbox scenario.start.
Proof.
  destruct (X14_tick_stores_unrenderable_payload_silently
              scenario.start 0 (ai_service.Json scenario.untyped_payload)
              1 100 (1, scenario.learner) (1, scenario.new_row) []
              (after_reads 1 scenario.start) scenario.apple
              scenario.untyped_payload)
    as (w' & id & task & Hrun & _ & Hrow & Hpending & _ & _ & _ & Hkind
        & _ & Hout).
  - vm_compute. reflexivity.
  - reflexivity.
  - exact I.
  - vm_compute. reflexivity.
  - reflexivity.
  - reflexivity.
  - intros kind Hkind. discriminate.
  - exists w', id, task. split_and!; assumption.
Defined.

Lemma choice_pending_learner :
  only_user (db scenario.choice_pending) 100 (1, scenario.learner).
Proof. apply get_user_by_telegram_id_only. vm_compute. reflexivity. Qed.

Lemma translation_pending_learner :
  only_user (db scenario.translation_pending) 100 (1, scenario.learner).
Proof. apply get_user_by_telegram_id_only. vm_compute. reflexivity. Qed.

Lemma X15_witness_text_for_a_choice_task :
  answers.handle_text_answer ai_service.ApiError 100 "яблоко"
    scenario.choice_pending
  = (Ok (), sent [(100, NeedsOptionChoice)] scenario.choice_pending).
Proof.
  eassert (Htask : crud.get_last_pending_task 1 scenario.choice_pending
                   = (Ok (Some _), scenario.choice_pending)).
  { vm_compute. reflexivity. }
  apply (X15_text_is_graded_only_against_a_translation_task
           scenario.choice_pending ai_service.ApiError 100 "яблоко"
           (1, scenario.learner) _ choice_pending_learner Htask).
  intros t [= <-]. vm_compute. intros [ H | H ]; discriminate.
Defined.

Lemma X16_witness_second_try_is_graded :
  ∃ w1 w2 : World,
    answers.handle_text_answer ai_service.NotJson 100 "I eat apple"
      scenario.translation_pending = (Ok (), w1)
    ∧ db w1 = db scenario.translation_pending
    ∧ answers.handle_text_answer (ai_service.Json scenario.right_verdict)
        100 "I eat an apple" w1 = (Ok (), w2)
    ∧ (∃ task, task_history (db w2) !! 1 = Some task
               ∧ TaskHistory.user_answer task = Some "I eat an apple"
               ∧ TaskHistory.is_correct task = Some true).
Proof.
  eassert (Htask : crud.get_last_pending_task 1 scenario.translation_pending
                   = (Ok (Some (1, _)), scenario.translation_pending)).
  { vm_compute. reflexivity. }
  edestruct (X16_text_answer_can_be_retried_after_failed_check
               scenario.translation_pending ai_service.NotJson
               scenario.right_verdict 100 "I eat apple" "I eat an apple"
               (1, scenario.learner) _ (1, scenario.new_row)
               translation_pending_learner Htask)
    as (w1 & w2 & Hfailed & Hdb & _ & _ & Hgraded & Hrow & _).
  - left. reflexivity.
  - apply get_user_word_progress_only. vm_compute. reflexivity.
  - by right.
  - exists w1, w2. split_and!; try assumption.
    eexists. split; [ exact Hrow | ]. split; reflexivity.
Defined.

Lemma X17_witness_second_option_is_wrong :
  ∃ (w' : World) (task' : TaskHistory.t) (p' : UserWordProgress.t),
    answers.handle_multiple_choice_answer 100 "answer_1_1"
      scenario.choice_pending = (Ok (), w')
    ∧ task_history (db w') !! 1 = Some task'
    ∧ TaskHistory.user_answer task' = Some "груша"
    ∧ TaskHistory.is_correct task' = Some false
    ∧ user_word_progress (db w') !! 1 = Some p'
    ∧ UserWordProgress.total_answers_count p' = 1
    ∧ UserWordProgress.correct_answers_count p' = 0.
Proof.
  eassert (Htask : task_history (db scenario.choice_pending) !! 1 = Some _).
  { vm_compute. reflexivity. }
  assert (Hparse : answers.parse_callback "answer_1_1" scenario.choice_pending
                   = (Ok (1, 1), scenario.choice_pending)).
  { vm_compute. reflexivity. }
  edestruct (X17_choice_is_graded_by_comparing_indices
               scenario.choice_pending 100 "answer_1_1" 1 1
               (1, scenario.learner) _ "груша" "яблоко" 0
               (1, scenario.new_row) Hparse choice_pending_learner Htask)
    as (w' & task' & p' & feedback & Hrun & Hrow & Hanswer & Hgrade
        & Hprogress & Htotal & Hcorrect & _).
  - reflexivity.
  - vm_compute. reflexivity.
  - reflexivity.
  - vm_compute. reflexivity.
  - apply get_user_word_progress_only. vm_compute. reflexivity.
  - exists w', task', p'. split_and!; assumption.
Defined.

Lemma X18_witness_stranger_presses_the_button :
  ∃ (w' : World) (task' : TaskHistory.t),
    answers.handle_multiple_choice_answer 200 "answer_1_0"
      scenario.stranger_joined = (Raise Py.UnmappedInstanceError, w')
    ∧ task_history (db w') !! 1 = Some task'
    ∧ TaskHistory.user_id task' = 1
    ∧ TaskHistory.is_correct task' = Some true
    ∧ outbox w' = outbox scenario.stranger_joined.
Proof.
  eassert (Htask : task_history (db scenario.stranger_joined) !! 1 = Some _).
  { vm_compute. reflexivity. }
  eassert (Huser : only_user (db scenario.stranger_joined) 200 (2, _)).
  { apply get_user_by_telegram_id_only. vm_compute. reflexivity. }
  assert (Hparse : answers.parse_callback "answer_1_0"
                     scenario.stranger_joined
                   = (Ok (1, 0), scenario.stranger_joined)).
  { vm_compute. reflexivity. }
  edestruct (X18_choice_without_progress_row_commits_outcome_then_raises
               scenario.stranger_joined 200 "answer_1_0" 1 0
               _ _ "яблоко" "яблоко" 0 Hparse Huser Htask)
    as (w' & task' & Hrun & Hrow & Hgrade & _ & _ & Hout).
  - reflexivity.
  - vm_compute. reflexivity.
  - reflexivity.
  - vm_compute. reflexivity.
  - apply get_user_word_progress_no_progress. vm_compute. reflexivity.
  - exists w', task'. split_and!; try assumption.
    clear -Hrun Hrow.
    vm_compute in Hrun. injection Hrun as <-.
    vm_compute in Hrow. injection Hrow as <-. reflexivity.
Defined.

Lemma X19_witness_button_without_index :
  ∃ e : Py.exn,
    answers.handle_multiple_choice_answer 100 "answer_7"
      scenario.choice_pending = (Raise e, scenario.choice_pending)
    ∧ answers.is_answer_callback "answer_7" = true.
Proof.
  destruct (X19_short_callback_data_raises_before_any_access
              scenario.choice_pending 100 "answer_7")
    as (e & Hrun & _).
  - reflexivity.
  - vm_compute. lia.
  - exists e. split; [ exact Hrun | reflexivity ].
Defined.

Lemma X20_witness_tick_with_generator_down_returns :
  ∃ w' : World,
    tasks.send_task_to_user 0 ai_service.NotJson 1 100 scenario.two_due
    = (Ok (), w')
    ∧ user_word_progress (db w') = user_word_progress (db scenario.two_due).
Proof.
  destruct (X20_tick_returns_and_writes_tasks_only
              scenario.two_due 0 ai_service.NotJson 1 100
              (1, scenario.learner))
    as (w' & Hrun & _ & _ & Hprogress).
  - apply get_user_by_telegram_id_only. vm_compute. reflexivity.
  - exists w'. auto.
Defined.

Lemma X21_witness_restart_keeps_one_job :
  let started :=
    (tasks.start_user_scheduler 0 ai_service.ApiError 1 100 45
       scenario.one_job scenario.start).1 in
  started !! tasks.job_id 1 = Some (tasks.mkJob 45 1 100)
  ∧ started !! tasks.job_id 2 = None
  ∧ size started = 1%nat.
Proof.
  intros started.
  destruct (X21_start_and_stop_act_on_one_job
              0 ai_service.ApiError 1 100 45 2 scenario.one_job
              scenario.start)
    as (Hjob & Hother & _ & _ & _ & _ & Hsize).
  - discriminate.
  - split_and!.
    + exact Hjob.
    + unfold started. rewrite Hother. vm_compute. reflexivity.
    + unfold started. rewrite Hsize; [ reflexivity | ].
      vm_compute. eauto.
Defined.

Lemma X22_witness_learner_goes_to_bed :
  ∃ (jobs' : gmap string tasks.Job) (w' : World),
    basic_commands.cmd_sleep 100 scenario.one_job scenario.start
    = (jobs', (Ok basic_commands.GoodNight, w'))
    ∧ jobs' !! tasks.job_id 1 = None
    ∧ tasks.send_task_to_user 0 (ai_service.Json scenario.translate_apple)
        1 100 w' = (Ok (), w').
Proof.
  destruct (X22_sleep_removes_the_job_and_disarms_later_ticks
              scenario.start 100 1 scenario.learner scenario.one_job)
    as (jobs' & w' & Hrun & Hjob & _ & _ & Hticks).
  - exact start_learner.
  - exists jobs', w'. split_and!; try assumption.
    apply Hticks. reflexivity.
Defined.

Lemma X23_witness_wake_up_inside_the_window :
  let window := (crud.set_do_not_disturb 1 60 scenario.start).2 in
  ∃ (jobs' : gmap string tasks.Job) (w' : World),
    basic_commands.cmd_wake_up 0 (ai_service.Json scenario.translate_apple)
      100 ∅ window
    = (jobs', (Ok (basic_commands.Activated 30), w'))
    ∧ jobs' !! tasks.job_id 1 = Some scenario.learner_job
    ∧ task_history (db w') = task_history (db window)
    ∧ outbox w' = outbox window.
Proof.
  intros window.
  eassert (Huser : only_user (db window) 100 (1, _)).
  { apply get_user_by_telegram_id_only. vm_compute. reflexivity. }
  edestruct (X23_wake_up_registers_job_but_keeps_do_not_disturb
               window 0 (ai_service.Json scenario.translate_apple)
               100 1 _ ∅ Huser)
    as (jobs' & w' & u' & Hrun & Hjob & _ & _ & _ & Hsilent).
  destruct (Hsilent (60 * scenario.minute)) as [Htasks Hout].
  - reflexivity.
  - vm_compute. reflexivity.
  - exists jobs', w'. split_and!; assumption.
Defined.

Lemma X24_witness_two_hours_button :
  (∃ (w' : World) (u' : User.t),
     word_management.process_dnd_duration 100 "dnd_120" scenario.start
     = (Ok (word_management.DndEnabled 120), w')
     ∧ users (db w') !! 1 = Some u'
     ∧ User.do_not_disturb_until u' = Some (120 * scenario.minute))
  ∧ (∃ w' : World,
       word_management.process_dnd_duration 100
         "dnd_99999999999999999999" scenario.start
       = (Raise Py.OverflowError, w')
       ∧ db w' = db scenario.start).
Proof.
  destruct (X24_dnd_buttons_set_the_window_and_cancel_keeps_it
              scenario.start 100 1 scenario.learner)
    as (_ & Hminutes & Hraise & _).
  - exact start_learner.
  - split.
    + destruct (Hminutes 120 (120 * scenario.minute))
        as (w' & Hrun & _ & Hrow); [ reflexivity | ].
      exists w'. eexists. split_and!; [ exact Hrun | exact Hrow | ].
      reflexivity.
    + destruct (Hraise 99999999999999999999) as (w' & Hrun & Hdb & _);
        [ reflexivity | ].
      exists w'. split; [ exact Hrun | exact Hdb ].
Defined.

Lemma X25_witness_first_start_of_the_first_user :
  ∃ (u : Z * User.t) (w' : World),
    basic_commands.cmd_start 100 scenario.empty
    = (Ok basic_commands.Welcome, w')
    ∧ only_user (db w') 100 u
    ∧ covers_words (db w') u.1
    ∧ (∃ k x, words (db w') !! k = Some x ∧ Word.word_en x = "cat")
    ∧ basic_commands.cmd_start 100 w' = (Ok basic_commands.Welcome, w').
Proof.
  destruct (X25_start_gives_every_word_a_progress_row scenario.empty 100)
    as (u & w' & Hrun & Huser & Hcovers & _ & Hbase & _ & _ & Hagain).
  - left. intros k x Hk. exfalso. revert Hk. apply lookup_empty_Some.
  - intros uid k1 k2 p1 p2 H1. exfalso. revert H1. apply lookup_empty_Some.
  - exists u, w'. split_and!; try assumption.
    specialize (Hbase eq_refl).
    apply Forall_forall with (x := ("cat", "кот")) in Hbase
      as (k & x & Hk & Hen & _); [ eauto | ].
    right. right. left.
Defined.
